(** * Smart Demand Forecast: the browser scripts

    A shallow embedding of the two DOMContentLoaded scripts of the
    repository: [static/js/main.js] (module [MainJs]) and the second main
    script (module [Script]), with the JavaScript primitives they rely on
    (module [JS]) and the part of the DOM they read and write (module
    [Dom]). *)

From Stdlib Require Import String Ascii List Bool Arith NArith ZArith Lia.
Import ListNotations.

(** ** JavaScript strings and numbers

    Strings are sequences of 8-bit code units.  The scripts only test
    suffixes and substrings made of ASCII characters and parse ASCII
    digits, so the code units above 127 are inert ([toLowerCase] leaves
    them alone, no test matches them) except for the no-break space
    that [parseInt] skips. *)
Module JS.

Local Open Scope string_scope.

Definition code (c : ascii) : nat := nat_of_ascii c.

(** [String.prototype.toLowerCase], on ASCII letters. *)
Definition lower_char (c : ascii) : ascii :=
  if (65 <=? code c)%nat && (code c <=? 90)%nat
  then ascii_of_nat (code c + 32) else c.

Fixpoint toLowerCase (s : string) : string :=
  match s with
  | EmptyString => EmptyString
  | String c r => String (lower_char c) (toLowerCase r)
  end.

(** [s.endsWith(t)]: the last [length t] code units of [s] are [t]. *)
Definition endsWith (s t : string) : bool :=
  (String.length t <=? String.length s)%nat
  && String.eqb
       (substring (String.length s - String.length t) (String.length t) s) t.

(** [s.includes(t)]: [t] occurs in [s] at some position. *)
Fixpoint includes (s t : string) : bool :=
  prefix t s
  || match s with
     | EmptyString => false
     | String _ r => includes r t
     end.

(** What the tests above decide, said without the code: [s] ends with
    [t] when upper and lower case are not told apart, and [t] occurs
    in [s]. *)
Definition ends_with_ci (s t : string) : Prop :=
  exists p e, s = p ++ e /\ toLowerCase e = toLowerCase t.


(** The numbers [parseInt] returns: an integer or NaN.  The comparisons
    with NaN are false, as in the language. *)
Inductive number : Type :=
| NaN
| Int (z : Z).

Definition isNaN (n : number) : bool :=
  match n with NaN => true | Int _ => false end.

Definition lt (n : number) (m : Z) : bool :=
  match n with NaN => false | Int z => (z <? m)%Z end.

Definition gt (n : number) (m : Z) : bool :=
  match n with NaN => false | Int z => (m <? z)%Z end.

(** White space that [parseInt] strips from the front: TAB, LF, VT, FF,
    CR, SP and NBSP. *)
Definition isWhiteSpace (c : ascii) : bool :=
  ((9 <=? code c)%nat && (code c <=? 13)%nat)
  || (code c =? 32)%nat || (code c =? 160)%nat.

Fixpoint trimStart (s : string) : string :=
  match s with
  | String c r => if isWhiteSpace c then trimStart r else s
  | EmptyString => EmptyString
  end.

(** The value of a code unit as a digit: 0-9, then a-z or A-Z for 10-35. *)
Definition digitValue (c : ascii) : option Z :=
  let n := code c in
  if (48 <=? n)%nat && (n <=? 57)%nat then Some (Z.of_nat (n - 48))
  else if (97 <=? n)%nat && (n <=? 122)%nat then Some (Z.of_nat (n - 87))
  else if (65 <=? n)%nat && (n <=? 90)%nat then Some (Z.of_nat (n - 55))
  else None.

(** The longest prefix of [s] made of digits of radix [R]. *)
Fixpoint radixDigits (R : Z) (s : string) : list Z :=
  match s with
  | EmptyString => []
  | String c r =>
      match digitValue c with
      | Some d => if (d <? R)%Z then d :: radixDigits R r else []
      | None => []
      end
  end.

Definition digitsValue (R : Z) (ds : list Z) : Z :=
  fold_left (fun acc d => acc * R + d)%Z ds 0%Z.

(** [parseInt(s)] with no radix argument: leading white space is skipped,
    then an optional sign, then an optional [0x]/[0X] that selects radix
    16 (radix 10 otherwise); the longest run of digits is read and
    whatever follows is ignored; no digit at all gives NaN.  The result
    is kept as the exact integer: the handler only compares it with 1
    and 90, and rounding to a double is monotone and keeps those. *)
Definition parseInt (s : string) : number :=
  let S0 := trimStart s in
  let '(sign, S1) :=
    match S0 with
    | String c r =>
        if Ascii.eqb c "-" then ((-1)%Z, r)
        else if Ascii.eqb c "+" then (1%Z, r)
        else (1%Z, S0)
    | EmptyString => (1%Z, S0)
    end in
  let '(R, S2) :=
    match S1 with
    | String c (String x r) =>
        if Ascii.eqb c "0" && (Ascii.eqb x "x" || Ascii.eqb x "X")
        then (16%Z, r) else (10%Z, S1)
    | _ => (10%Z, S1)
    end in
  match radixDigits R S2 with
  | [] => NaN
  | ds => Int (sign * digitsValue R ds)
  end.

(** *** Rendering numbers

    [parseFloat(x.toFixed(2)) + ' ']: the number [x] rounded to the
    nearest hundredth (the larger one on a tie) and printed the way a
    Number prints, that is without trailing zeros in the fraction.  The
    number is given as the count [h] of hundredths. *)
Definition digitChar (d : N) : ascii := ascii_of_N (48 + d).

Fixpoint natural_digits (fuel : nat) (n : N) (acc : string) : string :=
  match fuel with
  | O => acc
  | S f =>
      let acc' := String (digitChar (n mod 10)) acc in
      if (n <? 10)%N then acc' else natural_digits f (n / 10) acc'
  end.

Definition natural_to_string (n : N) : string :=
  natural_digits (S (N.to_nat (N.log2 n))) n "".

(** Strings of decimal digits. *)
Definition is_digit (c : ascii) : bool :=
  (48 <=? code c)%nat && (code c <=? 57)%nat.

Fixpoint digits_only (s : string) : bool :=
  match s with
  | EmptyString => true
  | String c r => is_digit c && digits_only r
  end.

Definition hundredths_to_string (h : N) : string :=
  let ip := natural_to_string (h / 100) in
  let f := (h mod 100)%N in
  if (f =? 0)%N then ip
  else if (f mod 10 =? 0)%N then ip ++ "." ++ String (digitChar (f / 10)) ""
  else ip ++ "." ++ String (digitChar (f / 10)) (String (digitChar (f mod 10)) "").

(** *** Reading a printed number

    What a decimal numeral with at most two digits after the point
    denotes, in hundredths: [read] is the value of a string of digits,
    [hundredths_of] that of digits followed, or not, by a point and one
    or two digits. *)
Definition read (s : string) : Z := digitsValue 10 (radixDigits 10 s).

Definition digit_of (c : ascii) : N := N.of_nat (code c - 48).

Fixpoint before_point (s : string) : string :=
  match s with
  | EmptyString => EmptyString
  | String c r => if Ascii.eqb c "." then EmptyString else String c (before_point r)
  end.

Fixpoint after_point (s : string) : option string :=
  match s with
  | EmptyString => None
  | String c r => if Ascii.eqb c "." then Some r else after_point r
  end.

Definition read_digits (s : string) : option N :=
  if digits_only s && negb (String.eqb s "") then Some (Z.to_N (read s)) else None.

Definition hundredths_of (s : string) : option N :=
  match read_digits (before_point s), after_point s with
  | Some ip, None => Some (ip * 100)%N
  | Some ip, Some (String d EmptyString) =>
      if is_digit d then Some (ip * 100 + 10 * digit_of d)%N else None
  | Some ip, Some (String d1 (String d2 EmptyString)) =>
      if is_digit d1 && is_digit d2
      then Some (ip * 100 + 10 * digit_of d1 + digit_of d2)%N else None
  | _, _ => None
  end.

(** [x.toFixed(2)] for [x = a / b]: the integer [h] with [h / 100]
    closest to [x], the larger one when two are as close. *)
Definition toFixed2 (a b : N) : N := ((200 * a + b) / (2 * b))%N.

(** *** Shapes of input values

    Strings of white space, and what may follow a decimal numeral for
    [parseInt] to stop there: the end of the string, or a code unit that
    is not a decimal digit (nor the [x] that would make [0x] a
    hexadecimal prefix). *)
Fixpoint all_white (s : string) : bool :=
  match s with
  | EmptyString => true
  | String c r => isWhiteSpace c && all_white r
  end.

Definition stops_reading (rest : string) : bool :=
  match rest with
  | EmptyString => true
  | String c _ =>
      negb (is_digit c) && negb (Ascii.eqb c "x") && negb (Ascii.eqb c "X")
  end.

(** *** Text and markup

    Text that brings no tag when it is written in markup (no [<]), and
    text that is shown as it is written (no [<] and no [&], the start of
    a character reference). *)
Fixpoint no_tag (s : string) : bool :=
  match s with
  | EmptyString => true
  | String c r => negb (Ascii.eqb c "<") && no_tag r
  end.

Fixpoint plain_text (s : string) : bool :=
  match s with
  | EmptyString => true
  | String c r => negb (Ascii.eqb c "<") && negb (Ascii.eqb c "&") && plain_text r
  end.

(** The text a browser shows for markup made of tags and text: what
    stands between a [<] and the next [>] is a tag and is dropped, the
    rest is shown.  No character reference is decoded: [shown_text] is
    used on the scripts' templates, which have none, filled with plain
    text. *)
Fixpoint strip_tags (in_tag : bool) (s : string) : string :=
  match s with
  | EmptyString => EmptyString
  | String c r =>
      if in_tag then
        if Ascii.eqb c ">" then strip_tags false r else strip_tags true r
      else if Ascii.eqb c "<" then strip_tags true r
      else String c (strip_tags false r)
  end.

Definition shown_text (markup : string) : string := strip_tags false markup.

End JS.

(** ** formatFileSize

    The same function in both scripts.  [bytes] is a file size, a
    non-negative integer.  [Math.floor(Math.log(bytes) / Math.log(k))]
    is the integer logarithm of [bytes] in base [k = 1024 = 2^10], and
    [bytes / Math.pow(k, i)] divides an integer by a power of two, which
    a double does without rounding: the value handed to [toFixed] is the
    exact quotient.  The quotient of the two logarithms is a rounded
    double: it gives the integer logarithm for the sizes of the four
    units (below 1024^4), the range of the statements about the number
    printed; from 2^50 - 1 on, just below a power of 1024, the rounded
    quotient reaches the next integer, and no statement here says what
    number is printed there. *)
Module Format.

Import JS.
Local Open Scope string_scope.

Definition k : N := 1024.

Definition sizes : list string := ["Bytes"; "KB"; "MB"; "GB"].

Definition floor_log (bytes base : N) : N := (N.log2 bytes / N.log2 base)%N.

Definition formatFileSize (bytes : N) : string :=
  if (bytes =? 0)%N then "0 Bytes"
  else
    let i := floor_log bytes k in
    hundredths_to_string (toFixed2 bytes (k ^ i))
      ++ " " ++ nth (N.to_nat i) sizes "undefined".

End Format.

(** ** The document

    An element carries its own properties ([elem]); the document is the
    tree of elements under [<body>].  Every element has a [nkey], the
    identity of the JavaScript object: the scripts keep references to
    elements (the file input captured at load time, a panel found before
    the tree is changed, the panel a timer closes later) and a reference
    is a key.  [innerHTML] holds the markup a script assigned; elements
    that the browser would parse out of that markup are not nodes of the
    tree.  That is how the scripts see their own templates: the elements
    of a template have no id, are no form and carry none of the classes
    the scripts look for, so that no query of the scripts answers one of
    them.  It is not how they see a template filled with text that
    brings tags of its own (a file name with a [<] in it): the
    statements about a file whose name is written in a panel are about
    names without tags ([JS.no_tag]).

    [value] and [files] are the properties of form controls, a string
    and a list of files; on any other element they are undefined, which
    a record with these two fields cannot say.  The statements about
    pages that may lack what the scripts expect say of the elements
    whose [value] or [files] is read that they are controls
    ([is_control], [is_file_input]). *)
Module Dom.

Local Open Scope string_scope.

Record File : Type := { name : string; size : N }.

Definition key : Type := nat.

Record elem : Type := {
  nkey : key;
  tagName : string;
  id : string;
  className : list string;
  attributes : list (string * string);
  action : string;
  value : string;
  files : list File;
  innerHTML : string
}.

Local Unset Elimination Schemes.

Inductive node : Type :=
| Node (e : elem) (cs : list node).

Local Set Elimination Schemes.

(** Induction on the tree: the property holds for a node when it holds
    for each of its children. *)
Section NodeInduction.

Variable P : node -> Prop.
Hypothesis step : forall e cs, Forall P cs -> P (Node e cs).

Fixpoint node_ind (n : node) : P n :=
  match n with
  | Node e cs =>
      step e cs
        ((fix all (l : list node) : Forall P l :=
            match l with
            | [] => Forall_nil P
            | c :: r => Forall_cons c (node_ind c) (all r)
            end) cs)
  end.

End NodeInduction.

Definition elem_of (n : node) : elem := match n with Node e _ => e end.

(** Property assignments. *)
Definition set_id (s : string) (e : elem) : elem :=
  {| nkey := nkey e; tagName := tagName e; id := s; className := className e;
     attributes := attributes e; action := action e; value := value e;
     files := files e; innerHTML := innerHTML e |}.

Definition set_className (c : list string) (e : elem) : elem :=
  {| nkey := nkey e; tagName := tagName e; id := id e; className := c;
     attributes := attributes e; action := action e; value := value e;
     files := files e; innerHTML := innerHTML e |}.

Definition setAttribute (a v : string) (e : elem) : elem :=
  {| nkey := nkey e; tagName := tagName e; id := id e; className := className e;
     attributes := (a, v) :: attributes e; action := action e; value := value e;
     files := files e; innerHTML := innerHTML e |}.

Definition with_innerHTML (s : string) (e : elem) : elem :=
  {| nkey := nkey e; tagName := tagName e; id := id e; className := className e;
     attributes := attributes e; action := action e; value := value e;
     files := files e; innerHTML := s |}.

(** [input.value = v] on a file input: the only value a script may
    assign is the empty string, which empties the selection. *)
Definition clear_value (e : elem) : elem :=
  {| nkey := nkey e; tagName := tagName e; id := id e; className := className e;
     attributes := attributes e; action := action e; value := "";
     files := []; innerHTML := innerHTML e |}.

Fixpoint getAttribute (a : string) (l : list (string * string)) : option string :=
  match l with
  | [] => None
  | (b, v) :: r => if String.eqb a b then Some v else getAttribute a r
  end.

Definition has_class (c : string) (e : elem) : bool :=
  existsb (String.eqb c) (className e).

Definition has_id (i : string) (e : elem) : bool := String.eqb (id e) i.
Definition has_key (k : key) (e : elem) : bool := Nat.eqb (nkey e) k.
Definition has_tag (t : string) (e : elem) : bool := String.eqb (tagName e) t.

(** *** Tree order

    [rows_from p n] lists the elements of [n] in tree order, each with
    the key of its parent ([p] for the root of [n]). *)
Fixpoint rows_from (p : option key) (n : node) : list (option key * elem) :=
  match n with
  | Node e cs => (p, e) :: flat_map (rows_from (Some (nkey e))) cs
  end.

Definition rows (d : node) : list (option key * elem) := rows_from None d.
Definition elements (d : node) : list elem := map snd (rows d).
Definition keys (d : node) : list key := map nkey (elements d).

(** Queries return the first match in tree order. *)
Definition getElementById (i : string) (d : node) : option elem :=
  find (has_id i) (elements d).

Definition querySelector_class (c : string) (d : node) : option elem :=
  find (has_class c) (elements d).

Definition querySelectorAll_tag (t : string) (d : node) : list elem :=
  filter (has_tag t) (elements d).

(** The element a reference denotes, and its parent. *)
Definition lookup (k : key) (d : node) : option elem :=
  find (has_key k) (elements d).

Definition parentNode (k : key) (d : node) : option key :=
  match find (fun r => has_key k (snd r)) (rows d) with
  | Some (p, _) => p
  | None => None
  end.

(** *** Mutation

    [update k f d] applies [f] to the element of key [k], wherever it is
    in the tree. *)
Fixpoint update (k : key) (f : node -> node) (n : node) : node :=
  match n with
  | Node e cs =>
      let n' := Node e (map (update k f) cs) in
      if Nat.eqb (nkey e) k then f n' else n'
  end.

Definition on_elem (g : elem -> elem) (n : node) : node :=
  match n with Node e cs => Node (g e) cs end.

Definition insertChild (front : bool) (c : node) (n : node) : node :=
  match n with
  | Node e cs => Node e (if front then c :: cs else cs ++ [c])
  end.

(** [el.innerHTML = s]: the children go, the markup stays. *)
Definition assign_innerHTML (s : string) (n : node) : node :=
  match n with Node e _ => Node (with_innerHTML s e) [] end.

Definition set_elem (k : key) (g : elem -> elem) : node -> node :=
  update k (on_elem g).
Definition prepend (k : key) (c : node) : node -> node :=
  update k (insertChild true c).
Definition appendChild (k : key) (c : node) : node -> node :=
  update k (insertChild false c).
Definition set_innerHTML (k : key) (s : string) : node -> node :=
  update k (assign_innerHTML s).

(** [el.remove()]: the element leaves its parent's children, with all
    it contains. *)
Fixpoint remove (k : key) (n : node) : node :=
  match n with
  | Node e cs =>
      Node e ((fix kept (l : list node) : list node :=
                 match l with
                 | [] => []
                 | c :: r =>
                     if Nat.eqb (nkey (elem_of c)) k then kept r
                     else remove k c :: kept r
                 end) cs)
  end.

(** The row of an element after a property assignment. *)
Definition assign (k : key) (g : elem -> elem) (r : option key * elem) :
    option key * elem :=
  (fst r, if has_key k (snd r) then g (snd r) else snd r).

(** The rows after a child is put in front of the children of [k]. *)
Definition after (k : key) (c : node) (r : option key * elem) :
    list (option key * elem) :=
  if has_key k (snd r) then r :: rows_from (Some k) c else [r].

(** Counting the elements with a given id, and listing the parents. *)
Definition count_id (i : string) (d : node) : nat :=
  List.length (filter (has_id i) (elements d)).

(** *** The page state

    The document, the counter that gives new elements their identity,
    the timers set with [setTimeout] (due time and the panel to close),
    the clock in milliseconds, and the [defaultPrevented] flag of the
    event being dispatched. *)
Record timer : Type := { due : N; target : key }.

Record state : Type := {
  document : node;
  nextKey : key;
  timers : list timer;
  now : N;
  defaultPrevented : bool
}.

(** Handlers run in a state monad with failure: [None] is an uncaught
    TypeError (a property read on [null]), which ends the handler and
    keeps what it did so far. *)
Definition M (A : Type) : Type := state -> state * option A.

Definition ret {A} (a : A) : M A := fun s => (s, Some a).
Definition throw {A} : M A := fun s => (s, None).
Definition bind {A B} (m : M A) (f : A -> M B) : M B :=
  fun s => match m s with
           | (s', Some a) => f a s'
           | (s', None) => (s', None)
           end.

Definition with_document (d : node) (s : state) : state :=
  {| document := d; nextKey := nextKey s; timers := timers s; now := now s;
     defaultPrevented := defaultPrevented s |}.

Definition with_nextKey (n : key) (s : state) : state :=
  {| document := document s; nextKey := n; timers := timers s; now := now s;
     defaultPrevented := defaultPrevented s |}.

Definition with_timers (t : list timer) (s : state) : state :=
  {| document := document s; nextKey := nextKey s; timers := t; now := now s;
     defaultPrevented := defaultPrevented s |}.

Definition with_defaultPrevented (b : bool) (s : state) : state :=
  {| document := document s; nextKey := nextKey s; timers := timers s;
     now := now s; defaultPrevented := b |}.

Definition gets {A} (q : node -> A) : M A := fun s => (s, Some (q (document s))).

Definition modify_document (f : node -> node) : M unit :=
  fun s => (with_document (f (document s)) s, Some tt).

(** Reading a property of what a query returned: [null.x] throws. *)
Definition deref {A} (o : option A) : M A :=
  match o with Some a => ret a | None => throw end.

(** [document.createElement(tag)]: a new element, not yet in the tree. *)
Definition blank (k : key) (tag : string) : elem :=
  {| nkey := k; tagName := tag; id := ""; className := []; attributes := [];
     action := ""; value := ""; files := []; innerHTML := "" |}.

Definition createElement (tag : string) : M elem :=
  fun s => (with_nextKey (S (nextKey s)) s, Some (blank (nextKey s) tag)).

(** [e.preventDefault()]. *)
Definition preventDefault : M unit :=
  fun s => (with_defaultPrevented true s, Some tt).

(** A new event is dispatched. *)
Definition new_event : M unit :=
  fun s => (with_defaultPrevented false s, Some tt).

(** [setTimeout(() => new bootstrap.Alert(el).close(), delay)]. *)
Definition setTimeout_close (el : key) (delay : N) : M unit :=
  fun s =>
    (with_timers (timers s ++ [{| due := (now s + delay)%N; target := el |}]) s,
     Some tt).

Definition exec {A} (m : M A) (s : state) : state := fst (m s).

(** A handler keeps the timers that are set: it may add some, it
    never takes one away. *)
Definition keeps_timers {A} (m : M A) : Prop :=
  forall s, exists r, timers (fst (m s)) = (timers s ++ r)%list.

Definition dq : string := String (ascii_of_nat 34) EmptyString.
Definition nl : string := String (ascii_of_nat 10) EmptyString.

(** Counting the elements that carry a class. *)
Definition count_class (c : string) (d : node) : nat :=
  List.length (filter (has_class c) (elements d)).

(** A handler that leaves the timers and the clock alone. *)
Definition same_timers {A} (m : M A) : Prop :=
  forall s, timers (fst (m s)) = timers s /\ now (fst (m s)) = now s.

(** A handler that leaves the [defaultPrevented] flag of the event as it
    found it. *)
Definition same_event {A} (m : M A) : Prop :=
  forall s, defaultPrevented (fst (m s)) = defaultPrevented s.

(** A handler that never throws. *)
Definition returns {A} (m : M A) : Prop :=
  forall s, snd (m s) <> None.

(** Form controls: the elements whose [value] is a string, and among
    them the file inputs, whose [files] is a list of files. *)
Definition is_control (e : elem) : bool :=
  has_tag "input" e || has_tag "select" e || has_tag "textarea" e.

Definition is_file_input (e : elem) : bool :=
  has_tag "input" e
  && match getAttribute "type" (attributes e) with
     | Some t => String.eqb t "file"
     | None => false
     end.

End Dom.

Declare Scope js_scope.
Delimit Scope js_scope with js.
Notation "x <- m ;; k" := (Dom.bind m (fun x => k))
  (at level 61, m at next level, right associativity) : js_scope.
Notation "m ;; k" := (Dom.bind m (fun _ => k))
  (at level 61, right associativity) : js_scope.

(** ** static/js/main.js *)
Module MainJs.

Import Dom JS Format.
Local Open Scope string_scope.
Local Open Scope js_scope.

(** The element a reference denotes.  A reference to an element that has
    left the document is outside the model and counts as a failure. *)
Definition element (k : key) : M elem :=
  o <- gets (lookup k) ;; deref o.

Definition error_html (message : string) : string :=
  nl ++ "      <i class=" ++ dq ++ "fas fa-exclamation-triangle me-2" ++ dq
     ++ "></i>" ++ nl
     ++ "      <strong>Error:</strong> " ++ message ++ nl
     ++ "      <button type=" ++ dq ++ "button" ++ dq ++ " class=" ++ dq
     ++ "btn-close" ++ dq ++ " data-bs-dismiss=" ++ dq ++ "alert" ++ dq
     ++ " aria-label=" ++ dq ++ "Close" ++ dq ++ "></button>" ++ nl ++ "    ".

Definition showError (message : string) : M unit :=
  found <- gets (getElementById "error-alert") ;;
  errorAlert <-
    match found with
    | Some e => ret (nkey e)
    | None =>
        errorAlert <- createElement "div" ;;
        let errorAlert :=
          setAttribute "role" "alert"
            (set_className
               ["alert"; "alert-danger"; "alert-dismissible"; "fade"; "show"; "mt-3"]
               (set_id "error-alert" errorAlert)) in
        closeButton <- createElement "button" ;;
        let closeButton :=
          setAttribute "aria-label" "Close"
            (setAttribute "data-bs-dismiss" "alert"
               (set_className ["btn-close"]
                  (setAttribute "type" "button" closeButton))) in
        let errorAlert := Node errorAlert [Node closeButton []] in
        host <- gets (querySelector_class "card-body") ;;
        host <- deref host ;;
        modify_document (prepend (nkey host) errorAlert) ;;
        ret (nkey (elem_of errorAlert))
    end ;;
  modify_document (set_innerHTML errorAlert (error_html message)).

Definition loading_html (message : string) : string :=
  nl ++ "      <div class=" ++ dq ++ "spinner-border text-light" ++ dq
     ++ " role=" ++ dq ++ "status" ++ dq ++ ">" ++ nl
     ++ "        <span class=" ++ dq ++ "visually-hidden" ++ dq
     ++ ">Loading...</span>" ++ nl
     ++ "      </div>" ++ nl
     ++ "      <div class=" ++ dq ++ "text-light mt-3" ++ dq ++ ">" ++ message
     ++ "</div>" ++ nl ++ "    ".

Definition showLoading (message : string) : M unit :=
  loadingEl <- createElement "div" ;;
  let loadingEl :=
    with_innerHTML (loading_html message)
      (set_className ["loading-spinner"] loadingEl) in
  modify_document (insertChild false (Node loadingEl [])).

Definition file_info_html (fileName formattedSize : string) : string :=
  nl ++ "          <i class=" ++ dq ++ "fas fa-file-csv me-2" ++ dq ++ "></i>" ++ nl
     ++ "          Selected file: <strong>" ++ fileName ++ "</strong> ("
     ++ formattedSize ++ ")" ++ nl ++ "        ".

(** The [change] listener of the file input; [fileInput] is the
    reference taken at load time, which is also the event's target. *)
Definition onChange (fileInput : key) : M unit :=
  target <- element fileInput ;;
  match files target with
  | [] => ret tt
  | f :: _ =>
      let fileName := name f in
      let fileSize := size f in
      if String.eqb fileName "" then ret tt
      else
        found <- gets (getElementById "file-info") ;;
        fileInfoElement <-
          match found with
          | Some e => ret (nkey e)
          | None =>
              el <- createElement "div" ;;
              let el :=
                set_className ["alert"; "alert-info"; "mt-2"]
                  (set_id "file-info" el) in
              parent <- gets (parentNode fileInput) ;;
              parent <- deref parent ;;
              modify_document (appendChild parent (Node el [])) ;;
              ret (nkey el)
          end ;;
        let formattedSize := formatFileSize fileSize in
        modify_document
          (set_innerHTML fileInfoElement (file_info_html fileName formattedSize)) ;;
        if negb (endsWith (toLowerCase fileName) ".csv") then
          showError "Please select a CSV file." ;;
          modify_document (set_elem fileInput clear_value) ;;
          modify_document (remove fileInfoElement)
        else ret tt
  end.

(** The [submit] listener of the forecast form. *)
Definition onForecastSubmit : M unit :=
  productSelect <- gets (getElementById "product") ;;
  daysInput <- gets (getElementById "days") ;;
  productSelect <- deref productSelect ;;
  if String.eqb (value productSelect) "" then
    preventDefault ;;
    showError "Please select a product."
  else
    daysInput <- deref daysInput ;;
    let days := parseInt (value daysInput) in
    if isNaN days || lt days 1 || gt days 90 then
      preventDefault ;;
      showError "Please enter a valid number of days (1-90)."
    else
      showLoading "Generating forecast...".

(** The [submit] listener of the upload form; [fileInput] is what
    [getElementById('dataset')] returned at load time. *)
Definition onUploadSubmit (fileInput : option key) : M unit :=
  fileInput <- deref fileInput ;;
  input <- element fileInput ;;
  match files input with
  | [] =>
      preventDefault ;;
      showError "Please select a file to upload."
  | _ :: _ =>
      showLoading "Uploading and processing data..."
  end.

(** What the [DOMContentLoaded] listener captures, and the listeners it
    registers: one on the file input, one on each of the two forms, each
    only when the element exists. *)
Record refs : Type := {
  fileInput : option key;
  forecastForm : option key;
  uploadForm : option key
}.

Definition DOMContentLoaded (d : node) : refs :=
  {| fileInput := option_map nkey (getElementById "dataset" d);
     forecastForm := option_map nkey (getElementById "forecast-form" d);
     uploadForm := option_map nkey (getElementById "upload-form" d) |}.

Definition is_ref (r : option key) (k : key) : bool :=
  match r with Some k' => Nat.eqb k' k | None => false end.

(** A [submit] event on the form [form]: the listeners registered on
    that form run; a form without listener is just submitted. *)
Definition submit (r : refs) (form : key) : M unit :=
  new_event ;;
  if is_ref (forecastForm r) form then onForecastSubmit
  else if is_ref (uploadForm r) form then onUploadSubmit (fileInput r)
  else ret tt.

(** A [change] event on the element [el]. *)
Definition change (r : refs) (el : key) : M unit :=
  new_event ;;
  if is_ref (fileInput r) el then onChange el else ret tt.

(** The three statements of a rejection. *)
Definition reject (fileInput fileInfoElement : key) (message : string) : M unit :=
  showError message ;;
  modify_document (set_elem fileInput clear_value) ;;
  modify_document (remove fileInfoElement).

(** A sequence of calls of [showError], one per message; a call that
    throws does not stop the next. *)
Definition showErrors (messages : list string) (s : state) : state :=
  fold_left (fun st m => exec (showError m) st) messages s.

End MainJs.

(** ** The second main script *)
Module Script.

Import Dom JS Format.
Local Open Scope string_scope.
Local Open Scope js_scope.

Definition element (k : key) : M elem :=
  o <- gets (lookup k) ;; deref o.

Definition error_html (message : string) : string :=
  nl ++ "      <i class=" ++ dq ++ "fas fa-exclamation-triangle me-2" ++ dq
     ++ "></i>" ++ nl
     ++ "      <strong>Error:</strong> " ++ message ++ nl
     ++ "      <button type=" ++ dq ++ "button" ++ dq ++ " class=" ++ dq
     ++ "btn-close" ++ dq ++ " data-bs-dismiss=" ++ dq ++ "alert" ++ dq
     ++ " aria-label=" ++ dq ++ "Close" ++ dq ++ "></button>" ++ nl ++ "    ".

Definition showError (message : string) : M unit :=
  errorContainer <- createElement "div" ;;
  let errorContainer :=
    with_innerHTML (error_html message)
      (set_className
         ["alert"; "alert-danger"; "alert-dismissible"; "fade"; "show"]
         errorContainer) in
  container <- gets (querySelector_class "container") ;;
  match container with
  | Some c => modify_document (prepend (nkey c) (Node errorContainer []))
  | None => modify_document (insertChild true (Node errorContainer []))
  end ;;
  setTimeout_close (nkey errorContainer) 10000.

Definition loading_html (message : string) : string :=
  nl ++ "      <div class=" ++ dq ++ "spinner-container" ++ dq ++ ">" ++ nl
     ++ "        <div class=" ++ dq ++ "spinner-border text-primary" ++ dq
     ++ " role=" ++ dq ++ "status" ++ dq ++ ">" ++ nl
     ++ "          <span class=" ++ dq ++ "visually-hidden" ++ dq
     ++ ">Loading...</span>" ++ nl
     ++ "        </div>" ++ nl
     ++ "        <p class=" ++ dq ++ "mt-2 text-white" ++ dq ++ ">" ++ message
     ++ "</p>" ++ nl
     ++ "      </div>" ++ nl ++ "    ".

Definition showLoading (message : string) : M key :=
  loadingDiv <- createElement "div" ;;
  let loadingDiv :=
    with_innerHTML (loading_html message)
      (set_className ["loading-spinner"] loadingDiv) in
  modify_document (insertChild false (Node loadingDiv [])) ;;
  ret (nkey loadingDiv).

Definition file_info_html (fileName formattedSize : string) : string :=
  nl ++ "          <strong>File:</strong> " ++ fileName ++ " <br>" ++ nl
     ++ "          <strong>Size:</strong> " ++ formattedSize ++ nl
     ++ "        ".

Definition blank_info (fileInfo : option elem) : M unit :=
  match fileInfo with
  | Some fi => modify_document (set_innerHTML (nkey fi) "")
  | None => ret tt
  end.

(** The [change] listener of the file input. *)
Definition onChange (fileUpload : key) : M unit :=
  target <- element fileUpload ;;
  let fileName :=
    match files target with
    | f :: _ => if String.eqb (name f) "" then "No file selected" else name f
    | [] => "No file selected"
    end in
  let fileSize :=
    match files target with
    | f :: _ => size f
    | [] => 0%N
    end in
  fileInfo <- gets (getElementById "file-info") ;;
  match fileInfo with
  | Some fi =>
      modify_document
        (set_innerHTML (nkey fi)
           (file_info_html fileName (formatFileSize fileSize)))
  | None => ret tt
  end ;;
  (if (0 <? fileSize)%N && negb (endsWith (toLowerCase fileName) ".csv") then
     showError "Please select a CSV file" ;;
     modify_document (set_elem fileUpload clear_value) ;;
     blank_info fileInfo
   else ret tt) ;;
  (if (16 * 1024 * 1024 <? fileSize)%N then
     showError "File size exceeds 16MB limit" ;;
     modify_document (set_elem fileUpload clear_value) ;;
     blank_info fileInfo
   else ret tt).

(** The [submit] listener that every form gets. *)
Definition onFormSubmit (form : key) : M bool :=
  f <- element form ;;
  if includes (action f) "clear_dataset" then ret true
  else
    let loadingMessage :=
      match getAttribute "data-loading-message" (attributes f) with
      | Some m => if String.eqb m "" then "Processing request..." else m
      | None => "Processing request..."
      end in
    showLoading loadingMessage ;;
    ret true.

(** The three statements that both rejections share. *)
Definition reject (fileUpload : key) (fileInfo : option elem) (message : string) :
    M unit :=
  showError message ;;
  modify_document (set_elem fileUpload clear_value) ;;
  blank_info fileInfo.

Record refs : Type := {
  fileUpload : option key;
  forms : list key
}.

Definition DOMContentLoaded (d : node) : refs :=
  {| fileUpload := option_map nkey (getElementById "dataset" d);
     forms := map nkey (querySelectorAll_tag "form" d) |}.

Definition submit (r : refs) (form : key) : M unit :=
  new_event ;;
  if existsb (Nat.eqb form) (forms r) then (onFormSubmit form ;; ret tt)
  else ret tt.

Definition change (r : refs) (el : key) : M unit :=
  new_event ;;
  match fileUpload r with
  | Some k => if Nat.eqb k el then onChange el else ret tt
  | None => ret tt
  end.

(** [hideLoading(loadingElement)]: the element, if it is given and has
    a parent, is taken out of its parent's children.  [null] is [None];
    an element that is not in the document has no parent.  (The tree is
    the one under [<body>], whose own parent is not part of it.) *)
Definition hideLoading (loadingElement : option key) : M unit :=
  match loadingElement with
  | None => ret tt
  | Some el =>
      parent <- gets (parentNode el) ;;
      match parent with
      | Some _ => modify_document (remove el)
      | None => ret tt
      end
  end.

(** A sequence of calls of [showError], one per message. *)
Definition showErrors (messages : list string) (s : state) : state :=
  fold_left (fun st m => exec (showError m) st) messages s.

(** *** Timers

    The clock moves to [t]: the timers that are due fire in the order
    they were set, each closing its panel, and leave the queue.  What
    closing does to the document is Bootstrap's business
    ([bootstrap.Alert.close]) and is a parameter here. *)
Section EventLoop.

Variable Alert_close : key -> node -> node.

Definition is_due (t : N) (tm : timer) : bool := (due tm <=? t)%N.

Definition advance (t : N) (s : state) : state :=
  {| document :=
       fold_left (fun d tm => Alert_close (target tm) d)
         (filter (is_due t) (timers s)) (document s);
     nextKey := nextKey s;
     timers := filter (fun tm => negb (is_due t tm)) (timers s);
     now := N.max (now s) t;
     defaultPrevented := defaultPrevented s |}.

End EventLoop.

End Script.

(** ** A sample page

    The upload form with the file input, the forecast form with its two
    fields, the form that clears the dataset and a download form, inside
    a card.  Used to run the handlers on concrete events. *)
Module Sample.

Import Dom.
Local Open Scope string_scope.

Definition el (k : key) (tag i : string) (cls : list string) : elem :=
  {| nkey := k; tagName := tag; id := i; className := cls; attributes := [];
     action := ""; value := ""; files := []; innerHTML := "" |}.

Definition form (k : key) (i act : string) : elem :=
  {| nkey := k; tagName := "form"; id := i; className := []; attributes := [];
     action := act; value := ""; files := []; innerHTML := "" |}.

Definition field (k : key) (tag i v : string) : elem :=
  {| nkey := k; tagName := tag; id := i; className := []; attributes := [];
     action := ""; value := v; files := []; innerHTML := "" |}.

Definition file_input (k : key) (fs : list File) : elem :=
  {| nkey := k; tagName := "input"; id := "dataset"; className := ["form-control"];
     attributes := [("type", "file")]; action := "";
     value := match fs with [] => "" | f :: _ => "C:\fakepath\" ++ name f end;
     files := fs; innerHTML := "" |}.

Definition body (fs : list File) (product days : string) (extra : list node) : node :=
  Node (el 0 "body" "" [])
    [Node (el 1 "div" "" ["container"])
       [Node (el 2 "div" "" ["card-body"])
          ([Node (form 3 "upload-form" "http://localhost:5000/upload")
              [Node (file_input 4 fs) []];
            Node (form 5 "forecast-form" "http://localhost:5000/forecast")
              [Node (field 6 "select" "product" product) [];
               Node (field 7 "input" "days" days) []];
            Node (form 8 "" "http://localhost:5000/clear_dataset") [];
            Node (form 9 "" "http://localhost:5000/download") []]
           ++ extra)]].

Definition page (d : node) : state :=
  {| document := d; nextKey := 20; timers := []; now := 0;
     defaultPrevented := false |}.

Definition info_panel : node := Node (el 10 "div" "file-info" ["alert"; "alert-info"]) [].

(** Selections: a text file, an empty text file, a CSV file at the size
    limit, one byte over it, and a small one. *)
Definition notes : File := {| name := "notes.txt"; size := 2048 |}.
Definition empty_notes : File := {| name := "notes.txt"; size := 0 |}.
Definition at_limit : File := {| name := "sales.CSV"; size := 16777216 |}.
Definition over_limit : File := {| name := "sales.csv"; size := 16777217 |}.
Definition small : File := {| name := "data.csv"; size := 1024 |}.

(** The page after the user picked [f], without and with a
    file-information panel in the markup. *)
Definition selected (f : File) : state := page (body [f] "" "" []).
Definition selected_with_panel (f : File) : state :=
  page (body [f] "" "" [info_panel]).

(** A page with the upload form only, outside any card: it has no
    place for the error panel of main.js. *)
Definition bare (fs : list File) : state :=
  page (Node (el 0 "body" "" [])
          [Node (form 3 "upload-form" "http://localhost:5000/upload")
             [Node (file_input 4 fs) []]]).

(** A text file that is over the size limit. *)
Definition big_notes : File := {| name := "notes.txt"; size := 20000000 |}.

End Sample.

(** ** What the scripts expect of a page

    Keys are identities: no two elements share one, and the counter is
    above all of them.  The error panel of main.js needs a place to go:
    an [#error-alert] already there, or a [.card-body].  The two status
    panels hold markup only ([childless]), and the file-information
    panel is not itself the place where error panels go. *)
Module Page.

Import Dom.
Local Open Scope string_scope.

Definition fresh (s : state) : Prop :=
  Forall (fun k => k < nextKey s) (keys (document s)).

Definition wf (s : state) : Prop :=
  NoDup (keys (document s)) /\ fresh s.

Definition is_some {A} (o : option A) : bool :=
  match o with Some _ => true | None => false end.

Definition error_host (d : node) : bool :=
  is_some (getElementById "error-alert" d)
  || is_some (querySelector_class "card-body" d).

Definition is_parent (i : string) (d : node) (q : key) : bool :=
  existsb (fun e => has_key q e && has_id i e) (elements d).

Definition childless (i : string) (d : node) : bool :=
  forallb (fun r => match fst r with
                    | Some q => negb (is_parent i d q)
                    | None => true
                    end) (rows d).

Definition without_class (i c : string) (d : node) : bool :=
  forallb (fun e => negb (has_id i e && has_class c e)) (elements d).

(** The element [k] has no children. *)
Definition leaf_at (k : key) (d : node) : Prop :=
  forall r, In r (rows d) -> fst r <> Some k.

(** What a property assignment on [k] makes of an element. *)
Definition assigned (k : key) (g : elem -> elem) (e : elem) : elem :=
  if has_key k e then g e else e.

(** Assignments that leave an element's identity, id and classes alone:
    the scripts assign markup, and clear the file input. *)
Definition plain (g : elem -> elem) : Prop :=
  forall e, nkey (g e) = nkey e /\ id (g e) = id e /\ className (g e) = className e.

(** What the change handler of the second script relies on, at any
    point of its run: the file input [k] is on the page, and the
    file-information panel it found, if any, is another element, has no
    children and is not where error panels go. *)
Definition tracked (k : key) (fileInfo : option elem) (s : state) : Prop :=
  wf s
  /\ (exists input, lookup k (document s) = Some input)
  /\ match fileInfo with
     | Some f =>
         In (nkey f) (keys (document s))
         /\ nkey f <> k
         /\ leaf_at (nkey f) (document s)
         /\ (forall c, querySelector_class "container" (document s) = Some c ->
                       nkey c <> nkey f)
     | None => True
     end.

(** The page main.js is written for, when a change event reaches the
    file input [k]: the input has a parent, where the file-information
    panel goes when it has to be created. *)
Definition main_page (k : key) (input : elem) (s : state) : Prop :=
  wf s
  /\ lookup k (document s) = Some input
  /\ id input = "dataset"
  /\ (exists p, parentNode k (document s) = Some p)
  /\ childless "file-info" (document s) = true.

(** Where the error panel of main.js goes: the page has a place for it,
    the panel (if it is there already) holds markup only, and the
    file-information panel is not that place. *)
Definition main_error_place (d : node) : Prop :=
  error_host d = true
  /\ childless "error-alert" d = true
  /\ without_class "file-info" "card-body" d = true.

(** The file-information panel main.js creates, with its markup. *)
Definition info_panel (k : key) (markup : string) : elem :=
  {| nkey := k; tagName := "div"; id := "file-info";
     className := ["alert"; "alert-info"; "mt-2"];
     attributes := []; action := ""; value := ""; files := [];
     innerHTML := markup |}.

(** The panel main.js writes to: the one on the page, or a new one. *)
Definition main_info_key (s : state) : key :=
  match getElementById "file-info" (document s) with
  | Some f0 => nkey f0
  | None => nextKey s
  end.

(** The state once main.js has written the file's name and size. *)
Definition main_info_written (k : key) (f : File) (s : state) : state :=
  let h := MainJs.file_info_html (name f) (Format.formatFileSize (size f)) in
  match getElementById "file-info" (document s) with
  | Some f0 => with_document (set_elem (nkey f0) (with_innerHTML h) (document s)) s
  | None =>
      match parentNode k (document s) with
      | Some p =>
          with_document
            (appendChild p (Node (info_panel (nextKey s) h) []) (document s))
            (with_nextKey (S (nextKey s)) s)
      | None => with_nextKey (S (nextKey s)) s
      end
  end.

(** What the rejection of main.js relies on: the input [k] and the
    panel [fk] are two elements of the page, the panel has no children
    and is not where the error panel goes. *)
Definition main_tracked (k fk : key) (s : state) : Prop :=
  wf s
  /\ (exists input, lookup k (document s) = Some input)
  /\ fk <> k
  /\ leaf_at fk (document s)
  /\ (exists fi, In fi (elements (document s)) /\ nkey fi = fk
                 /\ has_id "file-info" fi = true
                 /\ has_class "card-body" fi = false)
  /\ (forall ea, getElementById "error-alert" (document s) = Some ea ->
                 leaf_at (nkey ea) (document s))
  /\ error_host (document s) = true.

(** The page the second script is written for, when a change event
    reaches the file input [k]. *)
Definition script_page (k : key) (input : elem) (s : state) : Prop :=
  wf s
  /\ lookup k (document s) = Some input
  /\ id input = "dataset"
  /\ childless "file-info" (document s) = true.

(** Where the error panels of the second script go: not inside the
    file-information panel. *)
Definition script_error_place (d : node) : Prop :=
  without_class "file-info" "container" d = true.

(** What the handlers read from the selection. *)
Definition shown_name (input : elem) : string :=
  match files input with
  | f :: _ => if String.eqb (name f) "" then "No file selected" else name f
  | [] => "No file selected"
  end.

Definition shown_size (input : elem) : N :=
  match files input with
  | f :: _ => size f
  | [] => 0%N
  end.

(** The document once the second script has written the file's name and
    size in the panel, if the panel is there. *)
Definition script_info_written (input : elem) (d : node) : node :=
  match getElementById "file-info" d with
  | Some f =>
      set_elem (nkey f)
        (with_innerHTML
           (Script.file_info_html (shown_name input)
              (Format.formatFileSize (shown_size input)))) d
  | None => d
  end.

(** Where the second script puts its error panels. *)
Definition error_home (d : node) : key :=
  match querySelector_class "container" d with
  | Some c => nkey c
  | None => nkey (elem_of d)
  end.

(** The loading overlay of the second script and of main.js. *)
Definition script_overlay (k : key) (message : string) : elem :=
  {| nkey := k; tagName := "div"; id := ""; className := ["loading-spinner"];
     attributes := []; action := ""; value := ""; files := [];
     innerHTML := Script.loading_html message |}.

Definition main_overlay (k : key) (message : string) : elem :=
  {| nkey := k; tagName := "div"; id := ""; className := ["loading-spinner"];
     attributes := []; action := ""; value := ""; files := [];
     innerHTML := MainJs.loading_html message |}.


(** The error panel the second script creates. *)
Definition script_error_panel (k : key) (message : string) : elem :=
  {| nkey := k; tagName := "div"; id := "";
     className := ["alert"; "alert-danger"; "alert-dismissible"; "fade"; "show"];
     attributes := []; action := ""; value := ""; files := [];
     innerHTML := Script.error_html message |}.

(** The error panel main.js creates, once its message is in. *)
Definition error_panel (k : key) (message : string) : elem :=
  {| nkey := k; tagName := "div"; id := "error-alert";
     className := ["alert"; "alert-danger"; "alert-dismissible"; "fade"; "show"; "mt-3"];
     attributes := [("role", "alert")]; action := ""; value := ""; files := [];
     innerHTML := MainJs.error_html message |}.

End Page.

(** * Facts about strings *)
Module StringFacts.

Import JS.
Local Open Scope string_scope.

Lemma append_nil_r (s : string) : s ++ "" = s.
Proof. induction s as [|c s IH]; simpl; congruence. Qed.

Lemma length_append (a b : string) :
  String.length (a ++ b) = String.length a + String.length b.
Proof. induction a as [|x a IH]; simpl; congruence. Qed.

Lemma substring_append_tail (p t : string) :
  substring (String.length p) (String.length t) (p ++ t) = t.
Proof.
  induction p as [|c p IH]; simpl.
  - induction t as [|c t IH]; simpl; congruence.
  - exact IH.
Qed.

Lemma substring_split (n : nat) :
  forall s, n <= String.length s ->
  s = substring 0 n s ++ substring n (String.length s - n) s.
Proof.
  induction n as [|n IH]; intros s H.
  - simpl. rewrite Nat.sub_0_r. clear H.
    induction s as [|c s IHs]; simpl; [reflexivity|].
    f_equal. destruct s; simpl in *; [reflexivity|]. exact IHs.
  - destruct s as [|c s]; simpl in *; [lia|].
    f_equal. apply IH. lia.
Qed.

Lemma endsWith_iff (s t : string) :
  endsWith s t = true <-> exists p, s = p ++ t.
Proof.
  unfold endsWith. rewrite andb_true_iff, Nat.leb_le, String.eqb_eq. split.
  - intros [L E].
    exists (substring 0 (String.length s - String.length t) s).
    pose proof (substring_split (String.length s - String.length t) s) as H.
    replace (String.length s - (String.length s - String.length t))
      with (String.length t) in H by lia.
    rewrite E in H. apply H. lia.
  - intros [p ->]. rewrite length_append. split; [lia|].
    replace (String.length p + String.length t - String.length t)
      with (String.length p) by lia.
    apply substring_append_tail.
Qed.

Lemma toLowerCase_append (a b : string) :
  toLowerCase (a ++ b) = toLowerCase a ++ toLowerCase b.
Proof. induction a as [|x a IH]; simpl; congruence. Qed.

Lemma toLowerCase_split (a b : string) :
  forall s, toLowerCase s = a ++ b ->
  exists p e, s = p ++ e /\ toLowerCase p = a /\ toLowerCase e = b.
Proof.
  induction a as [|x a IH]; intros s H.
  - exists "", s. auto.
  - destruct s as [|c s]; simpl in H; [discriminate|].
    injection H as Hc Hs. destruct (IH s Hs) as (p & e & -> & Hp & He).
    exists (String c p), e. simpl. rewrite Hc, Hp. auto.
Qed.

(** The extension test of both scripts decides [ends_with_ci]. *)
Lemma endsWith_lower_iff (s t : string) :
  endsWith (toLowerCase s) (toLowerCase t) = true <-> ends_with_ci s t.
Proof.
  rewrite endsWith_iff. unfold ends_with_ci. split.
  - intros [p' H]. destruct (toLowerCase_split _ _ _ H) as (p & e & -> & _ & He).
    exists p, e. auto.
  - intros (p & e & -> & He). exists (toLowerCase p).
    rewrite toLowerCase_append, He. reflexivity.
Qed.



(** The extension test, on the literal the scripts use. *)
Lemma csv_name_test (n : string) :
  endsWith (toLowerCase n) ".csv" = true <-> ends_with_ci n ".csv".
Proof. exact (endsWith_lower_iff n ".csv"). Qed.

Lemma csv_name_not_empty (n : string) : ends_with_ci n ".csv" -> n <> "".
Proof.
  intros (p & e & E & H) ->. destruct p; [|discriminate].
  simpl in E. subst e. discriminate.
Qed.

End StringFacts.

(** * Facts about parseInt *)
Module NumberFacts.

Import JS.
Local Open Scope string_scope.

Example parseInt_examples :
  parseInt "42" = Int 42 /\ parseInt "  -7 days" = Int (-7)
  /\ parseInt "0x1f" = Int 31 /\ parseInt "abc" = NaN
  /\ parseInt "" = NaN /\ parseInt "12.9" = Int 12
  /\ parseInt "+90" = Int 90 /\ parseInt "-0" = Int 0
  /\ parseInt "1e3" = Int 1 /\ parseInt "0X" = NaN /\ parseInt "007" = Int 7.
Proof. repeat split; reflexivity. Qed.

Local Open Scope Z_scope.

(** The value read from a string of digits. *)
Lemma digitValue_digit (c : ascii) :
  is_digit c = true ->
  digitValue c = Some (Z.of_nat (code c - 48)) /\ Z.of_nat (code c - 48) < 10.
Proof.
  unfold is_digit, digitValue. intros H. cbn zeta. rewrite H.
  apply andb_true_iff in H. destruct H as [L U].
  apply Nat.leb_le in L, U. split; [reflexivity | lia].
Qed.

Lemma fold_shift (l : list Z) :
  forall a,
    fold_left (fun acc d => acc * 10 + d) l a
    = a * 10 ^ Z.of_nat (List.length l) + fold_left (fun acc d => acc * 10 + d) l 0.
Proof.
  induction l as [|d l IH]; intros a.
  - simpl. lia.
  - cbn [fold_left List.length]. rewrite (IH (a * 10 + d)), (IH (0 * 10 + d)).
    rewrite Nat2Z.inj_succ, Z.pow_succ_r by lia. lia.
Qed.

Lemma radixDigits_digits (s : string) :
  digits_only s = true ->
  List.length (radixDigits 10 s) = String.length s.
Proof.
  induction s as [|c r IH]; intros H; [reflexivity|].
  cbn [digits_only] in H. apply andb_true_iff in H. destruct H as [Hc Hr].
  destruct (digitValue_digit c Hc) as [E B].
  cbn [radixDigits String.length]. rewrite E.
  replace (Z.of_nat (code c - 48) <? 10) with true by (symmetry; now apply Z.ltb_lt).
  cbn [List.length]. now rewrite IH.
Qed.

Lemma read_cons (c : ascii) (r : string) :
  is_digit c = true -> digits_only r = true ->
  read (String c r)
  = Z.of_nat (code c - 48) * 10 ^ Z.of_nat (String.length r) + read r.
Proof.
  intros Hc Hr. destruct (digitValue_digit c Hc) as [E B].
  unfold read, digitsValue. cbn [radixDigits]. rewrite E.
  replace (Z.of_nat (code c - 48) <? 10) with true by (symmetry; now apply Z.ltb_lt).
  cbn [fold_left]. rewrite fold_shift, (radixDigits_digits r Hr). lia.
Qed.

Lemma digitChar_digit (d : N) :
  (d < 10)%N ->
  is_digit (digitChar d) = true /\ Z.of_nat (code (digitChar d) - 48) = Z.of_N d.
Proof.
  intros H.
  assert (C : (d = 0 \/ d = 1 \/ d = 2 \/ d = 3 \/ d = 4 \/ d = 5 \/ d = 6
               \/ d = 7 \/ d = 8 \/ d = 9)%N) by lia.
  repeat (destruct C as [C|C]; [subst d; split; reflexivity|]).
  subst d. split; reflexivity.
Qed.

(** The digits written for [n] read back as [n]. *)
Lemma natural_digits_read (fuel : nat) :
  forall (n : N) (acc : string),
    digits_only acc = true -> (n < 10 ^ N.of_nat fuel)%N -> fuel <> O ->
    digits_only (natural_digits fuel n acc) = true
    /\ read (natural_digits fuel n acc)
       = Z.of_N n * 10 ^ Z.of_nat (String.length acc) + read acc
    /\ natural_digits fuel n acc <> "".
Proof.
  induction fuel as [|fuel IH]; intros n acc Ha Hn Hf; [contradiction|].
  cbn [natural_digits].
  assert (Hm : (n mod 10 < 10)%N) by (apply N.mod_lt; discriminate).
  destruct (digitChar_digit (n mod 10)%N Hm) as [Dc Dv].
  assert (Ha' : digits_only (String (digitChar (n mod 10)) acc) = true)
    by (cbn [digits_only]; now rewrite Dc, Ha).
  assert (Ra : read (String (digitChar (n mod 10)) acc)
               = Z.of_N (n mod 10) * 10 ^ Z.of_nat (String.length acc) + read acc)
    by (rewrite read_cons, Dv by assumption; reflexivity).
  destruct (N.ltb_spec n 10) as [Lt|Ge].
  - split; [exact Ha'|]. split; [|discriminate].
    rewrite Ra, N.mod_small by exact Lt. reflexivity.
  - assert (Hf' : fuel <> O).
    { intros ->. cbn in Hn. lia. }
    assert (Hn' : (n / 10 < 10 ^ N.of_nat fuel)%N).
    { apply N.Div0.div_lt_upper_bound.
      rewrite Nat2N.inj_succ, N.pow_succ_r' in Hn. exact Hn. }
    destruct (IH (n / 10)%N _ Ha' Hn' Hf') as (D & R & Ne).
    split; [exact D|]. split; [|exact Ne].
    rewrite R, Ra. cbn [String.length]. rewrite Nat2Z.inj_succ, Z.pow_succ_r by lia.
    rewrite (N.div_mod n 10) at 3 by discriminate.
    rewrite N2Z.inj_add, N2Z.inj_mul. change (Z.of_N 10) with 10. lia.
Qed.

Lemma natural_to_string_read (n : N) :
  digits_only (natural_to_string n) = true
  /\ read (natural_to_string n) = Z.of_N n
  /\ natural_to_string n <> "".
Proof.
  unfold natural_to_string.
  destruct (natural_digits_read (S (N.to_nat (N.log2 n))) n "" eq_refl)
    as (D & R & Ne).
  - rewrite Nat2N.inj_succ, N2Nat.id.
    destruct (N.eq_dec n 0) as [->|Nz]; [reflexivity|].
    apply N.lt_le_trans with (2 ^ N.succ (N.log2 n))%N.
    + apply N.log2_spec. lia.
    + apply N.pow_le_mono_l. lia.
  - discriminate.
  - split; [exact D|]. split; [|exact Ne]. rewrite R. cbn. lia.
Qed.

Lemma digit_code (c : ascii) : is_digit c = true -> (48 <= code c <= 57)%nat.
Proof.
  unfold is_digit. intros H. apply andb_true_iff in H.
  destruct H as [L U]. apply Nat.leb_le in L, U. lia.
Qed.

Lemma eqb_code (c d : ascii) : code c <> code d -> Ascii.eqb c d = false.
Proof.
  intros H. apply Ascii.eqb_neq. congruence.
Qed.

(** [parseInt] on a string of decimal digits reads the number. *)
Lemma parseInt_digits (s : string) :
  digits_only s = true -> s <> "" -> parseInt s = Int (read s).
Proof.
  intros D Ne. destruct s as [|c r]; [contradiction|]. clear Ne.
  cbn [digits_only] in D. apply andb_true_iff in D. destruct D as [Dc Dr].
  pose proof (digit_code c Dc) as Cc.
  assert (W : isWhiteSpace c = false).
  { unfold isWhiteSpace.
    destruct (Nat.leb_spec 9 (code c)), (Nat.leb_spec (code c) 13),
      (Nat.eqb_spec (code c) 32), (Nat.eqb_spec (code c) 160);
      try reflexivity; lia. }
  unfold parseInt. cbn [trimStart]. rewrite W.
  rewrite (eqb_code c "-") by (cbn; lia).
  rewrite (eqb_code c "+") by (cbn; lia).
  assert (Hex : match r with
                | String x r' =>
                    Ascii.eqb c "0" && (Ascii.eqb x "x" || Ascii.eqb x "X")
                | EmptyString => false
                end = false).
  { destruct r as [|x r']; [reflexivity|].
    cbn [digits_only] in Dr. apply andb_true_iff in Dr. destruct Dr as [Dx _].
    pose proof (digit_code x Dx) as Cx.
    rewrite (eqb_code x "x") by (cbn; lia).
    rewrite (eqb_code x "X") by (cbn; lia).
    apply andb_false_r. }
  assert (R : radixDigits 10 (String c r) <> []).
  { destruct (digitValue_digit c Dc) as [E B]. cbn [radixDigits]. rewrite E.
    replace (Z.of_nat (code c - 48) <? 10) with true by (symmetry; now apply Z.ltb_lt).
    discriminate. }
  destruct r as [|x r'].
  - cbn iota beta. fold (read (String c "")).
    destruct (radixDigits 10 (String c "")) eqn:E; [contradiction|].
    unfold read. rewrite E. f_equal. lia.
  - rewrite Hex. cbn iota beta.
    destruct (radixDigits 10 (String c (String x r'))) eqn:E; [contradiction|].
    unfold read. rewrite E. f_equal. lia.
Qed.

(** A whole number written in decimal is read back by [parseInt]. *)
Lemma parseInt_natural (n : N) : parseInt (natural_to_string n) = Int (Z.of_N n).
Proof.
  destruct (natural_to_string_read n) as (D & R & Ne).
  rewrite (parseInt_digits _ D Ne), R. reflexivity.
Qed.

Lemma point_after_digits (a b : string) :
  digits_only a = true ->
  before_point (a ++ String "." b) = a /\ after_point (a ++ String "." b) = Some b.
Proof.
  induction a as [|c a IH]; intros D; [split; reflexivity|].
  cbn [digits_only] in D. apply andb_true_iff in D. destruct D as [Dc Da].
  pose proof (digit_code c Dc) as Cc.
  cbn [append before_point after_point].
  rewrite (eqb_code c ".") by (cbn; lia).
  destruct (IH Da) as [B A]. rewrite B, A. split; reflexivity.
Qed.

Lemma no_point_in_digits (a : string) :
  digits_only a = true -> before_point a = a /\ after_point a = None.
Proof.
  induction a as [|c a IH]; intros D; [split; reflexivity|].
  cbn [digits_only] in D. apply andb_true_iff in D. destruct D as [Dc Da].
  pose proof (digit_code c Dc) as Cc.
  cbn [before_point after_point].
  rewrite (eqb_code c ".") by (cbn; lia).
  destruct (IH Da) as [B A]. rewrite B, A. split; reflexivity.
Qed.

Lemma read_digits_natural (n : N) : read_digits (natural_to_string n) = Some n.
Proof.
  destruct (natural_to_string_read n) as (D & R & Ne).
  unfold read_digits. rewrite D, R, N2Z.id.
  apply String.eqb_neq in Ne. rewrite Ne. reflexivity.
Qed.

Lemma digit_of_digitChar (d : N) : (d < 10)%N -> digit_of (digitChar d) = d.
Proof.
  intros H. destruct (digitChar_digit d H) as [_ E]. unfold digit_of. lia.
Qed.

(** The number printed for [h] hundredths denotes [h] hundredths. *)
Lemma hundredths_round_trip (h : N) :
  hundredths_of (hundredths_to_string h) = Some h.
Proof.
  unfold hundredths_to_string.
  destruct (natural_to_string_read (h / 100)) as (D & _ & _).
  pose proof (N.div_mod h 100 ltac:(discriminate)) as Eh.
  assert (F : (h mod 100 < 100)%N) by (apply N.mod_lt; discriminate).
  set (f := (h mod 100)%N) in *.
  pose proof (N.div_mod f 10 ltac:(discriminate)) as Ef.
  assert (F1 : (f / 10 < 10)%N) by (apply N.Div0.div_lt_upper_bound; lia).
  assert (F2 : (f mod 10 < 10)%N) by (apply N.mod_lt; discriminate).
  destruct (N.eqb_spec f 0) as [Z|NZ].
  - unfold hundredths_of. destruct (no_point_in_digits _ D) as [B A].
    rewrite B, A, read_digits_natural. f_equal. lia.
  - destruct (N.eqb_spec (f mod 10) 0) as [Z10|NZ10].
    + unfold hundredths_of.
      destruct (point_after_digits (natural_to_string (h / 100))
                  (String (digitChar (f / 10)) "") D) as [B A].
      cbn [append] in *. rewrite B, A, read_digits_natural.
      rewrite (proj1 (digitChar_digit _ F1)), digit_of_digitChar by exact F1.
      f_equal. lia.
    + unfold hundredths_of.
      destruct (point_after_digits (natural_to_string (h / 100))
                  (String (digitChar (f / 10)) (String (digitChar (f mod 10)) "")) D)
        as [B A].
      cbn [append] in *. rewrite B, A, read_digits_natural.
      rewrite (proj1 (digitChar_digit _ F1)), (proj1 (digitChar_digit _ F2)).
      rewrite !digit_of_digitChar by assumption.
      cbn [andb]. f_equal. lia.
Qed.

End NumberFacts.

(** * Facts about formatFileSize *)
Module FormatFacts.

Import JS Format.
Local Open Scope string_scope.
Local Open Scope N_scope.

Lemma k_pow (i : N) : k ^ i = 2 ^ (10 * i).
Proof. unfold k. rewrite N.pow_mul_r. reflexivity. Qed.

(** The exponent the function picks is the one whose power of 1024
    is the largest below the byte count. *)
Lemma floor_log_bounds (bytes : N) :
  0 < bytes ->
  k ^ floor_log bytes k <= bytes < k ^ (floor_log bytes k + 1).
Proof.
  intros Hpos. unfold floor_log. change (N.log2 k) with 10.
  destruct (N.log2_spec bytes Hpos) as [Lo Hi].
  set (L := N.log2 bytes) in *.
  assert (D1 : 10 * (L / 10) <= L) by apply N.Div0.mul_div_le.
  assert (D2 : L < 10 * N.succ (L / 10)) by (apply N.mul_succ_div_gt; lia).
  rewrite !k_pow. split.
  - apply N.le_trans with (2 ^ L); [|exact Lo].
    apply N.pow_le_mono_r; lia.
  - apply N.lt_le_trans with (2 ^ N.succ L); [exact Hi|].
    apply N.pow_le_mono_r; lia.
Qed.

Lemma floor_log_small (bytes : N) :
  0 < bytes < k ^ 4 -> floor_log bytes k < 4.
Proof.
  intros [Hpos Hlt]. unfold floor_log. change (N.log2 k) with 10.
  assert (L : N.log2 bytes < 40).
  { apply N.log2_lt_pow2; [exact Hpos|]. exact Hlt. }
  apply N.Div0.div_lt_upper_bound; lia.
Qed.

(** [toFixed(2)] gives the nearest count of hundredths. *)
Lemma toFixed2_nearest (a b : N) :
  0 < b ->
  2 * toFixed2 a b * b <= 200 * a + b < 2 * toFixed2 a b * b + 2 * b.
Proof.
  intros Hb. unfold toFixed2.
  assert (Nz : 2 * b <> 0) by lia.
  pose proof (N.Div0.mul_div_le (200 * a + b) (2 * b)) as Lo.
  pose proof (N.mul_succ_div_gt (200 * a + b) (2 * b) Nz) as Hi.
  set (h := (200 * a + b) / (2 * b)) in *.
  split; nia.
Qed.

Example formatFileSize_examples :
  formatFileSize 1536 = "1.5 KB"
  /\ formatFileSize 1023 = "1023 Bytes"
  /\ formatFileSize 1048575 = "1024 KB"
  /\ formatFileSize 1152 = "1.13 KB"
  /\ formatFileSize 16777216 = "16 MB"
  /\ formatFileSize 1234567 = "1.18 MB"
  /\ formatFileSize 1100 = "1.07 KB"
  /\ formatFileSize 1073741824 = "1 GB"
  /\ formatFileSize 1099511627776 = "1 undefined".
Proof. repeat split; vm_compute; reflexivity. Qed.

End FormatFacts.

(** * Facts about the document *)
Module DomFacts.

Import Dom.

Lemma flat_map_rows_map (h : node -> node) (F : option key * elem -> option key * elem)
    (cs : list node) (q : option key) :
  Forall (fun c => forall p, rows_from p (h c) = map F (rows_from p c)) cs ->
  flat_map (rows_from q) (map h cs) = map F (flat_map (rows_from q) cs).
Proof.
  induction 1 as [|c r Hc _ IH]; simpl.
  - reflexivity.
  - rewrite map_app, Hc, IH. reflexivity.
Qed.

Lemma flat_map_rows_flat_map (h : node -> node)
    (G : option key * elem -> list (option key * elem))
    (cs : list node) (q : option key) :
  Forall (fun c => forall p, rows_from p (h c) = flat_map G (rows_from p c)) cs ->
  flat_map (rows_from q) (map h cs) = flat_map G (flat_map (rows_from q) cs).
Proof.
  induction 1 as [|c r Hc _ IH]; simpl.
  - reflexivity.
  - rewrite flat_map_app, Hc, IH. reflexivity.
Qed.

Lemma rows_set_elem (g : elem -> elem) (k : key) :
  (forall e, nkey (g e) = nkey e) ->
  forall d p, rows_from p (set_elem k g d) = map (assign k g) (rows_from p d).
Proof.
  intros Hg d. induction d as [e cs IH] using node_ind. intros p.
  unfold set_elem in *. simpl.
  pose proof (flat_map_rows_map (update k (on_elem g)) (assign k g) cs
                (Some (nkey e)) IH) as E.
  cbn [map]. unfold assign at 1, has_key. cbn [fst snd].
  destruct (Nat.eqb (nkey e) k); cbn [on_elem rows_from]; [rewrite Hg|];
    rewrite E; reflexivity.
Qed.

Lemma rows_prepend (k : key) (c : node) :
  forall d p, rows_from p (prepend k c d) = flat_map (after k c) (rows_from p d).
Proof.
  intros d. induction d as [e cs IH] using node_ind. intros p.
  unfold prepend in *. simpl.
  pose proof (flat_map_rows_flat_map (update k (insertChild true c)) (after k c)
                cs (Some (nkey e)) IH) as E.
  cbn [flat_map]. unfold after at 1, has_key. cbn [fst snd].
  destruct (Nat.eqb (nkey e) k) eqn:K; cbn [insertChild rows_from flat_map];
    rewrite E.
  - apply Nat.eqb_eq in K. rewrite K. reflexivity.
  - reflexivity.
Qed.

Lemma keys_rows_from (d : node) (p q : option key) :
  map (fun r => nkey (snd r)) (rows_from p d)
  = map (fun r => nkey (snd r)) (rows_from q d).
Proof.
  destruct d as [e cs]. reflexivity.
Qed.

Lemma keys_eq (d : node) (p : option key) :
  keys d = map (fun r => nkey (snd r)) (rows_from p d).
Proof.
  unfold keys, elements, rows. rewrite map_map. apply keys_rows_from.
Qed.

Lemma keys_Node (e : elem) (cs : list node) :
  keys (Node e cs) = nkey e :: flat_map keys cs.
Proof.
  rewrite (keys_eq _ None). simpl. f_equal.
  induction cs as [|c r IH]; simpl.
  - reflexivity.
  - rewrite map_app, IH, <- keys_eq. reflexivity.
Qed.

(** An update at a key that is not in the tree changes nothing. *)
Lemma update_absent (k : key) (f : node -> node) :
  forall d, ~ In k (keys d) -> update k f d = d.
Proof.
  intros d. induction d as [e cs IH] using node_ind. intros Hk.
  rewrite keys_Node in Hk. simpl in *.
  destruct (Nat.eqb (nkey e) k) eqn:K.
  - apply Nat.eqb_eq in K. tauto.
  - f_equal. assert (Hcs : ~ In k (flat_map keys cs)) by tauto.
    clear Hk K. induction IH as [|c r Hc _ IHr]; simpl in *.
    + reflexivity.
    + rewrite in_app_iff in Hcs. rewrite Hc, IHr by tauto. reflexivity.
Qed.

Lemma update_absent_children (k : key) (f : node -> node) (cs : list node) :
  ~ In k (flat_map keys cs) -> map (update k f) cs = cs.
Proof.
  induction cs as [|c r IH]; simpl; intros H.
  - reflexivity.
  - rewrite in_app_iff in H. rewrite update_absent, IH by tauto. reflexivity.
Qed.

Lemma NoDup_app_disjoint {A} (l1 l2 : list A) (x : A) :
  NoDup (l1 ++ l2) -> In x l1 -> In x l2 -> False.
Proof.
  induction l1 as [|a l1 IH]; simpl; intros N H1 H2.
  - exact H1.
  - inversion N as [|? ? Ha N']; subst. destruct H1 as [->|H1].
    + apply Ha, in_or_app. now right.
    + now apply IH.
Qed.

(** The rows after a child is added at the end of the children of [k]:
    the rows of the child are inserted somewhere, nothing else moves. *)
Lemma rows_appendChild (k : key) (c : node) :
  forall d p, NoDup (keys d) -> In k (keys d) ->
  exists R1 R2,
    rows_from p d = R1 ++ R2
    /\ rows_from p (appendChild k c d) = R1 ++ rows_from (Some k) c ++ R2.
Proof.
  intros d. induction d as [e cs IH] using node_ind. intros p N Hk.
  rewrite keys_Node in N, Hk. unfold appendChild in *. cbn [update].
  inversion N as [|? ? Ne Ncs]; subst.
  destruct (Nat.eqb (nkey e) k) eqn:K.
  - apply Nat.eqb_eq in K. subst k.
    rewrite update_absent_children by assumption.
    exists (rows_from p (Node e cs)), []. split.
    + now rewrite app_nil_r.
    + cbn [insertChild rows_from]. rewrite flat_map_app. cbn [flat_map].
      rewrite !app_nil_r. reflexivity.
  - apply Nat.eqb_neq in K. destruct Hk as [Hk|Hk]; [contradiction|].
    assert (exists R1 R2,
               flat_map (rows_from (Some (nkey e))) cs = R1 ++ R2
               /\ flat_map (rows_from (Some (nkey e)))
                    (map (update k (insertChild false c)) cs)
                  = R1 ++ rows_from (Some k) c ++ R2) as (R1 & R2 & E1 & E2).
    { clear Ne K N. induction IH as [|c0 r Hc _ IHr]; simpl in *.
      - contradiction.
      - apply in_app_or in Hk. destruct Hk as [Hk|Hk].
        + destruct (Hc (Some (nkey e)) (NoDup_app_remove_r _ _ Ncs) Hk)
            as (R1 & R2 & E1 & E2).
          rewrite update_absent_children
            by (intros Hr; exact (NoDup_app_disjoint _ _ _ Ncs Hk Hr)).
          exists R1, (R2 ++ flat_map (rows_from (Some (nkey e))) r).
          rewrite E1, E2, <- !app_assoc. split; reflexivity.
        + destruct (IHr Hk (NoDup_app_remove_l _ _ Ncs)) as (R1 & R2 & E1 & E2).
          rewrite update_absent
            by (intros Hc0; exact (NoDup_app_disjoint _ _ _ Ncs Hc0 Hk)).
          exists (rows_from (Some (nkey e)) c0 ++ R1), R2.
          rewrite E1, E2, <- !app_assoc. split; reflexivity. }
    exists ((p, e) :: R1), R2. cbn [rows_from]. rewrite E1, E2. split; reflexivity.
Qed.

(** A panel without children: assigning its markup only changes the
    element itself. *)
Lemma set_innerHTML_leaf (k : key) (s : string) :
  forall d p,
    (forall r, In r (rows_from p d) -> fst r <> Some k) ->
    set_innerHTML k s d = set_elem k (with_innerHTML s) d.
Proof.
  intros d. induction d as [e cs IH] using node_ind. intros p L.
  unfold set_innerHTML, set_elem in *. cbn [update].
  assert (E : map (update k (assign_innerHTML s)) cs
              = map (update k (on_elem (with_innerHTML s))) cs).
  { cbn [rows_from] in L.
    assert (L' : forall r, In r (flat_map (rows_from (Some (nkey e))) cs) ->
                           fst r <> Some k)
      by (intros r Hr; apply L; now right).
    clear L. induction IH as [|c0 r Hc _ IHr]; simpl in *.
    - reflexivity.
    - rewrite (Hc (Some (nkey e))), IHr; [reflexivity| |];
        intros r0 Hr0; apply L'; apply in_or_app; tauto. }
  rewrite E. destruct (Nat.eqb (nkey e) k) eqn:K; [|reflexivity].
  apply Nat.eqb_eq in K. destruct cs as [|[e0 cs0] r]; [reflexivity|].
  exfalso. apply (L (Some (nkey e), e0)); [|cbn; now rewrite K].
  cbn. right. now left.
Qed.

(** An update of an element that is being inserted can be done before
    the insertion, when its key is new to the tree. *)
Lemma update_insert_fresh (k k' : key) (f : node -> node) (b : bool) (c : node) :
  forall d, ~ In k (keys d) ->
  update k f (update k' (insertChild b c) d)
  = update k' (insertChild b (update k f c)) d.
Proof.
  intros d. induction d as [e cs IH] using node_ind. intros Hk.
  rewrite keys_Node in Hk. cbn [update].
  assert (Ke : Nat.eqb (nkey e) k = false) by (apply Nat.eqb_neq; simpl in Hk; tauto).
  assert (E : map (update k f) (map (update k' (insertChild b c)) cs)
              = map (update k' (insertChild b (update k f c))) cs).
  { assert (Hcs : ~ In k (flat_map keys cs)) by (simpl in Hk; tauto).
    clear Hk Ke. induction IH as [|c0 r Hc _ IHr]; simpl in *.
    - reflexivity.
    - rewrite in_app_iff in Hcs. rewrite Hc, IHr by tauto. reflexivity. }
  destruct (Nat.eqb (nkey e) k'); cbn [insertChild update]; rewrite Ke.
  - destruct b; cbn [map].
    + rewrite E. reflexivity.
    + rewrite map_app, E. reflexivity.
  - rewrite E. reflexivity.
Qed.

(** Removing a panel without children takes its row away and leaves the
    other rows as they are. *)
Lemma rows_remove_leaf (k : key) :
  forall d p,
    (forall r, In r (rows_from p d) -> fst r <> Some k) ->
    nkey (elem_of d) <> k ->
    rows_from p (remove k d)
    = filter (fun r => negb (has_key k (snd r))) (rows_from p d).
Proof.
  intros d. induction d as [e cs IH] using node_ind. intros p L Hroot.
  cbn [remove rows_from filter]. unfold has_key at 1. cbn [snd elem_of] in *.
  apply Nat.eqb_neq in Hroot. rewrite Hroot. cbn [negb]. f_equal.
  assert (L' : forall r, In r (flat_map (rows_from (Some (nkey e))) cs) ->
                         fst r <> Some k)
    by (intros r Hr; apply L; cbn [rows_from]; now right).
  clear L Hroot. induction IH as [|c0 r Hc _ IHr].
  - reflexivity.
  - cbn [flat_map]. rewrite filter_app.
    assert (Lc : forall r0, In r0 (rows_from (Some (nkey e)) c0) -> fst r0 <> Some k)
      by (intros r0 Hr0; apply L'; cbn [flat_map]; apply in_or_app; tauto).
    assert (Lr : forall r0, In r0 (flat_map (rows_from (Some (nkey e))) r) ->
                            fst r0 <> Some k)
      by (intros r0 Hr0; apply L'; cbn [flat_map]; apply in_or_app; tauto).
    destruct (Nat.eqb (nkey (elem_of c0)) k) eqn:K.
    + rewrite (IHr Lr). destruct c0 as [e0 cs0]. cbn [elem_of] in K.
      destruct cs0 as [|[e1 cs1] r1].
      * cbn [rows_from flat_map filter app]. unfold has_key. cbn [snd].
        rewrite K. reflexivity.
      * exfalso. apply Nat.eqb_eq in K.
        apply (Lc (Some (nkey e0), e1)); [|cbn; now rewrite K].
        cbn. right. now left.
    + cbn [flat_map]. rewrite (IHr Lr), (Hc (Some (nkey e)) Lc); [reflexivity|].
      now apply Nat.eqb_neq.
Qed.

(** Assigning the markup of the element [k]: its row changes, the rows
    of what it contained go, nothing else moves. *)
Lemma rows_set_innerHTML (k : key) (s : string) :
  forall d p, NoDup (keys d) -> In k (keys d) ->
  exists R1 q e D R2,
    rows_from p d = R1 ++ (q, e) :: D ++ R2
    /\ nkey e = k
    /\ rows_from p (set_innerHTML k s d) = R1 ++ (q, with_innerHTML s e) :: R2.
Proof.
  intros d. induction d as [e cs IH] using node_ind. intros p N Hk.
  rewrite keys_Node in N, Hk. unfold set_innerHTML in *. cbn [update].
  inversion N as [|? ? Ne Ncs]; subst.
  destruct (Nat.eqb (nkey e) k) eqn:K.
  - apply Nat.eqb_eq in K.
    exists [], p, e, (flat_map (rows_from (Some (nkey e))) cs), [].
    rewrite app_nil_r. repeat split; assumption.
  - apply Nat.eqb_neq in K. destruct Hk as [Hk|Hk]; [contradiction|].
    assert (exists R1 q e0 D R2,
               flat_map (rows_from (Some (nkey e))) cs = R1 ++ (q, e0) :: D ++ R2
               /\ nkey e0 = k
               /\ flat_map (rows_from (Some (nkey e)))
                    (map (update k (assign_innerHTML s)) cs)
                  = R1 ++ (q, with_innerHTML s e0) :: R2)
      as (R1 & q & e0 & D & R2 & E1 & Ek & E2).
    { clear Ne K N. induction IH as [|c0 r Hc _ IHr]; simpl in *.
      - contradiction.
      - apply in_app_or in Hk. destruct Hk as [Hk|Hk].
        + destruct (Hc (Some (nkey e)) (NoDup_app_remove_r _ _ Ncs) Hk)
            as (R1 & q & e0 & D & R2 & E1 & Ek & E2).
          rewrite update_absent_children
            by (intros Hr; exact (NoDup_app_disjoint _ _ _ Ncs Hk Hr)).
          exists R1, q, e0, D, (R2 ++ flat_map (rows_from (Some (nkey e))) r).
          rewrite E1, E2. repeat split; [|assumption|];
            rewrite <- !app_assoc; cbn [app]; rewrite <- ?app_assoc; reflexivity.
        + destruct (IHr Hk (NoDup_app_remove_l _ _ Ncs))
            as (R1 & q & e0 & D & R2 & E1 & Ek & E2).
          rewrite update_absent
            by (intros Hc0; exact (NoDup_app_disjoint _ _ _ Ncs Hc0 Hk)).
          exists (rows_from (Some (nkey e)) c0 ++ R1), q, e0, D, R2.
          rewrite E1, E2, <- !app_assoc. repeat split; assumption. }
    exists ((p, e) :: R1), q, e0, D, R2. cbn [rows_from].
    rewrite E1, E2. repeat split; assumption.
Qed.

(** The parent recorded in a row is an element of the tree. *)
Lemma parents_in_keys :
  forall d p q e, In (Some q, e) (rows_from p d) -> p = Some q \/ In q (keys d).
Proof.
  intros d. induction d as [e cs IH] using node_ind. intros p q e0 H.
  rewrite keys_Node. cbn [rows_from] in H. destruct H as [H|H].
  - left. congruence.
  - right. apply in_flat_map in H. destruct H as (c & Hc & Hr).
    rewrite Forall_forall in IH. destruct (IH c Hc _ _ _ Hr) as [E|E].
    + left. congruence.
    + right. apply in_flat_map. exists c. tauto.
Qed.

(** Putting a child in front of the children of the root is [prepend]
    at the root. *)
Lemma insertChild_root (c : node) (d : node) :
  NoDup (keys d) ->
  insertChild true c d = prepend (nkey (elem_of d)) c d.
Proof.
  destruct d as [e cs]. intros N. rewrite keys_Node in N.
  inversion N as [|? ? Ne _]; subst.
  unfold prepend. cbn [update elem_of]. rewrite Nat.eqb_refl.
  rewrite update_absent_children by assumption. reflexivity.
Qed.

End DomFacts.

(** * Facts about lists of rows *)
Module RowFacts.

Import Dom DomFacts.

Lemma find_app {A} (p : A -> bool) (l1 l2 : list A) :
  find p (l1 ++ l2)
  = match find p l1 with Some x => Some x | None => find p l2 end.
Proof.
  induction l1 as [|a l1 IH]; simpl; [reflexivity|].
  destruct (p a); [reflexivity | exact IH].
Qed.

Lemma find_in {A} (p : A -> bool) (l : list A) (x : A) :
  In x l -> p x = true -> exists y, find p l = Some y.
Proof.
  intros Hx Hp. destruct (find p l) as [y|] eqn:F; [now exists y|].
  rewrite (find_none _ _ F x Hx) in Hp. discriminate.
Qed.

(** With distinct keys, an element is determined by its key. *)
Lemma key_unique {A} (f : A -> key) (l : list A) (x y : A) :
  NoDup (map f l) -> In x l -> In y l -> f x = f y -> x = y.
Proof.
  induction l as [|a l IH]; simpl; intros N Hx Hy E; [contradiction|].
  inversion N as [|? ? Ha N']; subst.
  destruct Hx as [->|Hx], Hy as [->|Hy].
  - reflexivity.
  - exfalso. apply Ha. rewrite E. now apply in_map.
  - exfalso. apply Ha. rewrite <- E. now apply in_map.
  - now apply IH.
Qed.

Lemma NoDup_drop_middle {A} (l1 l2 l3 : list A) (x y : A) :
  NoDup (l1 ++ x :: l2 ++ l3) -> NoDup (l1 ++ x :: l3).
Proof.
  induction l1 as [|a l1 IH]; simpl; intros N.
  - inversion N as [|? ? Hx N']; subst. constructor.
    + intros H. apply Hx. apply in_or_app. now right.
    + exact (NoDup_app_remove_l _ _ N').
  - inversion N as [|? ? Ha N']; subst. constructor.
    + intros H. apply Ha. rewrite in_app_iff in *. simpl in *.
      rewrite in_app_iff. tauto.
    + now apply IH.
Qed.

Lemma in_after (k : key) (c : node) (R : list (option key * elem))
    (x : option key * elem) :
  In x (flat_map (after k c) R) ->
  In x R \/ (In x (rows_from (Some k) c) /\ In k (map (fun r => nkey (snd r)) R)).
Proof.
  induction R as [|r R IH]; simpl; [tauto|].
  rewrite in_app_iff. intros [H|H].
  - unfold after, has_key in H. destruct (Nat.eqb_spec (nkey (snd r)) k) as [E|E].
    + destruct H as [H|H]; [tauto|]. right. split; [assumption | now left].
    + destruct H as [H|[]]. tauto.
  - destruct (IH H) as [H'|[H1 H2]]; tauto.
Qed.

Lemma in_after_old (k : key) (c : node) (R : list (option key * elem))
    (x : option key * elem) :
  In x R -> In x (flat_map (after k c) R).
Proof.
  intros H. apply in_flat_map. exists x. split; [assumption|].
  unfold after. destruct (has_key k (snd x)); now left.
Qed.

Lemma after_absent (k : key) (c : node) (R : list (option key * elem)) :
  ~ In k (map (fun r => nkey (snd r)) R) -> flat_map (after k c) R = R.
Proof.
  induction R as [|r R IH]; simpl; intros H; [reflexivity|].
  unfold after at 1, has_key. destruct (Nat.eqb_spec (nkey (snd r)) k) as [E|E].
  - tauto.
  - simpl. rewrite IH by tauto. reflexivity.
Qed.

(** A new panel put in front of the children of [k] is the first match
    of a query that had none. *)
Lemma find_after_new (p : elem -> bool) (k : key) (e : elem)
    (R : list (option key * elem)) :
  find p (map snd R) = None -> p e = true ->
  In k (map (fun r => nkey (snd r)) R) ->
  find p (map snd (flat_map (after k (Node e [])) R)) = Some e.
Proof.
  induction R as [|r R IH]; simpl; intros F Pe Hk; [contradiction|].
  destruct (p (snd r)) eqn:Pr; [discriminate|].
  rewrite map_app, find_app.
  unfold after at 1, has_key. destruct (Nat.eqb_spec (nkey (snd r)) k) as [E|E].
  - simpl. rewrite Pr, Pe. reflexivity.
  - simpl. rewrite Pr. apply IH; tauto.
Qed.

(** A query that the new panel does not match gives what it gave. *)
Lemma find_after_other (p : elem -> bool) (k : key) (e : elem)
    (R : list (option key * elem)) :
  p e = false ->
  find p (map snd (flat_map (after k (Node e [])) R)) = find p (map snd R).
Proof.
  intros Pe. induction R as [|r R IH]; simpl; [reflexivity|].
  rewrite map_app, find_app. unfold after at 1.
  destruct (has_key k (snd r)); simpl; destruct (p (snd r)); try reflexivity.
  - rewrite Pe. exact IH.
  - exact IH.
Qed.

Lemma NoDup_after (k n : key) (e : elem) (R : list (option key * elem)) :
  nkey e = n ->
  NoDup (map (fun r => nkey (snd r)) R) ->
  ~ In n (map (fun r => nkey (snd r)) R) ->
  NoDup (map (fun r => nkey (snd r)) (flat_map (after k (Node e [])) R)).
Proof.
  intros En. induction R as [|r R IH]; simpl; intros N Hn; [constructor|].
  inversion N as [|? ? Hr N']; subst.
  rewrite map_app. unfold after at 1, has_key.
  destruct (Nat.eqb_spec (nkey (snd r)) k) as [E|E]; simpl.
  - rewrite after_absent by (rewrite <- E; exact Hr).
    constructor; [|constructor; [tauto | exact N']].
    simpl. intros [H|H]; [|contradiction]. apply Hn. left. congruence.
  - constructor; [|apply IH; tauto].
    intros H. apply in_map_iff in H. destruct H as (x & Ex & Hx).
    apply in_after in Hx. destruct Hx as [Hx|[Hx _]].
    + apply Hr. apply in_map_iff. now exists x.
    + simpl in Hx. destruct Hx as [<-|[]]. simpl in Ex. apply Hn. left. congruence.
Qed.

Lemma find_first_split {A} (f : A -> key) (p : A -> bool) (l1 l2 : list A) (x : A) :
  NoDup (map f (l1 ++ x :: l2)) -> find p (l1 ++ x :: l2) = Some x ->
  find p l1 = None.
Proof.
  intros N F. rewrite find_app in F. destruct (find p l1) as [a|] eqn:F1; [|reflexivity].
  injection F as ->. exfalso. apply find_some in F1. destruct F1 as [Hx _].
  rewrite map_app in N. apply (NoDup_app_disjoint _ _ (f x) N).
  - now apply in_map.
  - now left.
Qed.

Lemma in_after_new (k : key) (c : node) (R : list (option key * elem))
    (x : option key * elem) :
  In k (map (fun r => nkey (snd r)) R) -> In x (rows_from (Some k) c) ->
  In x (flat_map (after k c) R).
Proof.
  intros Hk Hx. apply in_map_iff in Hk. destruct Hk as (r & E & Hr).
  apply in_flat_map. exists r. split; [assumption|].
  unfold after, has_key. rewrite E, Nat.eqb_refl. now right.
Qed.

(** *** Assignments *)

Lemma elements_set_elem (k : key) (g : elem -> elem) (d : node) :
  Page.plain g ->
  elements (set_elem k g d) = map (Page.assigned k g) (elements d).
Proof.
  intros G. unfold elements, rows.
  rewrite rows_set_elem by (intros e; apply G).
  rewrite !map_map. reflexivity.
Qed.

Lemma keys_set_elem (k : key) (g : elem -> elem) (d : node) :
  Page.plain g -> keys (set_elem k g d) = keys d.
Proof.
  intros G. unfold keys. rewrite elements_set_elem by assumption.
  rewrite map_map. apply map_ext. intros e. unfold Page.assigned.
  destruct (has_key k e); [apply G | reflexivity].
Qed.

Lemma leaf_at_set_elem (k y : key) (g : elem -> elem) (d : node) :
  Page.plain g -> Page.leaf_at y d -> Page.leaf_at y (set_elem k g d).
Proof.
  intros G L r Hr. unfold rows in Hr.
  rewrite rows_set_elem in Hr by (intros e; apply G).
  apply in_map_iff in Hr. destruct Hr as (r0 & <- & Hr0). apply (L r0 Hr0).
Qed.

Lemma find_map_assigned (p : elem -> bool) (k : key) (g : elem -> elem)
    (l : list elem) :
  (forall e, p (g e) = p e) ->
  find p (map (Page.assigned k g) l) = option_map (Page.assigned k g) (find p l).
Proof.
  intros Pg. induction l as [|a l IH]; simpl; [reflexivity|].
  replace (p (Page.assigned k g a)) with (p a)
    by (unfold Page.assigned; destruct (has_key k a); [now rewrite Pg | reflexivity]).
  destruct (p a); [reflexivity | exact IH].
Qed.

Lemma nkey_assigned (k : key) (g : elem -> elem) (e : elem) :
  Page.plain g -> nkey (Page.assigned k g e) = nkey e.
Proof.
  intros G. unfold Page.assigned. destruct (has_key k e); [apply G | reflexivity].
Qed.

Lemma plain_has_key (g : elem -> elem) (k : key) :
  Page.plain g -> forall e, has_key k (g e) = has_key k e.
Proof. intros G e. unfold has_key. now rewrite (proj1 (G e)). Qed.

Lemma plain_has_id (g : elem -> elem) (i : string) :
  Page.plain g -> forall e, has_id i (g e) = has_id i e.
Proof. intros G e. unfold has_id. now rewrite (proj1 (proj2 (G e))). Qed.

Lemma plain_has_class (g : elem -> elem) (c : string) :
  Page.plain g -> forall e, has_class c (g e) = has_class c e.
Proof. intros G e. unfold has_class. now rewrite (proj2 (proj2 (G e))). Qed.

Lemma plain_with_innerHTML (h : string) : Page.plain (with_innerHTML h).
Proof. intros e. repeat split. Qed.

Lemma plain_clear_value : Page.plain clear_value.
Proof. intros e. repeat split. Qed.

(** *** A new panel in front of the children of an element *)

Lemma leaf_at_prepend (k y : key) (e : elem) (d : node) :
  k <> y -> Page.leaf_at y d -> Page.leaf_at y (prepend k (Node e []) d).
Proof.
  intros Ky L r Hr. unfold rows in Hr. rewrite rows_prepend in Hr.
  apply in_after in Hr. destruct Hr as [Hr|[Hr _]].
  - apply (L r Hr).
  - simpl in Hr. destruct Hr as [<-|[]]. simpl. congruence.
Qed.

Lemma keys_as_rows (d : node) : keys d = map (fun r => nkey (snd r)) (rows d).
Proof. unfold keys, elements. apply map_map. Qed.

Lemma find_prepend_other (p : elem -> bool) (k : key) (e : elem) (d : node) :
  p e = false ->
  find p (elements (prepend k (Node e []) d)) = find p (elements d).
Proof.
  intros Pe. unfold elements, rows. rewrite rows_prepend.
  now apply find_after_other.
Qed.

Lemma in_prepend_old (k : key) (c : node) (d : node) (x : elem) :
  In x (elements d) -> In x (elements (prepend k c d)).
Proof.
  unfold elements, rows. rewrite rows_prepend. intros Hx.
  apply in_map_iff in Hx. destruct Hx as (r & <- & Hr).
  apply in_map. now apply in_after_old.
Qed.

Lemma in_prepend_new (k : key) (e : elem) (d : node) :
  In k (keys d) -> In e (elements (prepend k (Node e []) d)).
Proof.
  intros Hk. unfold elements, rows. rewrite rows_prepend.
  apply in_map_iff. exists (Some k, e). split; [reflexivity|].
  apply in_after_new; [|now left]. now rewrite <- keys_as_rows.
Qed.

Lemma in_prepend_inv (k : key) (e : elem) (d : node) (x : elem) :
  In x (elements (prepend k (Node e []) d)) -> In x (elements d) \/ x = e.
Proof.
  unfold elements, rows. rewrite rows_prepend. intros Hx.
  apply in_map_iff in Hx. destruct Hx as (r & <- & Hr).
  apply in_after in Hr. destruct Hr as [Hr|[Hr _]].
  - left. now apply in_map.
  - right. simpl in Hr. destruct Hr as [<-|[]]. reflexivity.
Qed.

Lemma NoDup_prepend (k : key) (e : elem) (d : node) :
  NoDup (keys d) -> ~ In (nkey e) (keys d) ->
  NoDup (keys (prepend k (Node e []) d)).
Proof.
  intros N F. rewrite keys_as_rows. unfold rows. rewrite rows_prepend.
  apply (NoDup_after _ (nkey e)); [reflexivity | |]; now rewrite <- keys_as_rows.
Qed.

(** *** A new panel at the end of the children of an element *)

Lemma rows_appendChild_leaf (k : key) (e : elem) (d : node) :
  NoDup (keys d) -> In k (keys d) ->
  exists R1 R2,
    rows d = R1 ++ R2
    /\ rows (appendChild k (Node e []) d) = R1 ++ (Some k, e) :: R2.
Proof.
  intros N Hk. destruct (rows_appendChild k (Node e []) d None N Hk)
    as (R1 & R2 & E1 & E2).
  exists R1, R2. split; assumption.
Qed.

Lemma find_insert_other {A} (p : A -> bool) (l1 l2 : list A) (x : A) :
  p x = false -> find p (l1 ++ x :: l2) = find p (l1 ++ l2).
Proof.
  intros Px. rewrite !find_app. cbn [find]. now rewrite Px.
Qed.

Lemma find_insert_new {A} (p : A -> bool) (l1 l2 : list A) (x : A) :
  p x = true -> find p (l1 ++ l2) = None -> find p (l1 ++ x :: l2) = Some x.
Proof.
  intros Px F. rewrite find_app in *. cbn [find]. rewrite Px.
  destruct (find p l1); [discriminate | reflexivity].
Qed.

Lemma NoDup_insert {A} (l1 l2 : list A) (x : A) :
  NoDup (l1 ++ l2) -> ~ In x (l1 ++ l2) -> NoDup (l1 ++ x :: l2).
Proof.
  intros N H. apply (NoDup_Add (Add_app x l1 l2)). split; assumption.
Qed.

(** *** Removing a panel without children *)

Lemma find_filter_keep {A} (p q : A -> bool) (l : list A) :
  (forall x, In x l -> p x = true -> q x = true) ->
  find p (filter q l) = find p l.
Proof.
  induction l as [|a l IH]; simpl; intros H; [reflexivity|].
  destruct (q a) eqn:Qa; simpl.
  - destruct (p a); [reflexivity|]. apply IH. intros x Hx. apply H. now right.
  - destruct (p a) eqn:Pa.
    + rewrite (H a) in Qa by auto. discriminate.
    + apply IH. intros x Hx. apply H. now right.
Qed.

Lemma elements_remove_leaf (k : key) (d : node) :
  Page.leaf_at k d -> nkey (elem_of d) <> k ->
  elements (remove k d) = filter (fun e => negb (has_key k e)) (elements d).
Proof.
  intros L R. unfold elements, rows. rewrite (rows_remove_leaf k d None L R).
  generalize (rows_from None d). intros l.
  induction l as [|a l IH]; simpl; [reflexivity|].
  destruct (has_key k (snd a)); simpl; now rewrite IH.
Qed.

Lemma leaf_root (y : key) (d : node) (x : elem) :
  Page.leaf_at y d -> In x (elements d) -> nkey x <> y -> nkey (elem_of d) <> y.
Proof.
  destruct d as [e cs]. intros L Hx Xy E. cbn [elem_of] in E.
  unfold elements, rows in Hx. cbn [rows_from map snd] in Hx.
  destruct Hx as [<-|Hx]; [contradiction|].
  destruct cs as [|[e0 cs0] r]; [contradiction|].
  apply (L (Some (nkey e), e0)); [|cbn; now rewrite E].
  unfold rows. cbn. right. now left.
Qed.

Lemma childless_leaf (i : string) (d : node) (f : elem) :
  Page.childless i d = true -> In f (elements d) -> has_id i f = true ->
  Page.leaf_at (nkey f) d.
Proof.
  unfold Page.childless. rewrite forallb_forall. intros C Hf If r Hr E.
  specialize (C r Hr). rewrite E in C. apply negb_true_iff in C.
  unfold Page.is_parent in C. rewrite <- not_true_iff_false in C. apply C.
  apply existsb_exists. exists f. split; [exact Hf|].
  unfold has_key. now rewrite Nat.eqb_refl, If.
Qed.

Lemma filter_at_most_one {A} (f : A -> key) (p : A -> bool) (n : key) (l : list A) :
  NoDup (map f l) -> (forall x, In x l -> p x = true -> f x = n) ->
  List.length (filter p l) <= 1.
Proof.
  induction l as [|a l IH]; simpl; intros N H; [lia|].
  inversion N as [|? ? Ha N']; subst.
  destruct (p a) eqn:Pa; [|apply IH; auto].
  simpl. assert (E : filter p l = []); [|rewrite E; simpl; lia].
  destruct (filter p l) as [|b r] eqn:F; [reflexivity|]. exfalso.
  assert (Hb : In b (filter p l)) by (rewrite F; now left).
  apply filter_In in Hb. destruct Hb as [Hb Pb].
  apply Ha. rewrite (H a) by auto. rewrite <- (H b) by auto. now apply in_map.
Qed.

End RowFacts.

(** * Facts about main.js *)
Module MainJsFacts.

Import Dom Page RowFacts DomFacts.
Local Open Scope string_scope.
Local Open Scope list_scope.

Lemma Forall_keys_lt (n m : key) (l : list key) :
  n <= m -> Forall (fun k => k < n) l -> Forall (fun k => k < m) l.
Proof.
  intros L. apply Forall_impl. intros k Hk. lia.
Qed.

Lemma fresh_not_in (s : state) : fresh s -> ~ In (nextKey s) (keys (document s)).
Proof.
  unfold fresh. rewrite Forall_forall. intros F H. specialize (F _ H). lia.
Qed.

(** [showError] when the panel is there: its markup is replaced. *)
Lemma showError_found (s : state) (m : string) (ea : elem) :
  getElementById "error-alert" (document s) = Some ea ->
  MainJs.showError m s
  = (with_document
       (set_innerHTML (nkey ea) (MainJs.error_html m) (document s)) s, Some tt).
Proof.
  intros F. unfold MainJs.showError, bind, gets. rewrite F. reflexivity.
Qed.

(** [showError] when there is no panel: one is created, with its close
    button, and put in front of the first [.card-body]; the markup then
    replaces the button. *)
Lemma showError_created (s : state) (m : string) (cb : elem) :
  fresh s ->
  getElementById "error-alert" (document s) = None ->
  querySelector_class "card-body" (document s) = Some cb ->
  MainJs.showError m s
  = (with_document
       (prepend (nkey cb) (Node (error_panel (nextKey s) m) []) (document s))
       (with_nextKey (S (S (nextKey s))) s), Some tt).
Proof.
  intros Fr F C. unfold MainJs.showError, bind, gets. rewrite F.
  cbn [createElement with_nextKey document nextKey fst snd].
  rewrite C. unfold set_innerHTML, prepend, modify_document.
  cbn [deref ret with_document with_nextKey document nextKey timers now
       defaultPrevented elem_of nkey blank set_id set_className setAttribute].
  rewrite update_insert_fresh by (apply fresh_not_in; exact Fr).
  cbn [update map nkey blank set_id set_className setAttribute].
  rewrite Nat.eqb_refl.
  replace (Nat.eqb (S (nextKey s)) (nextKey s)) with false
    by (symmetry; apply Nat.eqb_neq; lia).
  reflexivity.
Qed.

(** [showError] on a page with no place for the panel: the call to
    [prepend] on [null] throws. *)
Lemma showError_throws (s : state) (m : string) :
  getElementById "error-alert" (document s) = None ->
  querySelector_class "card-body" (document s) = None ->
  MainJs.showError m s = (with_nextKey (S (S (nextKey s))) s, None).
Proof.
  intros F C. unfold MainJs.showError, bind, gets. rewrite F.
  cbn [createElement with_nextKey document nextKey fst snd].
  rewrite C. reflexivity.
Qed.

(** What a call of [showError] that finds the panel leaves behind. *)
Lemma showError_reuse (s : state) (m : string) (ea : elem) :
  NoDup (keys (document s)) ->
  getElementById "error-alert" (document s) = Some ea ->
  let d' := set_innerHTML (nkey ea) (MainJs.error_html m) (document s) in
  getElementById "error-alert" d' = Some (with_innerHTML (MainJs.error_html m) ea)
  /\ NoDup (keys d')
  /\ incl (keys d') (keys (document s))
  /\ count_id "error-alert" d' <= count_id "error-alert" (document s).
Proof.
  intros N F d'. destruct (find_some _ _ F) as [Hin Hid].
  assert (Hk : In (nkey ea) (keys (document s))) by (apply in_map; exact Hin).
  destruct (rows_set_innerHTML (nkey ea) (MainJs.error_html m) (document s) None N Hk)
    as (R1 & q & e & D & R2 & E1 & Ek & E2).
  assert (Ed : elements (document s) = map snd R1 ++ e :: map snd D ++ map snd R2).
  { unfold elements, rows. rewrite E1, map_app. cbn [map snd].
    rewrite map_app. reflexivity. }
  assert (Ed' : elements d'
                = map snd R1 ++ with_innerHTML (MainJs.error_html m) e :: map snd R2).
  { unfold elements, rows, d'. rewrite E2, map_app. reflexivity. }
  clearbody d'.
  assert (Ee : e = ea).
  { apply (key_unique nkey (elements (document s))); try assumption.
    rewrite Ed. apply in_or_app. right. now left. }
  subst e.
  assert (F1 : find (has_id "error-alert") (map snd R1) = None).
  { apply (find_first_split nkey _ _ (map snd D ++ map snd R2) ea).
    - rewrite <- Ed. exact N.
    - rewrite <- Ed. exact F. }
  unfold keys in *. rewrite Ed' . rewrite Ed in N. repeat split.
  - unfold getElementById. rewrite Ed', find_app, F1. cbn [find].
    unfold has_id in *. cbn [id with_innerHTML]. rewrite Hid. reflexivity.
  - rewrite map_app in *. cbn [map nkey with_innerHTML] in *.
    rewrite map_app in N. exact (NoDup_drop_middle _ _ _ _ (nkey ea) N).
  - rewrite Ed. intros k. rewrite !map_app. cbn [map nkey with_innerHTML].
    rewrite !in_app_iff. cbn [In]. rewrite map_app, in_app_iff. tauto.
  - unfold count_id. rewrite Ed, Ed', !filter_app. cbn [filter].
    change (has_id "error-alert" (with_innerHTML (MainJs.error_html m) ea))
      with (has_id "error-alert" ea).
    rewrite Hid, !length_app. cbn [List.length]. rewrite filter_app, length_app. lia.
Qed.

(** What a call of [showError] that creates the panel leaves behind. *)
Lemma showError_new (s : state) (m : string) (cb : elem) :
  wf s ->
  getElementById "error-alert" (document s) = None ->
  querySelector_class "card-body" (document s) = Some cb ->
  let ep := error_panel (nextKey s) m in
  let d' := prepend (nkey cb) (Node ep []) (document s) in
  getElementById "error-alert" d' = Some ep
  /\ NoDup (keys d')
  /\ (forall x, In x (elements d') -> In x (elements (document s)) \/ x = ep)
  /\ count_id "error-alert" d' <= 1.
Proof.
  intros [N Fr] F C ep d'.
  assert (R : rows d' = flat_map (after (nkey cb) (Node ep [])) (rows (document s)))
    by apply rows_prepend.
  destruct (find_some _ _ C) as [Hcb _].
  assert (Hk : In (nkey cb) (map (fun r => nkey (snd r)) (rows (document s))))
    by (rewrite <- keys_as_rows; apply in_map; exact Hcb).
  assert (N' : NoDup (keys d')).
  { rewrite keys_as_rows, R. apply (NoDup_after _ (nextKey s)).
    - reflexivity.
    - rewrite <- keys_as_rows. exact N.
    - rewrite <- keys_as_rows. apply fresh_not_in. exact Fr. }
  assert (I : forall x, In x (elements d') -> In x (elements (document s)) \/ x = ep).
  { intros x Hx. unfold elements in Hx. rewrite R in Hx.
    apply in_map_iff in Hx. destruct Hx as (r & <- & Hr).
    apply in_after in Hr. destruct Hr as [Hr|[Hr _]].
    - left. unfold elements. now apply in_map.
    - right. simpl in Hr. destruct Hr as [<-|[]]. reflexivity. }
  repeat split; try assumption.
  - unfold getElementById, elements. rewrite R. apply find_after_new; auto.
  - unfold count_id. apply (filter_at_most_one nkey _ (nextKey s)); [exact N'|].
    intros x Hx Px. destruct (I x Hx) as [Hx'| ->]; [|reflexivity].
    rewrite (find_none _ _ F x Hx') in Px. discriminate.
Qed.

(** [showError] on a page with keys in order and a place for the panel:
    the call returns, the panel with the message is the page's
    [#error-alert], no timer is set, the event is left as it is, and
    every element that is not the panel was there before. *)
Lemma showError_spec (s : state) (m : string) :
  wf s -> error_host (document s) = true ->
  exists s',
    MainJs.showError m s = (s', Some tt)
    /\ wf s'
    /\ (exists ea, getElementById "error-alert" (document s') = Some ea
                   /\ innerHTML ea = MainJs.error_html m)
    /\ timers s' = timers s /\ now s' = now s
    /\ defaultPrevented s' = defaultPrevented s
    /\ (forall x, In x (elements (document s')) ->
                  has_id "error-alert" x = false -> In x (elements (document s)))
    /\ (forall x, In x (elements (document s')) ->
                  In (nkey x) (keys (document s)) \/ x = error_panel (nextKey s) m)
    /\ count_id "error-alert" (document s')
       <= Nat.max 1 (count_id "error-alert" (document s)).
Proof.
  intros W H. destruct W as [N Fr]. unfold error_host in H.
  destruct (getElementById "error-alert" (document s)) as [ea|] eqn:F.
  - destruct (showError_reuse s m ea N F) as (G & N' & I & Cn).
    eexists. split; [apply showError_found; exact F|].
    cbn [document with_document timers now defaultPrevented].
    repeat split; try assumption.
    + unfold fresh in *. cbn [document with_document nextKey].
      rewrite Forall_forall in *. intros k Hk. apply Fr, I, Hk.
    + eexists. split; [exact G | reflexivity].
    + intros x Hx Px.
      destruct (find_some _ _ F) as [Hin Hid].
      assert (Hk : In (nkey ea) (keys (document s))) by (apply in_map; exact Hin).
      destruct (rows_set_innerHTML (nkey ea) (MainJs.error_html m) (document s)
                  None N Hk) as (R1 & q & e & D & R2 & E1 & Ek & E2).
      unfold elements, rows in *. rewrite E2 in Hx. rewrite E1.
      rewrite map_app in *. cbn [map snd] in *. rewrite map_app.
      rewrite in_app_iff in *. cbn [In] in *. rewrite in_app_iff.
      destruct Hx as [Hx|[Hx|Hx]]; try tauto.
      exfalso. subst x.
      assert (Ee : e = ea).
      { apply (key_unique nkey (map snd (rows_from None (document s)))); try assumption.
        rewrite E1, map_app. apply in_or_app. right. now left. }
      subst e. unfold has_id in *. cbn [id with_innerHTML] in Px. congruence.
    + intros x Hx. left. apply I. now apply in_map.
    + lia.
  - destruct (querySelector_class "card-body" (document s)) as [cb|] eqn:C;
      [|discriminate].
    destruct (showError_new s m cb (conj N Fr) F C) as (G & N' & I & Cn).
    eexists. split; [exact (showError_created s m cb Fr F C)|].
    cbn [document with_document with_nextKey timers now defaultPrevented].
    repeat split; try assumption.
    + unfold fresh in *. cbn [document with_document with_nextKey nextKey].
      rewrite Forall_forall in *. intros k Hk. unfold keys in Hk.
      apply in_map_iff in Hk. destruct Hk as (x & <- & Hx).
      destruct (I x Hx) as [Hx'| ->].
      * specialize (Fr (nkey x) (in_map nkey _ _ Hx')). lia.
      * cbn. lia.
    + eexists. split; [exact G | reflexivity].
    + intros x Hx Px. destruct (I x Hx) as [Hx'| ->]; [assumption | discriminate].
    + intros x Hx. destruct (I x Hx) as [Hx'| ->]; [left; now apply in_map | now right].
    + lia.
Qed.

Lemma innerHTML_assigned_clear (k : key) (e : elem) :
  innerHTML (assigned k clear_value e) = innerHTML e.
Proof. unfold assigned. destruct (has_key k e); reflexivity. Qed.

Lemma assigned_clear_at (k : key) (e : elem) :
  nkey e = k ->
  value (assigned k clear_value e) = "" /\ files (assigned k clear_value e) = [].
Proof.
  intros E. unfold assigned, has_key. rewrite E, Nat.eqb_refl. split; reflexivity.
Qed.

(** A rejection in main.js, from a page it can rely on: the error panel
    with the message is the page's [#error-alert] and the input is
    cleared. *)
Lemma main_reject_spec (k fk : key) (m : string) (s : state) :
  main_tracked k fk s ->
  exists s',
    MainJs.reject k fk m s = (s', Some tt)
    /\ (exists ea, getElementById "error-alert" (document s') = Some ea
                   /\ innerHTML ea = MainJs.error_html m)
    /\ (exists input, lookup k (document s') = Some input
                      /\ value input = "" /\ files input = []).
Proof.
  intros ((N & Fr) & (inp & L) & Fk & Lf & (fi & Hfi & Kfi & Ifi & Cfi) & Lea & H).
  assert (Hin : In inp (elements (document s))) by exact (proj1 (find_some _ _ L)).
  assert (Hk : nkey inp = k) by (apply Nat.eqb_eq; exact (proj2 (find_some _ _ L))).
  (* the document after the error panel is in, whichever way *)
  assert (Step : exists d3 n3,
             MainJs.showError m s = (with_document d3 (with_nextKey n3 s), Some tt)
             /\ leaf_at fk d3
             /\ (exists ea, getElementById "error-alert" d3 = Some ea
                            /\ innerHTML ea = MainJs.error_html m)
             /\ (exists i, lookup k d3 = Some i /\ nkey i = k)
             /\ (forall x, In x (elements d3) -> has_id "error-alert" x = true ->
                           nkey x <> fk)).
  { unfold error_host in H.
    destruct (getElementById "error-alert" (document s)) as [ea|] eqn:F.
    - exists (set_elem (nkey ea) (with_innerHTML (MainJs.error_html m)) (document s)),
             (nextKey s).
      split; [|split; [|split; [|split]]].
      + rewrite (showError_found s m ea F).
        rewrite (set_innerHTML_leaf (nkey ea) _ (document s) None (Lea ea eq_refl)).
        destruct s; reflexivity.
      + apply leaf_at_set_elem; [apply plain_with_innerHTML | exact Lf].
      + exists (with_innerHTML (MainJs.error_html m) ea). split; [|reflexivity].
        unfold getElementById. rewrite elements_set_elem by apply plain_with_innerHTML.
        rewrite find_map_assigned by (apply plain_has_id, plain_with_innerHTML).
        fold (getElementById "error-alert" (document s)). rewrite F.
        cbn [option_map]. unfold assigned, has_key. now rewrite Nat.eqb_refl.
      + exists (assigned (nkey ea) (with_innerHTML (MainJs.error_html m)) inp).
        split; [|rewrite nkey_assigned by apply plain_with_innerHTML; exact Hk].
        unfold lookup. rewrite elements_set_elem by apply plain_with_innerHTML.
        rewrite find_map_assigned by (apply plain_has_key, plain_with_innerHTML).
        fold (lookup k (document s)). now rewrite L.
      + intros x Hx Ix E.
        rewrite elements_set_elem in Hx by apply plain_with_innerHTML.
        apply in_map_iff in Hx. destruct Hx as (x0 & <- & Hx0).
        rewrite nkey_assigned in E by apply plain_with_innerHTML.
        assert (x0 = fi) by (apply (key_unique nkey (elements (document s)));
                             try assumption; congruence).
        subst x0. unfold assigned in Ix.
        destruct (has_key (nkey ea) fi);
          [rewrite (plain_has_id _ _ (plain_with_innerHTML _)) in Ix|];
          unfold has_id in *; rewrite (proj1 (String.eqb_eq _ _) Ifi) in Ix;
          discriminate.
    - destruct (querySelector_class "card-body" (document s)) as [cb|] eqn:C;
        [|discriminate].
      destruct (showError_new s m cb (conj N Fr) F C) as (G & N' & I & _).
      exists (prepend (nkey cb) (Node (error_panel (nextKey s) m) []) (document s)),
             (S (S (nextKey s))).
      assert (Kn : k <> nextKey s).
      { intros E. apply (fresh_not_in s Fr). rewrite <- E, <- Hk. now apply in_map. }
      split; [|split; [|split; [|split]]].
      + rewrite (showError_created s m cb Fr F C). destruct s; reflexivity.
      + apply leaf_at_prepend; [|exact Lf]. intros E.
        destruct (find_some _ _ C) as [Hcb Ccb].
        assert (cb = fi) by (apply (key_unique nkey (elements (document s)));
                             try assumption; congruence).
        subst cb. congruence.
      + exists (error_panel (nextKey s) m). split; [exact G | reflexivity].
      + exists inp. split; [|exact Hk]. unfold lookup.
        rewrite find_prepend_other; [exact L|].
        unfold has_key. cbn. apply Nat.eqb_neq. congruence.
      + intros x Hx Ix E. destruct (I x Hx) as [Hx'| ->].
        * rewrite (find_none _ _ F x Hx') in Ix. discriminate.
        * cbn in E. apply (fresh_not_in s Fr). rewrite E, <- Kfi. now apply in_map. }
  destruct Step as (d3 & n3 & R & L3 & (ea & G & Hea) & (i & Li & Ki) & Nea).
  set (d4 := set_elem k clear_value d3).
  assert (L4 : leaf_at fk d4)
    by (apply leaf_at_set_elem; [apply plain_clear_value | exact L3]).
  assert (Li4 : lookup k d4 = Some (assigned k clear_value i)).
  { unfold lookup, d4. rewrite elements_set_elem by apply plain_clear_value.
    rewrite find_map_assigned by (apply plain_has_key, plain_clear_value).
    fold (lookup k d3). now rewrite Li. }
  assert (Root : nkey (elem_of d4) <> fk).
  { apply (leaf_root fk d4 (assigned k clear_value i) L4).
    - exact (proj1 (find_some _ _ Li4)).
    - rewrite nkey_assigned by apply plain_clear_value. congruence. }
  exists (with_document (remove fk d4) (with_nextKey n3 s)).
  split; [|split].
  - unfold MainJs.reject, bind. rewrite R. reflexivity.
  - cbn [document with_document].
    exists (assigned k clear_value ea). split; [|now rewrite innerHTML_assigned_clear].
    unfold getElementById. rewrite (elements_remove_leaf fk d4 L4 Root).
    rewrite find_filter_keep.
    + unfold d4. rewrite elements_set_elem by apply plain_clear_value.
      rewrite find_map_assigned by (apply plain_has_id, plain_clear_value).
      fold (getElementById "error-alert" d3). now rewrite G.
    + intros x Hx Ix. unfold d4 in Hx.
      rewrite elements_set_elem in Hx by apply plain_clear_value.
      apply in_map_iff in Hx. destruct Hx as (x0 & <- & Hx0).
      apply negb_true_iff, Nat.eqb_neq.
      rewrite nkey_assigned by apply plain_clear_value.
      apply Nea; [exact Hx0|].
      unfold assigned in Ix. destruct (has_key k x0); [|exact Ix].
      now rewrite (plain_has_id _ _ plain_clear_value) in Ix.
  - cbn [document with_document].
    exists (assigned k clear_value i). split; [|now apply assigned_clear_at].
    unfold lookup. rewrite (elements_remove_leaf fk d4 L4 Root).
    rewrite find_filter_keep; [exact Li4|].
    intros x Hx Kx. apply negb_true_iff, Nat.eqb_neq.
    apply Nat.eqb_eq in Kx. congruence.
Qed.

Lemma parentNode_row (k p : key) (d : node) :
  parentNode k d = Some p -> exists x, In (Some p, x) (rows d).
Proof.
  unfold parentNode.
  destruct (find (fun r => has_key k (snd r)) (rows d)) as [[q x]|] eqn:F;
    [|discriminate].
  intros ->. exists x. exact (proj1 (find_some _ _ F)).
Qed.

Lemma childless_found (i : string) (d : node) (e : elem) :
  childless i d = true -> getElementById i d = Some e -> leaf_at (nkey e) d.
Proof.
  intros C F. destruct (find_some _ _ F) as [He Ie].
  exact (childless_leaf i d e C He Ie).
Qed.

(** The first part of the change handler of main.js: the panel is found
    or created, and gets the file's name and size. *)
Lemma main_onChange_steps (k : key) (input : elem) (s : state)
    (f : File) (rest : list File) :
  main_page k input s -> files input = f :: rest -> name f <> "" ->
  let s2 := main_info_written k f s in
  let fk := main_info_key s in
  let h := MainJs.file_info_html (name f) (Format.formatFileSize (size f)) in
  MainJs.onChange k s
  = (if negb (JS.endsWith (JS.toLowerCase (name f)) ".csv")
     then MainJs.reject k fk "Please select a CSV file." else ret tt) s2
  /\ (exists fi, getElementById "file-info" (document s2) = Some fi
                 /\ nkey fi = fk /\ innerHTML fi = h)
  /\ lookup k (document s2) = Some input
  /\ timers s2 = timers s
  /\ (main_error_place (document s) -> main_tracked k fk s2).
Proof.
  intros ((N & Fr) & L & Id & (p & Pp) & Cf) Ff Nm s2 fk h.
  assert (Hin : In input (elements (document s))) by exact (proj1 (find_some _ _ L)).
  assert (Hk : nkey input = k) by (apply Nat.eqb_eq; exact (proj2 (find_some _ _ L))).
  assert (Run : MainJs.onChange k s
                = (if negb (JS.endsWith (JS.toLowerCase (name f)) ".csv")
                   then MainJs.reject k fk "Please select a CSV file."
                   else ret tt) s2).
  { unfold MainJs.onChange, MainJs.element. unfold bind at 1 2. unfold gets at 1.
    rewrite L. cbn [deref ret]. rewrite Ff.
    apply String.eqb_neq in Nm. rewrite Nm.
    unfold s2, fk, main_info_written, main_info_key.
    unfold bind at 1. unfold gets at 1.
    destruct (getElementById "file-info" (document s)) as [f0|] eqn:F.
    - unfold bind at 1. cbn [ret]. unfold bind at 1.
      unfold modify_document at 1.
      rewrite (set_innerHTML_leaf (nkey f0) _ (document s) None
                 (childless_found _ _ _ Cf F)).
      reflexivity.
    - unfold bind at 1. unfold bind at 1. cbn [createElement].
      unfold bind at 1. unfold gets at 1. cbn [document with_nextKey].
      rewrite Pp. unfold bind at 1. cbn [deref ret]. unfold bind at 1.
      unfold modify_document at 1. cbn [ret]. unfold bind at 1.
      unfold modify_document at 1.
      cbn [document with_document with_nextKey nextKey nkey set_className set_id
           blank].
      unfold set_innerHTML, appendChild.
      rewrite update_insert_fresh by (apply fresh_not_in; exact Fr).
      cbn [update map nkey set_className set_id blank].
      rewrite Nat.eqb_refl. reflexivity. }
  split; [exact Run|]. clear Run.
  unfold s2, fk, main_info_written, main_info_key. fold h.
  destruct (getElementById "file-info" (document s)) as [f0|] eqn:F.
  - (* the panel is on the page *)
    destruct (find_some _ _ F) as [Hf If].
    assert (Lf : leaf_at (nkey f0) (document s)) by exact (childless_found _ _ _ Cf F).
    assert (Fk : nkey f0 <> k).
    { intros E. assert (f0 = input)
        by (apply (key_unique nkey (elements (document s)));
            [exact N | assumption | assumption | congruence]).
      subst f0. unfold has_id in If. rewrite Id in If. discriminate. }
    cbn [document with_document timers].
    assert (G : getElementById "file-info"
                  (set_elem (nkey f0) (with_innerHTML h) (document s))
                = Some (with_innerHTML h f0)).
    { unfold getElementById. rewrite elements_set_elem by apply plain_with_innerHTML.
      rewrite find_map_assigned by (apply plain_has_id, plain_with_innerHTML).
      fold (getElementById "file-info" (document s)). rewrite F. cbn [option_map].
      unfold assigned, has_key. now rewrite Nat.eqb_refl. }
    assert (L2 : lookup k (set_elem (nkey f0) (with_innerHTML h) (document s))
                 = Some input).
    { unfold lookup. rewrite elements_set_elem by apply plain_with_innerHTML.
      rewrite find_map_assigned by (apply plain_has_key, plain_with_innerHTML).
      fold (lookup k (document s)). rewrite L. cbn [option_map].
      unfold assigned, has_key. rewrite Hk.
      replace (Nat.eqb k (nkey f0)) with false
        by (symmetry; apply Nat.eqb_neq; congruence).
      reflexivity. }
    split; [exists (with_innerHTML h f0); repeat split; exact G|].
    split; [exact L2|]. split; [reflexivity|]. intros (H & Ce & Wc).
    assert (K2 : keys (set_elem (nkey f0) (with_innerHTML h) (document s))
                 = keys (document s)) by (apply keys_set_elem, plain_with_innerHTML).
    split; [split|]; [|unfold fresh|]; cbn [document with_document nextKey];
      [now rewrite K2 | now rewrite K2 |].
    split; [now exists input|]. split; [exact Fk|].
    split; [apply leaf_at_set_elem; [apply plain_with_innerHTML | exact Lf]|].
    split; [|split].
    + exists (with_innerHTML h f0). split; [exact (proj1 (find_some _ _ G))|].
      split; [reflexivity|]. split; [exact If|].
      unfold without_class in Wc. rewrite forallb_forall in Wc.
      specialize (Wc f0 Hf). rewrite If in Wc. cbn [andb] in Wc.
      apply negb_true_iff in Wc. exact Wc.
    + intros ea Gea. unfold getElementById in Gea.
      rewrite elements_set_elem in Gea by apply plain_with_innerHTML.
      rewrite find_map_assigned in Gea by (apply plain_has_id, plain_with_innerHTML).
      fold (getElementById "error-alert" (document s)) in Gea.
      destruct (getElementById "error-alert" (document s)) as [ea0|] eqn:G0;
        [|discriminate].
      cbn [option_map] in Gea. injection Gea as <-.
      rewrite nkey_assigned by apply plain_with_innerHTML.
      apply leaf_at_set_elem; [apply plain_with_innerHTML|].
      exact (childless_found _ _ _ Ce G0).
    + unfold error_host, getElementById, querySelector_class in *.
      rewrite elements_set_elem by apply plain_with_innerHTML.
      rewrite !find_map_assigned
        by (apply plain_has_id, plain_with_innerHTML
            || apply plain_has_class, plain_with_innerHTML).
      destruct (find (has_id "error-alert") (elements (document s)));
        [reflexivity|].
      destruct (find (has_class "card-body") (elements (document s)));
        [reflexivity | discriminate].
  - (* the panel is created under the parent of the input *)
    rewrite Pp. cbn [document with_document with_nextKey timers nextKey].
    set (n := nextKey s). set (new := info_panel n h).
    destruct (parentNode_row k p (document s) Pp) as (xk & Hxk).
    assert (Hp : In p (keys (document s))).
    { destruct (parents_in_keys (document s) None p xk Hxk) as [?|?];
        [discriminate | assumption]. }
    destruct (rows_appendChild_leaf p new (document s) N Hp) as (R1 & R2 & E1 & E2).
    set (d2 := appendChild p (Node new []) (document s)) in *.
    assert (Ed : elements (document s) = map snd R1 ++ map snd R2)
      by (unfold elements; rewrite E1; apply map_app).
    assert (Ed2 : elements d2 = map snd R1 ++ new :: map snd R2)
      by (unfold elements; rewrite E2, map_app; reflexivity).
    assert (Nn : ~ In n (keys (document s))) by (apply fresh_not_in; exact Fr).
    assert (Find : forall q, q new = false ->
                             find q (elements d2) = find q (elements (document s))).
    { intros q Hq. rewrite Ed, Ed2. now apply find_insert_other. }
    assert (G : getElementById "file-info" d2 = Some new).
    { unfold getElementById. rewrite Ed2. apply find_insert_new; [reflexivity|].
      rewrite <- Ed. exact F. }
    assert (Kn : k <> n).
    { intros E. apply Nn. rewrite <- E, <- Hk. now apply in_map. }
    assert (L2 : lookup k d2 = Some input).
    { unfold lookup. rewrite Find; [exact L|].
      unfold has_key. cbn. apply Nat.eqb_neq. congruence. }
    assert (Leaf : forall y, (forall r, In r (rows (document s)) -> fst r <> Some y) ->
                             p <> y -> leaf_at y d2).
    { intros y Hy Py r Hr. rewrite E2 in Hr. apply in_app_or in Hr.
      destruct Hr as [Hr|[<-|Hr]].
      - apply Hy. rewrite E1. apply in_or_app. now left.
      - cbn. congruence.
      - apply Hy. rewrite E1. apply in_or_app. now right. }
    split; [exists new; repeat split; exact G|].
    split; [exact L2|]. split; [reflexivity|]. intros (H & Ce & Wc).
    split; [split|].
    + cbn [document with_document]. unfold keys. rewrite Ed2, map_app.
      cbn [map]. apply NoDup_insert.
      * rewrite <- map_app, <- Ed. exact N.
      * rewrite <- map_app, <- Ed. exact Nn.
    + unfold fresh. cbn [document with_document with_nextKey nextKey].
      unfold keys. rewrite Ed2, map_app. cbn [map].
      unfold fresh, keys in Fr. rewrite Ed, map_app in Fr.
      apply Forall_app in Fr. destruct Fr as [F1 F2].
      apply Forall_app. split; [|constructor].
      * apply (Forall_keys_lt n); [unfold n; lia | exact F1].
      * cbn. unfold n. lia.
      * apply (Forall_keys_lt n); [unfold n; lia | exact F2].
    + cbn [document with_document].
      split; [now exists input|]. split; [congruence|].
      split; [|split; [|split]].
      * apply Leaf; [|intros E; apply Nn; now rewrite <- E].
        intros [q x] Hr Eq. cbn in Eq. subst q.
        destruct (parents_in_keys (document s) None n x Hr) as [?|?];
          [discriminate | contradiction].
      * exists new. split; [exact (proj1 (find_some _ _ G))|]. repeat split.
      * intros ea Gea. unfold getElementById in Gea.
        rewrite Find in Gea by reflexivity.
        assert (Lea : leaf_at (nkey ea) (document s))
          by exact (childless_found _ _ _ Ce Gea).
        apply Leaf; [exact Lea|]. intros E.
        apply (Lea (Some p, xk) Hxk). cbn. congruence.
      * unfold error_host, getElementById, querySelector_class in *.
        rewrite !Find by reflexivity. exact H.
Qed.

(** A file that fails the extension test, in main.js. *)
Lemma main_rejects_extension (k : key) (input : elem) (s : state)
    (f : File) (rest : list File) :
  main_page k input s -> main_error_place (document s) ->
  files input = f :: rest -> name f <> "" ->
  ~ JS.ends_with_ci (name f) ".csv" ->
  let s' := exec (MainJs.onChange k) s in
  (exists ea, getElementById "error-alert" (document s') = Some ea
              /\ innerHTML ea = MainJs.error_html "Please select a CSV file.")
  /\ (exists input', lookup k (document s') = Some input'
                     /\ value input' = "" /\ files input' = []).
Proof.
  intros P H Ff Nm Ext s'.
  destruct (main_onChange_steps k input s f rest P Ff Nm) as (Run & _ & _ & _ & T).
  unfold s', exec. rewrite Run.
  replace (JS.endsWith (JS.toLowerCase (name f)) ".csv") with false
    by (symmetry; apply not_true_iff_false; now rewrite StringFacts.csv_name_test).
  cbn [negb].
  destruct (main_reject_spec k (main_info_key s) "Please select a CSV file."
              (main_info_written k f s) (T H)) as (s3 & R & G & C).
  rewrite R. cbn [fst]. split; assumption.
Qed.

(** A file with a [.csv] name, in main.js: whatever its size, the
    handler only writes its name and size in the panel. *)
Lemma main_accepts_csv (k : key) (input : elem) (s : state)
    (f : File) (rest : list File) :
  main_page k input s -> files input = f :: rest ->
  JS.ends_with_ci (name f) ".csv" ->
  let s' := exec (MainJs.onChange k) s in
  let h := MainJs.file_info_html (name f) (Format.formatFileSize (size f)) in
  s' = main_info_written k f s
  /\ (exists fi, getElementById "file-info" (document s') = Some fi
                 /\ nkey fi = main_info_key s /\ innerHTML fi = h)
  /\ lookup k (document s') = Some input
  /\ timers s' = timers s.
Proof.
  intros P Ff Ext s' h.
  destruct (main_onChange_steps k input s f rest P Ff (StringFacts.csv_name_not_empty _ Ext))
    as (Run & G & L & Tm & _).
  unfold s', exec. rewrite Run.
  replace (JS.endsWith (JS.toLowerCase (name f)) ".csv") with true
    by (symmetry; now rewrite StringFacts.csv_name_test).
  cbn [negb ret fst]. repeat split; assumption.
Qed.

(** [showError] never breaks the page, and never makes a second panel,
    also when it throws. *)
Lemma showError_keeps (s : state) (m : string) :
  wf s ->
  wf (exec (MainJs.showError m) s)
  /\ count_id "error-alert" (document (exec (MainJs.showError m) s))
     <= Nat.max 1 (count_id "error-alert" (document s)).
Proof.
  intros W. destruct (error_host (document s)) eqn:H.
  - destruct (showError_spec s m W H) as (s' & E & W' & _ & _ & _ & _ & _ & _ & C).
    unfold exec. rewrite E. split; assumption.
  - unfold error_host in H. apply orb_false_iff in H. destruct H as [H1 H2].
    destruct (getElementById "error-alert" (document s)) eqn:F; [discriminate|].
    destruct (querySelector_class "card-body" (document s)) eqn:C; [discriminate|].
    unfold exec. rewrite (showError_throws s m F C). cbn [fst].
    destruct W as [N Fr]. split; [split|].
    + exact N.
    + unfold fresh in *. cbn [document nextKey with_nextKey].
      apply (Forall_keys_lt (nextKey s)); [lia | exact Fr].
    + cbn [document with_nextKey]. lia.
Qed.

End MainJsFacts.

(** * Facts about the second script *)
Module ScriptFacts.

Import Dom Page RowFacts DomFacts.
Local Open Scope string_scope.
Local Open Scope list_scope.

(** The panel [showError] creates. *)
Lemma showError_run (s : state) (m : string) :
  let panel :=
    with_innerHTML (Script.error_html m)
      (set_className ["alert"; "alert-danger"; "alert-dismissible"; "fade"; "show"]
         (blank (nextKey s) "div")) in
  Script.showError m s
  = (with_timers (timers s ++ [{| due := (now s + 10000)%N; target := nextKey s |}])
       (with_document
          (match querySelector_class "container" (document s) with
           | Some c => prepend (nkey c) (Node panel []) (document s)
           | None => insertChild true (Node panel []) (document s)
           end)
          (with_nextKey (S (nextKey s)) s)),
     Some tt).
Proof.
  unfold Script.showError, bind, gets, createElement.
  cbn [document with_nextKey].
  destruct (querySelector_class "container" (document s)); reflexivity.
Qed.

Lemma keeps_ret {A} (a : A) : keeps_timers (ret a).
Proof. intros s. exists []. cbn. now rewrite app_nil_r. Qed.

Lemma keeps_throw {A} : keeps_timers (@throw A).
Proof. intros s. exists []. cbn. now rewrite app_nil_r. Qed.

Lemma keeps_gets {A} (q : node -> A) : keeps_timers (gets q).
Proof. intros s. exists []. cbn. now rewrite app_nil_r. Qed.

Lemma keeps_deref {A} (o : option A) : keeps_timers (deref o).
Proof. destruct o; [apply keeps_ret | apply keeps_throw]. Qed.

Lemma keeps_modify (f : node -> node) : keeps_timers (modify_document f).
Proof. intros s. exists []. cbn. now rewrite app_nil_r. Qed.

Lemma keeps_createElement (t : string) : keeps_timers (createElement t).
Proof. intros s. exists []. cbn. now rewrite app_nil_r. Qed.

Lemma keeps_new_event : keeps_timers new_event.
Proof. intros s. exists []. cbn. now rewrite app_nil_r. Qed.

Lemma keeps_setTimeout (k : key) (n : N) : keeps_timers (setTimeout_close k n).
Proof. intros s. eexists. cbn. reflexivity. Qed.

Lemma keeps_bind {A B} (m : M A) (f : A -> M B) :
  keeps_timers m -> (forall a, keeps_timers (f a)) -> keeps_timers (bind m f).
Proof.
  intros Hm Hf s. unfold bind. destruct (Hm s) as [r1 E1].
  destruct (m s) as [s1 [a|]]; cbn [fst] in *.
  - destruct (Hf a s1) as [r2 E2]. exists (r1 ++ r2).
    rewrite E2, E1, app_assoc. reflexivity.
  - now exists r1.
Qed.

Ltac keeps :=
  repeat first
    [ apply keeps_bind; [|intros ?]
    | apply keeps_ret | apply keeps_throw | apply keeps_gets | apply keeps_deref
    | apply keeps_modify | apply keeps_createElement | apply keeps_setTimeout
    | apply keeps_new_event
    | match goal with
      | |- keeps_timers (match ?x with _ => _ end) => destruct x
      | |- keeps_timers (if ?x then _ else _) => destruct x
      end ].

Lemma showError_effect (s : state) (m : string) :
  NoDup (keys (document s)) ->
  Script.showError m s
  = (with_timers (timers s ++ [{| due := (now s + 10000)%N; target := nextKey s |}])
       (with_document
          (prepend (error_home (document s))
             (Node (script_error_panel (nextKey s) m) []) (document s))
          (with_nextKey (S (nextKey s)) s)),
     Some tt).
Proof.
  intros N. rewrite showError_run. cbn zeta. unfold error_home.
  destruct (querySelector_class "container" (document s)); [reflexivity|].
  rewrite insertChild_root by assumption. reflexivity.
Qed.

Lemma error_home_in (d : node) : In (error_home d) (keys d).
Proof.
  unfold error_home. destruct (querySelector_class "container" d) as [c|] eqn:C.
  - apply in_map. exact (proj1 (find_some _ _ C)).
  - destruct d as [e cs]. rewrite keys_Node. now left.
Qed.

(** A rejection, from a page the handler can rely on: the panel with the
    message is on the page, the input is cleared, the page can still be
    relied on, and every other element is where it was. *)
Lemma script_reject_spec (k : key) (fi : option elem) (m : string) (s : state) :
  tracked k fi s ->
  exists s',
    Script.reject k fi m s = (s', Some tt)
    /\ tracked k fi s'
    /\ nextKey s' = S (nextKey s)
    /\ (exists input, lookup k (document s') = Some input
                      /\ value input = "" /\ files input = [])
    /\ In (script_error_panel (nextKey s) m) (elements (document s'))
    /\ (forall x, In x (elements (document s)) -> nkey x <> k ->
                  match fi with Some f => nkey x <> nkey f | None => True end ->
                  In x (elements (document s'))).
Proof.
  intros ((N & Fr) & (inp & L) & T).
  set (n := nextKey s). set (panel := script_error_panel n m).
  set (h := error_home (document s)).
  set (d1 := prepend h (Node panel []) (document s)).
  set (d2 := set_elem k clear_value d1).
  set (d3 := match fi with
             | Some f => set_elem (nkey f) (with_innerHTML "") d2
             | None => d2
             end).
  assert (Hin : In inp (elements (document s))) by exact (proj1 (find_some _ _ L)).
  assert (Hk : nkey inp = k) by (apply Nat.eqb_eq; exact (proj2 (find_some _ _ L))).
  assert (Kn : k <> n).
  { unfold fresh in Fr. rewrite Forall_forall in Fr.
    specialize (Fr k). rewrite <- Hk in *. specialize (Fr (in_map nkey _ _ Hin)).
    unfold n. lia. }
  assert (Nn : ~ In n (keys (document s))) by (apply MainJsFacts.fresh_not_in; exact Fr).
  assert (N1 : NoDup (keys d1)) by (apply NoDup_prepend; assumption).
  assert (L1 : lookup k d1 = Some inp).
  { unfold lookup, d1. rewrite find_prepend_other; [exact L|].
    unfold has_key, panel. cbn. apply Nat.eqb_neq. congruence. }
  assert (L2 : lookup k d2 = Some (clear_value inp)).
  { unfold lookup, d2. rewrite elements_set_elem by apply plain_clear_value.
    rewrite find_map_assigned by (apply plain_has_key, plain_clear_value).
    fold (lookup k d1). rewrite L1. cbn [option_map]. unfold assigned, has_key.
    rewrite Hk, Nat.eqb_refl. reflexivity. }
  assert (Hd3 : forall f, fi = Some f -> leaf_at (nkey f) d2).
  { intros f ->. destruct T as (Tk & Tn & Tl & Tc).
    apply leaf_at_set_elem; [apply plain_clear_value|].
    apply leaf_at_prepend; [|exact Tl].
    unfold h, error_home.
    destruct (querySelector_class "container" (document s)) as [c|] eqn:C.
    - now apply Tc.
    - apply (leaf_root _ _ inp Tl Hin). congruence. }
  assert (R : Script.reject k fi m s
              = (with_timers
                   (timers s ++ [{| due := (now s + 10000)%N; target := n |}])
                   (with_document d3 (with_nextKey (S n) s)), Some tt)).
  { unfold Script.reject, bind. rewrite (showError_effect s m N).
    cbn [modify_document with_document with_timers with_nextKey document nextKey
         timers now defaultPrevented].
    unfold Script.blank_info. destruct fi as [f|]; [|reflexivity].
    unfold modify_document.
    cbn [with_document with_timers with_nextKey document nextKey timers now
         defaultPrevented].
    fold n panel h d1 d2.
    rewrite (set_innerHTML_leaf (nkey f) "" d2 None (Hd3 f eq_refl)). reflexivity. }
  assert (K3 : keys d3 = keys d1).
  { unfold d3. destruct fi; [rewrite keys_set_elem by apply plain_with_innerHTML|];
      unfold d2; now rewrite keys_set_elem by apply plain_clear_value. }
  assert (E3 : forall x, In x (elements d1) -> nkey x <> k ->
                         match fi with Some f => nkey x <> nkey f | None => True end ->
                         In x (elements d3)).
  { intros x Hx Xk Xf.
    assert (H2 : In x (elements d2)).
    { unfold d2. rewrite elements_set_elem by apply plain_clear_value.
      apply in_map_iff. exists x. split; [|exact Hx].
      unfold assigned, has_key. apply Nat.eqb_neq in Xk. now rewrite Xk. }
    unfold d3. destruct fi as [f|]; [|exact H2].
    rewrite elements_set_elem by apply plain_with_innerHTML.
    apply in_map_iff. exists x. split; [|exact H2].
    unfold assigned, has_key. apply Nat.eqb_neq in Xf. now rewrite Xf. }
  eexists. split; [exact R|].
  cbn [document nextKey with_timers with_document with_nextKey].
  split; [|split; [reflexivity|split; [|split]]].
  - split; [split|split].
    + cbn [document with_timers with_document]. rewrite K3. exact N1.
    + unfold fresh. cbn [document nextKey with_timers with_document with_nextKey].
      rewrite K3, Forall_forall. intros y Hy. unfold keys in Hy.
      apply in_map_iff in Hy. destruct Hy as (x & <- & Hx).
      apply in_prepend_inv in Hx. destruct Hx as [Hx| ->].
      * unfold fresh in Fr. rewrite Forall_forall in Fr.
        specialize (Fr _ (in_map nkey _ _ Hx)). unfold n. lia.
      * cbn. unfold n. lia.
    + cbn [document with_timers with_document]. unfold d3.
      destruct fi as [f|].
      * destruct T as (Tk & Tn & Tl & Tc). exists (clear_value inp).
        unfold lookup. rewrite elements_set_elem by apply plain_with_innerHTML.
        rewrite find_map_assigned by (apply plain_has_key, plain_with_innerHTML).
        fold (lookup k d2). rewrite L2. cbn [option_map]. unfold assigned, has_key.
        cbn [nkey clear_value]. rewrite Hk.
        replace (Nat.eqb k (nkey f)) with false
          by (symmetry; apply Nat.eqb_neq; congruence).
        reflexivity.
      * exists (clear_value inp). exact L2.
    + cbn [document with_timers with_document].
      destruct fi as [f|]; [|exact I].
      destruct T as (Tk & Tn & Tl & Tc). repeat split.
      * rewrite K3. unfold d1, keys. apply in_map_iff in Tk.
        destruct Tk as (x & Ex & Hx). apply in_map_iff. exists x.
        split; [exact Ex|]. now apply in_prepend_old.
      * exact Tn.
      * unfold d3. apply leaf_at_set_elem; [apply plain_with_innerHTML|].
        now apply Hd3.
      * intros c C. unfold querySelector_class, d3, d2, d1 in C.
        rewrite elements_set_elem in C by apply plain_with_innerHTML.
        rewrite find_map_assigned in C by (apply plain_has_class, plain_with_innerHTML).
        rewrite elements_set_elem in C by apply plain_clear_value.
        rewrite find_map_assigned in C by (apply plain_has_class, plain_clear_value).
        rewrite find_prepend_other in C by reflexivity.
        fold (querySelector_class "container" (document s)) in C.
        destruct (querySelector_class "container" (document s)) as [c0|] eqn:C0;
          [|discriminate].
        cbn [option_map] in C. injection C as <-.
        rewrite !nkey_assigned
          by (apply plain_with_innerHTML || apply plain_clear_value).
        now apply Tc.
  - unfold d3. destruct fi as [f|].
    + destruct T as (Tk & Tn & Tl & Tc). exists (clear_value inp). split; [|split; reflexivity].
      unfold lookup. rewrite elements_set_elem by apply plain_with_innerHTML.
      rewrite find_map_assigned by (apply plain_has_key, plain_with_innerHTML).
      fold (lookup k d2). rewrite L2. cbn [option_map]. unfold assigned, has_key.
      cbn [nkey clear_value]. rewrite Hk.
      replace (Nat.eqb k (nkey f)) with false
        by (symmetry; apply Nat.eqb_neq; congruence).
      reflexivity.
    + exists (clear_value inp). split; [exact L2 | split; reflexivity].
  - apply E3.
    + unfold d1. apply in_prepend_new. apply error_home_in.
    + cbn. congruence.
    + destruct fi as [f|]; [|exact I]. destruct T as (Tk & _). cbn. congruence.
  - intros x Hx Xk Xf. apply E3; try assumption. unfold d1. now apply in_prepend_old.
Qed.

Lemma elements_keys_unique (d : node) (x y : elem) :
  NoDup (keys d) -> In x (elements d) -> In y (elements d) -> nkey x = nkey y ->
  x = y.
Proof. intros N. now apply key_unique. Qed.

(** From the page the script is written for to what the handler relies
    on, once the panel has the file's name and size. *)
Lemma tracked_after_info (k : key) (input : elem) (s : state) :
  script_page k input s ->
  let fi := getElementById "file-info" (document s) in
  let s1 := with_document (script_info_written input (document s)) s in
  (script_error_place (document s) -> tracked k fi s1)
  /\ lookup k (document s1) = Some input
  /\ keys (document s1) = keys (document s)
  /\ (forall x, In x (elements (document s)) -> has_id "file-info" x = false ->
                In x (elements (document s1)))
  /\ getElementById "file-info" (document s1)
     = option_map
         (with_innerHTML
            (Script.file_info_html (shown_name input)
               (Format.formatFileSize (shown_size input)))) fi
  /\ match fi with
     | Some f =>
         forall h, set_innerHTML (nkey f) h (document s)
                   = set_elem (nkey f) (with_innerHTML h) (document s)
     | None => True
     end.
Proof.
  intros ((N & Fr) & L & Id & Ch) fi s1.
  unfold s1, script_info_written. fold fi. cbn [document with_document].
  assert (Hin : In input (elements (document s))) by exact (proj1 (find_some _ _ L)).
  assert (Hk : nkey input = k) by (apply Nat.eqb_eq; exact (proj2 (find_some _ _ L))).
  destruct fi as [f|] eqn:F; unfold fi in F.
  - destruct (find_some _ _ F) as [Hf If].
    set (h := Script.file_info_html (shown_name input)
                (Format.formatFileSize (shown_size input))).
    assert (Lf : leaf_at (nkey f) (document s)) by (now apply (childless_leaf "file-info")).
    assert (Fk : nkey f <> k).
    { intros E. assert (f = input)
        by (apply (elements_keys_unique (document s)); congruence).
      subst f. unfold has_id in If. rewrite Id in If. discriminate. }
    assert (L1 : lookup k (set_elem (nkey f) (with_innerHTML h) (document s)) = Some input).
    { unfold lookup. rewrite elements_set_elem by apply plain_with_innerHTML.
      rewrite find_map_assigned by (apply plain_has_key, plain_with_innerHTML).
      fold (lookup k (document s)). rewrite L. cbn [option_map].
      unfold assigned, has_key. rewrite Hk.
      replace (Nat.eqb k (nkey f)) with false
        by (symmetry; apply Nat.eqb_neq; congruence).
      reflexivity. }
    assert (K1 : keys (set_elem (nkey f) (with_innerHTML h) (document s))
                 = keys (document s))
      by (apply keys_set_elem, plain_with_innerHTML).
    split; [|split; [exact L1|split; [exact K1|split; [|split]]]].
    + intros Wc. split; [split|split].
      * cbn [document with_document]. now rewrite K1.
      * unfold fresh. cbn [document with_document nextKey]. now rewrite K1.
      * exists input. exact L1.
      * cbn [document with_document]. repeat split.
        -- rewrite K1. now apply in_map.
        -- exact Fk.
        -- apply leaf_at_set_elem; [apply plain_with_innerHTML | exact Lf].
        -- intros c C. unfold querySelector_class in C.
           rewrite elements_set_elem in C by apply plain_with_innerHTML.
           rewrite find_map_assigned in C
             by (apply plain_has_class, plain_with_innerHTML).
           destruct (find (has_class "container") (elements (document s)))
             as [c0|] eqn:C0; [|discriminate].
           cbn [option_map] in C. injection C as <-.
           rewrite nkey_assigned by apply plain_with_innerHTML.
           intros E. destruct (find_some _ _ C0) as [Hc Cc].
           assert (c0 = f) by (apply (elements_keys_unique (document s)); assumption).
           subst c0. unfold script_error_place, without_class in Wc.
           rewrite forallb_forall in Wc.
           specialize (Wc f Hf). rewrite If, Cc in Wc. discriminate.
    + intros x Hx Ix. rewrite elements_set_elem by apply plain_with_innerHTML.
      apply in_map_iff. exists x. split; [|exact Hx].
      unfold assigned, has_key.
      destruct (Nat.eqb_spec (nkey x) (nkey f)) as [E|E]; [|reflexivity].
      assert (x = f) by (apply (elements_keys_unique (document s)); assumption).
      subst x. congruence.
    + unfold getElementById. rewrite elements_set_elem by apply plain_with_innerHTML.
      rewrite find_map_assigned by (apply plain_has_id, plain_with_innerHTML).
      fold (getElementById "file-info" (document s)). rewrite F. cbn [option_map].
      unfold assigned, has_key. now rewrite Nat.eqb_refl.
    + intros h'. apply (set_innerHTML_leaf (nkey f) h' (document s) None Lf).
  - split; [|split; [exact L|split; [reflexivity|split; [|split]]]].
    + intros _. split; [split; assumption|]. split; [now exists input | exact I].
    + intros x Hx _. exact Hx.
    + exact F.
    + exact I.
Qed.

(** The handler of the second script: the panel gets the name and the
    size, then each test rejects or lets through. *)
Lemma script_onChange_steps (k : key) (input : elem) (s : state) :
  script_page k input s ->
  let fi := getElementById "file-info" (document s) in
  let s1 := with_document (script_info_written input (document s)) s in
  Script.onChange k s
  = bind
      (if (0 <? shown_size input)%N
          && negb (JS.endsWith (JS.toLowerCase (shown_name input)) ".csv")
       then Script.reject k fi "Please select a CSV file" else ret tt)
      (fun _ =>
         if (16 * 1024 * 1024 <? shown_size input)%N
         then Script.reject k fi "File size exceeds 16MB limit" else ret tt) s1.
Proof.
  intros P fi s1.
  destruct (tracked_after_info k input s P) as (_ & _ & _ & _ & _ & E).
  destruct P as (_ & L & _).
  unfold Script.onChange, Script.element. unfold bind at 1 2. unfold gets at 1.
  rewrite L. cbn [deref ret]. fold (shown_name input) (shown_size input).
  unfold bind at 1. unfold gets at 1.
  unfold bind at 1. unfold s1, script_info_written.
  unfold fi in *. destruct (getElementById "file-info" (document s)) as [f|].
  - unfold modify_document at 1. rewrite E. reflexivity.
  - destruct s. reflexivity.
Qed.

(** What the handler shows as the name ends with [.csv] exactly when
    the file's name does. *)
Lemma shown_name_csv (input : elem) (f : File) (rest : list File) :
  files input = f :: rest ->
  JS.endsWith (JS.toLowerCase (shown_name input)) ".csv" = true
  <-> JS.ends_with_ci (name f) ".csv".
Proof.
  intros F. unfold shown_name. rewrite F.
  destruct (String.eqb_spec (name f) "") as [E|E].
  - split; [discriminate|]. intros H. now apply StringFacts.csv_name_not_empty in H.
  - apply StringFacts.csv_name_test.
Qed.

(** A file that passes both tests: the handler of the second script
    only writes its name and size in the panel, if the panel is there. *)
Lemma onChange_accepts (k : key) (input : elem) (s : state) :
  script_page k input s ->
  (0 <? shown_size input)%N
  && negb (JS.endsWith (JS.toLowerCase (shown_name input)) ".csv") = false ->
  (16 * 1024 * 1024 <? shown_size input)%N = false ->
  Script.onChange k s
  = (with_document (script_info_written input (document s)) s, Some tt).
Proof.
  intros P C1 C2. rewrite (script_onChange_steps k input s P). rewrite C1, C2. reflexivity.
Qed.

(** A file that fails the extension test, in the second script. *)
Lemma script_rejects_extension (k : key) (input : elem) (s : state)
    (f : File) (rest : list File) :
  script_page k input s -> script_error_place (document s) ->
  files input = f :: rest ->
  (0 < size f)%N -> ~ JS.ends_with_ci (name f) ".csv" ->
  let s' := exec (Script.onChange k) s in
  (exists panel,
      In panel (elements (document s'))
      /\ has_class "alert-danger" panel = true
      /\ innerHTML panel = Script.error_html "Please select a CSV file"
      /\ ~ In (nkey panel) (keys (document s)))
  /\ (exists input', lookup k (document s') = Some input'
                     /\ value input' = "" /\ files input' = []).
Proof.
  intros P Pl F Sz Ext s'.
  destruct (tracked_after_info k input s P) as (T & L1 & K1 & _ & _ & _).
  specialize (T Pl).
  assert (C1 : (0 <? shown_size input)%N
               && negb (JS.endsWith (JS.toLowerCase (shown_name input)) ".csv") = true).
  { apply andb_true_iff. split.
    - unfold shown_size. rewrite F. now apply N.ltb_lt.
    - apply negb_true_iff, not_true_iff_false. intros H.
      now apply (shown_name_csv input f rest F) in H. }
  unfold s', exec. rewrite (script_onChange_steps k input s P), C1. unfold bind.
  set (s1 := with_document (script_info_written input (document s)) s) in *.
  set (fi := getElementById "file-info" (document s)) in *.
  destruct (script_reject_spec k fi "Please select a CSV file" s1 T)
    as (s2 & R & T2 & Nk & Cl & Pn & Fm).
  rewrite R.
  assert (Fresh : ~ In (nextKey s) (keys (document s)))
    by (apply MainJsFacts.fresh_not_in; apply P).
  change (nextKey s1) with (nextKey s) in *.
  destruct (16 * 1024 * 1024 <? shown_size input)%N.
  - destruct (script_reject_spec k fi "File size exceeds 16MB limit" s2 T2)
      as (s3 & R3 & T3 & _ & Cl3 & _ & Fm3).
    rewrite R3. cbn [fst]. split; [|exact Cl3].
    exists (script_error_panel (nextKey s) "Please select a CSV file").
    split; [|repeat split; assumption].
    apply Fm3; [exact Pn | |].
    + cbn [nkey script_error_panel]. intros E. apply Fresh. rewrite E.
      destruct T as (_ & (i & Li) & _). rewrite <- K1.
      destruct (find_some _ _ Li) as [Hi Ki]. apply Nat.eqb_eq in Ki.
      rewrite <- Ki. now apply in_map.
    + destruct fi as [f0|]; [|exact I]. cbn [nkey script_error_panel].
      intros E. apply Fresh. rewrite E. rewrite <- K1. apply T.
  - cbn [fst ret]. split; [|exact Cl].
    exists (script_error_panel (nextKey s) "Please select a CSV file").
    repeat split; assumption.
Qed.

(** A file over the limit, in the second script. *)
Lemma script_rejects_size (k : key) (input : elem) (s : state)
    (f : File) (rest : list File) :
  script_page k input s -> script_error_place (document s) ->
  files input = f :: rest ->
  (16777216 < size f)%N ->
  let s' := exec (Script.onChange k) s in
  (exists panel,
      In panel (elements (document s'))
      /\ has_class "alert-danger" panel = true
      /\ innerHTML panel = Script.error_html "File size exceeds 16MB limit"
      /\ ~ In (nkey panel) (keys (document s)))
  /\ (exists input', lookup k (document s') = Some input'
                     /\ value input' = "" /\ files input' = []).
Proof.
  intros P Pl F Sz s'.
  destruct (tracked_after_info k input s P) as (T & L1 & K1 & _ & _ & _).
  specialize (T Pl).
  assert (C2 : (16 * 1024 * 1024 <? shown_size input)%N = true).
  { unfold shown_size. rewrite F. apply N.ltb_lt. exact Sz. }
  unfold s', exec. rewrite (script_onChange_steps k input s P), C2. unfold bind.
  set (s1 := with_document (script_info_written input (document s)) s) in *.
  set (fi := getElementById "file-info" (document s)) in *.
  assert (Fr : fresh s) by apply P.
  assert (Fresh : forall n, nextKey s <= n -> ~ In n (keys (document s))).
  { intros n Hn Hi. unfold fresh in Fr. rewrite Forall_forall in Fr.
    specialize (Fr n Hi). lia. }
  destruct ((0 <? shown_size input)%N
            && negb (JS.endsWith (JS.toLowerCase (shown_name input)) ".csv")).
  - destruct (script_reject_spec k fi "Please select a CSV file" s1 T)
      as (s2 & R & T2 & Nk & _).
    rewrite R.
    destruct (script_reject_spec k fi "File size exceeds 16MB limit" s2 T2)
      as (s3 & R3 & _ & _ & Cl3 & Pn3 & _).
    rewrite R3. cbn [fst]. split; [|exact Cl3].
    exists (script_error_panel (nextKey s2) "File size exceeds 16MB limit").
    repeat split; try assumption.
    cbn [nkey script_error_panel]. apply Fresh. rewrite Nk.
    change (nextKey s1) with (nextKey s). lia.
  - cbn [ret].
    destruct (script_reject_spec k fi "File size exceeds 16MB limit" s1 T)
      as (s3 & R3 & _ & _ & Cl3 & Pn3 & _).
    rewrite R3. cbn [fst]. split; [|exact Cl3].
    exists (script_error_panel (nextKey s1) "File size exceeds 16MB limit").
    repeat split; try assumption.
    cbn [nkey script_error_panel]. apply Fresh. change (nextKey s1) with (nextKey s). lia.
Qed.

(** A file that passes both tests, in the second script: the panel, if
    it is there, gets the name and the size; nothing else happens. *)
Lemma script_accepts (k : key) (input : elem) (s : state)
    (f : File) (rest : list File) :
  script_page k input s -> files input = f :: rest ->
  size f = 0%N \/ JS.ends_with_ci (name f) ".csv" ->
  (size f <= 16777216)%N ->
  let s' := exec (Script.onChange k) s in
  s' = with_document (script_info_written input (document s)) s
  /\ keys (document s') = keys (document s)
  /\ lookup k (document s') = Some input
  /\ getElementById "file-info" (document s')
     = option_map
         (with_innerHTML
            (Script.file_info_html (shown_name input)
               (Format.formatFileSize (size f))))
         (getElementById "file-info" (document s))
  /\ (forall x, In x (elements (document s)) -> has_id "file-info" x = false ->
                In x (elements (document s'))).
Proof.
  intros P Ff Ok Sz s'.
  destruct (tracked_after_info k input s P) as (_ & L1 & K1 & Fm & G & _).
  assert (Hs : shown_size input = size f) by (unfold shown_size; now rewrite Ff).
  assert (E : Script.onChange k s
              = (with_document (script_info_written input (document s)) s, Some tt)).
  { apply onChange_accepts; [exact P | |].
    - rewrite Hs. destruct Ok as [Z|Ext].
      + rewrite Z. reflexivity.
      + apply (shown_name_csv input f rest Ff) in Ext. rewrite Ext.
        apply andb_false_r.
    - rewrite Hs. apply N.ltb_ge. exact Sz. }
  unfold s', exec. rewrite E. cbn [fst]. rewrite Hs in G.
  repeat split; assumption.
Qed.

Lemma keeps_showError (m : string) : keeps_timers (Script.showError m).
Proof. unfold Script.showError. keeps. Qed.

Lemma keeps_showLoading (m : string) : keeps_timers (Script.showLoading m).
Proof. unfold Script.showLoading. keeps. Qed.

Lemma keeps_blank_info (o : option elem) : keeps_timers (Script.blank_info o).
Proof. unfold Script.blank_info. keeps. Qed.

Lemma keeps_onChange (k : key) : keeps_timers (Script.onChange k).
Proof.
  unfold Script.onChange, Script.element.
  repeat first
    [ apply keeps_showError | apply keeps_blank_info
    | apply keeps_bind; [|intros ?]
    | apply keeps_ret | apply keeps_gets | apply keeps_deref | apply keeps_modify
    | match goal with
      | |- keeps_timers (match ?x with _ => _ end) => destruct x
      | |- keeps_timers (if ?x then _ else _) => destruct x
      end ].
Qed.

Lemma keeps_onFormSubmit (k : key) : keeps_timers (Script.onFormSubmit k).
Proof.
  unfold Script.onFormSubmit, Script.element.
  repeat first
    [ apply keeps_showLoading
    | apply keeps_bind; [|intros ?]
    | apply keeps_ret | apply keeps_gets | apply keeps_deref
    | match goal with
      | |- keeps_timers (if ?x then _ else _) => destruct x
      end ].
Qed.

End ScriptFacts.

(** * The sample page is a page *)
Module SampleFacts.

Import Dom Page.

Lemma sample_wf (fs : list File) (product days : string) :
  wf (Sample.page (Sample.body fs product days [])).
Proof.
  split.
  - cbv [keys elements rows rows_from Sample.page Sample.body document map snd
         flat_map app nkey Sample.el Sample.form Sample.field Sample.file_input].
    repeat constructor; simpl; intuition discriminate.
  - unfold fresh.
    cbv [keys elements rows rows_from Sample.page Sample.body document map snd
         flat_map app nkey Sample.el Sample.form Sample.field Sample.file_input
         nextKey].
    repeat constructor.
Qed.

Lemma sample_wf_panel (fs : list File) (product days : string) :
  wf (Sample.page (Sample.body fs product days [Sample.info_panel])).
Proof.
  split.
  - cbv [keys elements rows rows_from Sample.page Sample.body document map snd
         flat_map app nkey Sample.el Sample.form Sample.field Sample.file_input
         Sample.info_panel].
    repeat constructor; simpl; intuition discriminate.
  - unfold fresh.
    cbv [keys elements rows rows_from Sample.page Sample.body document map snd
         flat_map app nkey Sample.el Sample.form Sample.field Sample.file_input
         Sample.info_panel nextKey].
    repeat constructor.
Qed.

Lemma sample_main_page (f : File) :
  main_page 4 (Sample.file_input 4 [f]) (Sample.selected f).
Proof.
  split; [apply sample_wf|]. split; [reflexivity|]. split; [reflexivity|].
  split; [exists 3; reflexivity | reflexivity].
Qed.

Lemma sample_script_page (f : File) :
  script_page 4 (Sample.file_input 4 [f]) (Sample.selected f).
Proof.
  split; [apply sample_wf|]. repeat split.
Qed.

Lemma sample_script_page_panel (f : File) :
  script_page 4 (Sample.file_input 4 [f]) (Sample.selected_with_panel f).
Proof.
  split; [apply sample_wf_panel|]. repeat split.
Qed.

End SampleFacts.

(** * The claims *)

Import Dom Page.
Local Open Scope string_scope.
Local Open Scope list_scope.

(** ** Text in markup, and what a rejection leaves *)

Lemma strip_plain (a b : string) :
  JS.no_tag a = true ->
  JS.strip_tags false (a ++ b)%string = (a ++ JS.strip_tags false b)%string.
Proof.
  intros H. induction a as [|c r IH]; [reflexivity|].
  cbn [JS.no_tag] in H. apply andb_true_iff in H. destruct H as [Hc Hr].
  apply negb_true_iff in Hc. cbn [append JS.strip_tags]. rewrite Hc.
  now rewrite IH.
Qed.

Lemma plain_no_tag (a : string) : JS.plain_text a = true -> JS.no_tag a = true.
Proof.
  induction a as [|c r IH]; [reflexivity|]. cbn [JS.plain_text JS.no_tag].
  intros H. apply andb_true_iff in H. destruct H as [H Hr].
  apply andb_true_iff in H. destruct H as [Hc _]. now rewrite Hc, IH.
Qed.

Lemma no_tag_append (a b : string) :
  JS.no_tag (a ++ b)%string = JS.no_tag a && JS.no_tag b.
Proof.
  induction a as [|c r IH]; [reflexivity|]. cbn [append JS.no_tag].
  now rewrite IH, andb_assoc.
Qed.

Lemma digits_no_tag (s : string) : JS.digits_only s = true -> JS.no_tag s = true.
Proof.
  induction s as [|c r IH]; [reflexivity|]. cbn [JS.digits_only JS.no_tag].
  intros H. apply andb_true_iff in H. destruct H as [Hc Hr].
  rewrite (IH Hr), andb_true_r. apply negb_true_iff.
  apply NumberFacts.eqb_code. pose proof (NumberFacts.digit_code c Hc). cbn. lia.
Qed.

Lemma digitChar_no_tag (d : N) (r : string) :
  (d < 10)%N -> JS.no_tag (String (JS.digitChar d) r) = JS.no_tag r.
Proof.
  intros H. destruct (NumberFacts.digitChar_digit d H) as [D _].
  cbn [JS.no_tag].
  replace (Ascii.eqb (JS.digitChar d) "<") with false; [reflexivity|].
  symmetry. apply NumberFacts.eqb_code.
  pose proof (NumberFacts.digit_code _ D). cbn. lia.
Qed.

(** What [formatFileSize] prints has no tag in it. *)
Lemma formatFileSize_no_tag (bytes : N) :
  JS.no_tag (Format.formatFileSize bytes) = true.
Proof.
  unfold Format.formatFileSize. destruct (bytes =? 0)%N; [reflexivity|]. cbn zeta.
  rewrite no_tag_append. apply andb_true_iff. split.
  - unfold JS.hundredths_to_string.
    set (h := JS.toFixed2 bytes (Format.k ^ Format.floor_log bytes Format.k)).
    destruct (NumberFacts.natural_to_string_read (h / 100)) as (D & _ & _).
    pose proof (digits_no_tag _ D) as Ip.
    assert (F : (h mod 100 < 100)%N) by (apply N.mod_lt; discriminate).
    assert (F1 : (h mod 100 / 10 < 10)%N) by (apply N.Div0.div_lt_upper_bound; lia).
    assert (F2 : ((h mod 100) mod 10 < 10)%N) by (apply N.mod_lt; discriminate).
    cbn zeta. destruct (h mod 100 =? 0)%N; [exact Ip|].
    destruct ((h mod 100) mod 10 =? 0)%N.
    + rewrite !no_tag_append, Ip. cbn [andb append].
      change (JS.no_tag (String "." ?r)) with (JS.no_tag r).
      now rewrite digitChar_no_tag.
    + rewrite !no_tag_append, Ip. cbn [andb append].
      change (JS.no_tag (String "." ?r)) with (JS.no_tag r).
      now rewrite !digitChar_no_tag.
  - destruct (N.to_nat (Format.floor_log bytes Format.k)) as [|[|[|[|n]]]];
      try reflexivity.
    destruct n; reflexivity.
Qed.

(** What the file-information panel of main.js shows. *)
Lemma main_file_info_shown (fileName formattedSize : string) :
  JS.no_tag fileName = true -> JS.no_tag formattedSize = true ->
  JS.shown_text (MainJs.file_info_html fileName formattedSize)
  = (nl ++ "          " ++ nl ++ "          Selected file: " ++ fileName
        ++ " (" ++ formattedSize ++ ")" ++ nl ++ "        ")%string.
Proof.
  intros Hn Hz. unfold JS.shown_text, MainJs.file_info_html, nl, dq.
  cbn [append JS.strip_tags Ascii.eqb Bool.eqb]. rewrite (strip_plain _ _ Hn).
  cbn [append JS.strip_tags Ascii.eqb Bool.eqb]. rewrite (strip_plain _ _ Hz).
  reflexivity.
Qed.

(** What the file-information panel of the second script shows. *)
Lemma script_file_info_shown (fileName formattedSize : string) :
  JS.no_tag fileName = true -> JS.no_tag formattedSize = true ->
  JS.shown_text (Script.file_info_html fileName formattedSize)
  = (nl ++ "          File: " ++ fileName ++ " " ++ nl ++ "          Size: "
        ++ formattedSize ++ nl ++ "        ")%string.
Proof.
  intros Hn Hz. unfold JS.shown_text, Script.file_info_html, nl, dq.
  cbn [append JS.strip_tags Ascii.eqb Bool.eqb]. rewrite (strip_plain _ _ Hn).
  cbn [append JS.strip_tags Ascii.eqb Bool.eqb]. rewrite (strip_plain _ _ Hz).
  reflexivity.
Qed.

(** A page without the element has nothing to say about its classes. *)
Lemma without_class_absent (i c : string) (d : node) :
  getElementById i d = None -> without_class i c d = true.
Proof.
  intros F. unfold without_class. apply forallb_forall. intros e He.
  unfold getElementById in F. now rewrite (find_none _ _ F e He).
Qed.

(** The timers and the clock after a rejection in the second script. *)
Lemma script_reject_timers (k : key) (fi : option elem) (m : string) (s : state) :
  let s' := exec (Script.reject k fi m) s in
  timers s' = timers s ++ [{| due := (now s + 10000)%N; target := nextKey s |}]
  /\ now s' = now s.
Proof.
  unfold exec, Script.reject, bind. rewrite ScriptFacts.showError_run. cbn zeta.
  unfold Script.blank_info, modify_document.
  destruct fi; cbn [fst timers now with_timers with_document with_nextKey ret];
    split; reflexivity.
Qed.

(** The document after a rejection in the second script. *)
Lemma script_reject_document (k : key) (fi : option elem) (m : string) (s : state) :
  tracked k fi s ->
  let d2 := set_elem k clear_value
              (prepend (error_home (document s))
                 (Node (script_error_panel (nextKey s) m) []) (document s)) in
  document (exec (Script.reject k fi m) s)
  = match fi with
    | Some f => set_elem (nkey f) (with_innerHTML "") d2
    | None => d2
    end.
Proof.
  intros ((N & Fr) & (inp & L) & T) d2.
  assert (Hin : In inp (elements (document s))) by exact (proj1 (find_some _ _ L)).
  assert (Hk : nkey inp = k) by (apply Nat.eqb_eq; exact (proj2 (find_some _ _ L))).
  unfold exec, Script.reject, bind. rewrite (ScriptFacts.showError_effect s m N).
  cbn [modify_document with_document with_timers with_nextKey document nextKey
       timers now defaultPrevented].
  unfold Script.blank_info. destruct fi as [f|]; [|reflexivity].
  unfold modify_document.
  cbn [fst with_document with_timers with_nextKey document nextKey timers now
       defaultPrevented].
  fold d2. destruct T as (Tk & Tn & Tl & Tc).
  apply (DomFacts.set_innerHTML_leaf (nkey f) "" d2 None).
  apply RowFacts.leaf_at_set_elem; [apply RowFacts.plain_clear_value|].
  apply RowFacts.leaf_at_prepend; [|exact Tl].
  unfold error_home.
  destruct (querySelector_class "container" (document s)) as [c|] eqn:C.
  - now apply Tc.
  - apply (RowFacts.leaf_root _ _ inp Tl Hin). congruence.
Qed.

(** The file-information panel after a rejection in the second script:
    it is still the page's [#file-info], with no markup left. *)
Lemma script_reject_file_info (k : key) (fi : option elem) (m : string) (s : state) :
  tracked k fi s ->
  match fi, getElementById "file-info" (document s) with
  | Some f, Some c => nkey c = nkey f
  | None, None => True
  | _, _ => False
  end ->
  getElementById "file-info" (document (exec (Script.reject k fi m) s))
  = option_map (with_innerHTML "") (getElementById "file-info" (document s)).
Proof.
  intros T Cur. rewrite (script_reject_document k fi m s T). cbn zeta.
  set (d1 := prepend (error_home (document s))
               (Node (script_error_panel (nextKey s) m) []) (document s)).
  assert (G1 : getElementById "file-info" d1 = getElementById "file-info" (document s)).
  { unfold getElementById, d1. now apply RowFacts.find_prepend_other. }
  assert (G2 : getElementById "file-info" (set_elem k clear_value d1)
               = option_map (assigned k clear_value)
                   (getElementById "file-info" (document s))).
  { unfold getElementById.
    rewrite RowFacts.elements_set_elem by apply RowFacts.plain_clear_value.
    rewrite RowFacts.find_map_assigned
      by (apply RowFacts.plain_has_id, RowFacts.plain_clear_value).
    fold (getElementById "file-info" d1). now rewrite G1. }
  destruct T as (_ & _ & T).
  destruct fi as [f|], (getElementById "file-info" (document s)) as [c|];
    try contradiction.
  - destruct T as (_ & Tn & _).
    unfold getElementById.
    rewrite RowFacts.elements_set_elem by apply RowFacts.plain_with_innerHTML.
    rewrite RowFacts.find_map_assigned
      by (apply RowFacts.plain_has_id, RowFacts.plain_with_innerHTML).
    fold (getElementById "file-info" (set_elem k clear_value d1)). rewrite G2.
    cbn [option_map]. f_equal.
    assert (Ec : assigned k clear_value c = c).
    { unfold assigned, has_key.
      replace (Nat.eqb (nkey c) k) with false
        by (symmetry; apply Nat.eqb_neq; congruence).
      reflexivity. }
    rewrite Ec. unfold assigned, has_key. rewrite Cur, Nat.eqb_refl. reflexivity.
  - exact G2.
Qed.

(** The change handler of the second script from the page it is written
    for, through its rejections: what each one adds. *)
Lemma script_rejections (k : key) (input : elem) (s : state) (b1 b2 : bool) :
  script_page k input s -> script_error_place (document s) ->
  (0 <? shown_size input)%N
  && negb (JS.endsWith (JS.toLowerCase (shown_name input)) ".csv") = b1 ->
  (16 * 1024 * 1024 <? shown_size input)%N = b2 ->
  let s' := exec (Script.onChange k) s in
  let n1 := nextKey s in
  let n2 := if b1 then S (nextKey s) else nextKey s in
  let t (n : key) := {| due := (now s + 10000)%N; target := n |} in
  snd (Script.onChange k s) = Some tt
  /\ timers s' = timers s ++ (if b1 then [t n1] else []) ++ (if b2 then [t n2] else [])
  /\ (b1 = true ->
      In (script_error_panel n1 "Please select a CSV file") (elements (document s')))
  /\ (b2 = true ->
      In (script_error_panel n2 "File size exceeds 16MB limit") (elements (document s')))
  /\ (b1 || b2 = true ->
      getElementById "file-info" (document s')
      = option_map (with_innerHTML "") (getElementById "file-info" (document s))).
Proof.
  intros P Pl B1 B2. cbn zeta.
  destruct (ScriptFacts.tracked_after_info k input s P) as (T & L1 & K1 & _ & G1 & _).
  specialize (T Pl).
  set (fi := getElementById "file-info" (document s)) in *.
  set (s1 := with_document (script_info_written input (document s)) s) in *.
  set (h := Script.file_info_html (shown_name input)
              (Format.formatFileSize (shown_size input))) in *.
  assert (Cur1 : match fi, getElementById "file-info" (document s1) with
                 | Some f, Some c => nkey c = nkey f
                 | None, None => True
                 | _, _ => False
                 end).
  { rewrite G1. destruct fi; [reflexivity | exact I]. }
  assert (Fresh : forall n, nextKey s <= n -> ~ In n (keys (document s))).
  { intros n Hn Hi. destruct P as ((_ & Fr) & _). unfold fresh in Fr.
    rewrite Forall_forall in Fr. specialize (Fr n Hi). lia. }
  assert (Run := ScriptFacts.script_onChange_steps k input s P). cbn zeta in Run.
  fold fi s1 in Run. rewrite B1, B2 in Run. unfold exec. rewrite Run.
  unfold bind. clear Run.
  destruct b1.
  - (* the extension is refused *)
    destruct (ScriptFacts.script_reject_spec k fi "Please select a CSV file" s1 T)
      as (s2 & R & T2 & Nk & _ & Pn & Fm).
    pose proof (script_reject_timers k fi "Please select a CSV file" s1) as [Tm Nw].
    pose proof (script_reject_file_info k fi "Please select a CSV file" s1 T Cur1) as Gf.
    unfold exec in Tm, Nw, Gf. rewrite R in Tm, Nw, Gf |- *. cbn [fst] in Tm, Nw, Gf.
    change (nextKey s1) with (nextKey s) in *. change (now s1) with (now s) in *.
    change (timers s1) with (timers s) in *.
    rewrite G1 in Gf.
    assert (Gf' : getElementById "file-info" (document s2)
                  = option_map (with_innerHTML "") fi)
      by (rewrite Gf; destruct fi; reflexivity).
    destruct b2.
    + (* and the size too *)
      assert (Cur2 : match fi, getElementById "file-info" (document s2) with
                     | Some f, Some c => nkey c = nkey f
                     | None, None => True
                     | _, _ => False
                     end).
      { rewrite Gf'. destruct fi; [reflexivity | exact I]. }
      destruct (ScriptFacts.script_reject_spec k fi "File size exceeds 16MB limit" s2 T2)
        as (s3 & R3 & _ & _ & _ & Pn3 & Fm3).
      pose proof (script_reject_timers k fi "File size exceeds 16MB limit" s2)
        as [Tm3 Nw3].
      pose proof (script_reject_file_info k fi "File size exceeds 16MB limit" s2 T2 Cur2)
        as Gf3.
      unfold exec in Tm3, Nw3, Gf3. rewrite R3 in Tm3, Nw3, Gf3 |- *.
      cbn [fst snd] in *. rewrite Nk, Nw, Tm in Tm3.
      split; [reflexivity|]. split; [rewrite Tm3, <- app_assoc; reflexivity|].
      split; [|split].
      * intros _. apply Fm3; [exact Pn | |].
        -- cbn [nkey script_error_panel]. intros E. apply (Fresh (nextKey s)); [lia|].
           rewrite E. destruct T as (_ & (i & Li) & _). rewrite <- K1.
           destruct (find_some _ _ Li) as [Hi Ki]. apply Nat.eqb_eq in Ki.
           rewrite <- Ki. now apply in_map.
        -- destruct fi as [f0|]; [|exact I]. cbn [nkey script_error_panel].
           intros E. apply (Fresh (nextKey s)); [lia|]. rewrite E, <- K1. apply T.
      * intros _. rewrite <- Nk. exact Pn3.
      * intros _. rewrite Gf3, Gf'. destruct fi; reflexivity.
    + cbn [fst snd ret]. split; [reflexivity|].
      split; [rewrite Tm; reflexivity|]. split; [|split].
      * intros _. exact Pn.
      * discriminate.
      * intros _. exact Gf'.
  - cbn [ret]. destruct b2.
    + destruct (ScriptFacts.script_reject_spec k fi "File size exceeds 16MB limit" s1 T)
        as (s3 & R3 & _ & _ & _ & Pn3 & _).
      pose proof (script_reject_timers k fi "File size exceeds 16MB limit" s1)
        as [Tm3 Nw3].
      pose proof (script_reject_file_info k fi "File size exceeds 16MB limit" s1 T Cur1)
        as Gf3.
      unfold exec in Tm3, Nw3, Gf3. rewrite R3 in Tm3, Nw3, Gf3 |- *.
      cbn [fst snd] in *.
      change (nextKey s1) with (nextKey s) in *. change (now s1) with (now s) in *.
      change (timers s1) with (timers s) in *.
      split; [reflexivity|]. split; [exact Tm3|]. split; [discriminate|].
      split; [intros _; exact Pn3|].
      intros _. rewrite Gf3, G1. destruct fi; reflexivity.
    + cbn [fst snd]. split; [reflexivity|].
      split; [cbn [app]; now rewrite app_nil_r|].
      split; [discriminate|]. split; discriminate.
Qed.

Lemma showErrors_count (messages : list string) :
  forall s, wf s -> count_id "error-alert" (document s) <= 1 ->
  count_id "error-alert" (document (MainJs.showErrors messages s)) <= 1.
Proof.
  induction messages as [|m r IH]; intros s W C; [exact C|].
  destruct (MainJsFacts.showError_keeps s m W) as [W' C'].
  apply IH; [exact W' | lia].
Qed.

(** C10.  In main.js, whatever the sequence of [showError] calls, the
    document never holds more than one element with id [error-alert]
    (on a page that had at most one): a call that finds the panel
    creates no element and replaces the panel's message. *)
Theorem error_alert_at_most_one (s : state) :
  wf s -> count_id "error-alert" (document s) <= 1 ->
  (forall messages,
      count_id "error-alert" (document (MainJs.showErrors messages s)) <= 1)
  /\ (forall m ea,
         getElementById "error-alert" (document s) = Some ea ->
         nextKey (exec (MainJs.showError m) s) = nextKey s
         /\ getElementById "error-alert" (document (exec (MainJs.showError m) s))
            = Some (with_innerHTML (MainJs.error_html m) ea)).
Proof.
  intros W C. split.
  - intros messages. now apply showErrors_count.
  - intros m ea F. unfold exec. rewrite (MainJsFacts.showError_found s m ea F).
    cbn [fst nextKey document with_document]. split; [reflexivity|].
    destruct W as [N _]. apply (MainJsFacts.showError_reuse s m ea N F).
Qed.

Lemma error_alert_at_most_one_witness :
  count_id "error-alert"
    (document
       (MainJs.showErrors ["Please select a product."; "Please select a CSV file."]
          (Sample.page (Sample.body [] "" "" [])))) <= 1.
Proof.
  apply (error_alert_at_most_one (Sample.page (Sample.body [] "" "" []))).
  - apply SampleFacts.sample_wf.
  - vm_compute. lia.
Defined.

(** The forecast handler, step by step. *)
Lemma onForecastSubmit_run (s : state) (product days : elem) :
  getElementById "product" (document s) = Some product ->
  getElementById "days" (document s) = Some days ->
  MainJs.onForecastSubmit s
  = if String.eqb (value product) "" then
      MainJs.showError "Please select a product." (with_defaultPrevented true s)
    else
      let horizon := JS.parseInt (value days) in
      if JS.isNaN horizon || JS.lt horizon 1 || JS.gt horizon 90 then
        MainJs.showError "Please enter a valid number of days (1-90)."
          (with_defaultPrevented true s)
      else MainJs.showLoading "Generating forecast..." s.
Proof.
  intros P D. unfold MainJs.onForecastSubmit, bind, gets. rewrite P, D.
  cbn [deref ret]. destruct (String.eqb (value product) ""); [reflexivity|].
  cbn zeta.
  destruct (JS.isNaN (JS.parseInt (value days)) || JS.lt (JS.parseInt (value days)) 1
            || JS.gt (JS.parseInt (value days)) 90); reflexivity.
Qed.

Lemma blocked_horizon_iff (n : JS.number) :
  JS.isNaN n || JS.lt n 1 || JS.gt n 90 = true
  <-> n = JS.NaN \/ exists z, n = JS.Int z /\ (z < 1 \/ 90 < z)%Z.
Proof.
  destruct n as [|z]; simpl.
  - split; [now left | reflexivity].
  - rewrite orb_true_iff, !Z.ltb_lt. split.
    + intros H. right. exists z. tauto.
    + intros [H|(z' & E & H)]; [discriminate|]. injection E as ->. exact H.
Qed.

(** C3.  The submit handler of the forecast form cancels the submission
    exactly when the product value is empty or the days value, read by
    [parseInt], is NaN, below 1 or above 90; a cancelled submission
    leaves the error panel with its message on the page; with a product
    chosen, the horizons 0, 91, a non-numeric or an empty value are
    blocked and 1 and 90 go through; a horizon written as a whole number
    is blocked exactly when it is outside 1..90. *)
Theorem forecast_submit_blocked_iff (s : state) (product days : elem) :
  wf s -> error_host (document s) = true ->
  getElementById "product" (document s) = Some product ->
  getElementById "days" (document s) = Some days ->
  defaultPrevented s = false ->
  let s' := exec MainJs.onForecastSubmit s in
  let horizon := JS.parseInt (value days) in
  (defaultPrevented s' = true
   <-> value product = ""
       \/ horizon = JS.NaN
       \/ exists z, horizon = JS.Int z /\ (z < 1 \/ 90 < z)%Z)
  /\ (defaultPrevented s' = true ->
      exists ea,
        getElementById "error-alert" (document s') = Some ea
        /\ (innerHTML ea = MainJs.error_html "Please select a product."
            \/ innerHTML ea
               = MainJs.error_html "Please enter a valid number of days (1-90)."))
  /\ (value product <> "" -> In (value days) ["0"; "91"; "abc"; ""] ->
      defaultPrevented s' = true)
  /\ (value product <> "" -> In (value days) ["1"; "90"] ->
      defaultPrevented s' = false)
  /\ (forall n : N, value days = JS.natural_to_string n ->
        (defaultPrevented s' = true
         <-> value product = "" \/ (n < 1)%N \/ (90 < n)%N)).
Proof.
  intros W H P D NP s' horizon.
  assert (Cases :
            (defaultPrevented s' = true
             /\ (value product = ""
                 \/ JS.isNaN horizon || JS.lt horizon 1 || JS.gt horizon 90 = true)
             /\ exists ea,
                 getElementById "error-alert" (document s') = Some ea
                 /\ (innerHTML ea = MainJs.error_html "Please select a product."
                     \/ innerHTML ea
                        = MainJs.error_html
                            "Please enter a valid number of days (1-90)."))
            \/ (defaultPrevented s' = false
                /\ value product <> ""
                /\ JS.isNaN horizon || JS.lt horizon 1 || JS.gt horizon 90 = false)).
  { unfold s', exec. rewrite (onForecastSubmit_run s product days P D).
    destruct (String.eqb_spec (value product) "") as [E|E].
    - left.
      destruct (MainJsFacts.showError_spec (with_defaultPrevented true s)
                  "Please select a product." W H)
        as (s1 & R & _ & (ea & G & I) & _ & _ & Pd & _).
      rewrite R. cbn [fst]. split; [exact Pd|]. split; [now left|].
      exists ea. split; [exact G | now left].
    - cbn zeta. fold horizon.
      destruct (JS.isNaN horizon || JS.lt horizon 1 || JS.gt horizon 90) eqn:B.
      + left.
        destruct (MainJsFacts.showError_spec (with_defaultPrevented true s)
                    "Please enter a valid number of days (1-90)." W H)
          as (s1 & R & _ & (ea & G & I) & _ & _ & Pd & _).
        rewrite R. cbn [fst]. split; [exact Pd|]. split; [now right|].
        exists ea. split; [exact G | now right].
      + right. split; [exact NP|]. split; [exact E | reflexivity]. }
  assert (Iff : defaultPrevented s' = true
                <-> value product = ""
                    \/ JS.isNaN horizon || JS.lt horizon 1 || JS.gt horizon 90 = true).
  { destruct Cases as [(Pd & C & _)|(Pd & E & B)].
    - tauto.
    - rewrite Pd, B. split; [discriminate | intros [?|?]; [contradiction | discriminate]]. }
  split; [split|split; [|split; [|split]]].
  - intros Pd. apply Iff in Pd. rewrite blocked_horizon_iff in Pd. tauto.
  - intros Hb. apply Iff. rewrite blocked_horizon_iff. tauto.
  - intros Pd. destruct Cases as [(_ & _ & G)|(Pd' & _)]; [exact G | congruence].
  - intros E Hd. apply Iff. right. unfold horizon.
    cbn [In] in Hd. destruct Hd as [<-|[<-|[<-|[<-|[]]]]]; reflexivity.
  - intros E Hd. destruct (defaultPrevented s') eqn:Pd; [|reflexivity].
    exfalso. destruct (proj1 Iff eq_refl) as [E'|B]; [contradiction|].
    unfold horizon in B. cbn [In] in Hd.
    destruct Hd as [Hd|[Hd|[]]]; rewrite <- Hd in B; discriminate.
  - intros n Hn. rewrite Iff, blocked_horizon_iff. unfold horizon.
    rewrite Hn, NumberFacts.parseInt_natural. split.
    + intros [Pd|[Pd|(z & E & Pd)]]; [now left | discriminate |].
      injection E as <-. right. lia.
    + intros [Hb|Hb]; [now left|]. right. right.
      exists (Z.of_N n). split; [reflexivity | lia].
Qed.

Lemma forecast_submit_blocked_iff_witness :
  defaultPrevented
    (exec MainJs.onForecastSubmit (Sample.page (Sample.body [] "widget" "91" [])))
  = true.
Proof.
  apply (forecast_submit_blocked_iff (Sample.page (Sample.body [] "widget" "91" []))
           (Sample.field 6 "select" "product" "widget")
           (Sample.field 7 "input" "days" "91")).
  - apply SampleFacts.sample_wf.
  - reflexivity.
  - reflexivity.
  - reflexivity.
  - reflexivity.
  - discriminate.
  - simpl. tauto.
Defined.

(** C8.  Submitting the upload form of main.js with no file selected:
    the handler cancels the submission and leaves the error panel with
    its message on the page; every element of the page other than that
    panel was there before the event, so no loading overlay was added. *)
Theorem upload_submit_without_file (s : state) (fileInput : key) (input : elem) :
  wf s -> error_host (document s) = true ->
  lookup fileInput (document s) = Some input ->
  files input = [] ->
  let s' := exec (MainJs.onUploadSubmit (Some fileInput)) s in
  defaultPrevented s' = true
  /\ (exists ea,
         getElementById "error-alert" (document s') = Some ea
         /\ innerHTML ea = MainJs.error_html "Please select a file to upload.")
  /\ (forall x, In x (elements (document s')) ->
                has_id "error-alert" x = false -> In x (elements (document s)))
  /\ (forall x, In x (elements (document s')) ->
                has_class "loading-spinner" x = true ->
                In (nkey x) (keys (document s))).
Proof.
  intros W H L F s'. unfold s', exec, MainJs.onUploadSubmit, MainJs.element, bind, gets.
  cbn [deref ret]. rewrite L. cbn [deref ret]. rewrite F. cbn [preventDefault].
  destruct (MainJsFacts.showError_spec (with_defaultPrevented true s)
              "Please select a file to upload." W H)
    as (s1 & R & _ & G & _ & _ & Pd & I & K & _).
  rewrite R. cbn [fst]. repeat split; try assumption.
  intros x Hx Cx. destruct (K x Hx) as [Hk| ->]; [exact Hk | discriminate].
Qed.

Lemma upload_submit_without_file_witness :
  defaultPrevented
    (exec (MainJs.onUploadSubmit (Some 4)) (Sample.page (Sample.body [] "" "" [])))
  = true.
Proof.
  apply (upload_submit_without_file (Sample.page (Sample.body [] "" "" [])) 4
           (Sample.file_input 4 [])).
  - apply SampleFacts.sample_wf.
  - reflexivity.
  - reflexivity.
  - reflexivity.
Defined.

(** C7.  Each call of [showError] in the second script creates one
    panel and sets exactly one timer, due 10,000 ms after the call, that
    closes that panel: the timer is still pending at any earlier time
    and has fired, closing the panel, at any later one; no handler of
    the script ever takes a timer away. *)
Theorem showError_schedules_one_close (Alert_close : key -> node -> node)
    (s : state) (m : string) :
  let s' := exec (Script.showError m) s in
  let close := {| due := (now s + 10000)%N; target := nextKey s |} in
  timers s' = timers s ++ [close]
  /\ nextKey s' = S (nextKey s)
  /\ (exists panel,
         In panel (elements (document s'))
         /\ nkey panel = nextKey s
         /\ has_class "alert-danger" panel = true
         /\ innerHTML panel = Script.error_html m)
  /\ (forall t, (t < now s + 10000)%N ->
        In close (timers (Script.advance Alert_close t s'))
        /\ document (Script.advance Alert_close t s')
           = document (Script.advance Alert_close t (with_timers (timers s) s')))
  /\ (forall t, (now s + 10000 <= t)%N ->
        ~ In close (timers (Script.advance Alert_close t s'))
        /\ document (Script.advance Alert_close t s')
           = Alert_close (nextKey s)
               (document (Script.advance Alert_close t (with_timers (timers s) s'))))
  /\ (forall k, keeps_timers (Script.onChange k))
  /\ (forall k, keeps_timers (Script.onFormSubmit k)).
Proof.
  intros s' close. unfold s', exec. rewrite ScriptFacts.showError_run. cbn [fst].
  cbn [timers with_timers nextKey with_document with_nextKey document].
  fold close.
  set (panel := with_innerHTML (Script.error_html m)
                  (set_className
                     ["alert"; "alert-danger"; "alert-dismissible"; "fade"; "show"]
                     (blank (nextKey s) "div"))).
  split; [reflexivity|]. split; [reflexivity|]. split; [|split; [|split; [|split]]].
  - exists panel. split; [|repeat split].
    destruct (querySelector_class "container" (document s)) as [c|] eqn:C.
    + unfold elements. apply in_map_iff. exists (Some (nkey c), panel).
      split; [reflexivity|]. unfold rows. rewrite DomFacts.rows_prepend.
      apply RowFacts.in_after_new; [|now left].
      rewrite <- RowFacts.keys_as_rows. apply in_map.
      exact (proj1 (find_some _ _ C)).
    + destruct (document s) as [e cs]. cbn. right. now left.
  - intros t Ht. split.
    + apply filter_In. split; [apply in_or_app; right; now left|].
      unfold Script.is_due, close. cbn [due]. apply negb_true_iff, N.leb_gt.
      assumption.
    + unfold Script.advance. cbn [document timers with_timers].
      rewrite filter_app. cbn [filter]. unfold Script.is_due at 2, close. cbn [due].
      replace (now s + 10000 <=? t)%N with false
        by (symmetry; apply N.leb_gt; assumption).
      rewrite app_nil_r. reflexivity.
  - intros t Ht. split.
    + intros H'. apply filter_In in H'. destruct H' as [_ H'].
      unfold Script.is_due, close in H'. cbn [due] in H'.
      apply negb_true_iff, N.leb_gt in H'. lia.
    + unfold Script.advance. cbn [document timers with_timers].
      rewrite filter_app. cbn [filter]. unfold Script.is_due at 2, close. cbn [due].
      replace (now s + 10000 <=? t)%N with true
        by (symmetry; apply N.leb_le; assumption).
      rewrite fold_left_app. reflexivity.
  - apply ScriptFacts.keeps_onChange.
  - apply ScriptFacts.keeps_onFormSubmit.
Qed.

(** C9.  In the second script, a CSV file of exactly 16,777,216 bytes
    passes: the handler only writes the name and the size in the
    file-information panel (when the page has one); no element is
    created, no timer is set, and the input keeps its selection. *)
Theorem csv_at_limit_passes (k : key) (input : elem) (s : state)
    (f : File) (rest : list File) :
  script_page k input s -> files input = f :: rest ->
  JS.ends_with_ci (name f) ".csv" -> size f = 16777216%N ->
  let s' := exec (Script.onChange k) s in
  s' = with_document (script_info_written input (document s)) s
  /\ nextKey s' = nextKey s
  /\ timers s' = timers s
  /\ keys (document s') = keys (document s)
  /\ lookup k (document s') = Some input
  /\ (forall x, In x (elements (document s)) -> has_id "file-info" x = false ->
                In x (elements (document s'))).
Proof.
  intros P Ff Ext Sz s'.
  destruct (ScriptFacts.script_accepts k input s f rest P Ff (or_intror Ext))
    as (E & K & L & _ & Fm).
  - rewrite Sz. apply N.le_refl.
  - fold s' in E, K, L, Fm. rewrite E at 1 2 3. repeat split; assumption.
Qed.

Lemma csv_at_limit_passes_witness :
  lookup 4 (document (exec (Script.onChange 4) (Sample.selected Sample.at_limit)))
  = Some (Sample.file_input 4 [Sample.at_limit]).
Proof.
  assert (Ext : JS.ends_with_ci (name Sample.at_limit) ".csv")
    by (apply StringFacts.csv_name_test; reflexivity).
  exact (proj1 (proj2 (proj2 (proj2 (proj2
           (csv_at_limit_passes 4 (Sample.file_input 4 [Sample.at_limit])
              (Sample.selected Sample.at_limit) Sample.at_limit []
              (SampleFacts.sample_script_page Sample.at_limit)
              eq_refl Ext eq_refl)))))).
Defined.

(** C1, as the code has it.  A selected file whose name does not end
    with [.csv], upper or lower case, and brings no tag of its own into
    the panel it is written in: the handler of main.js shows the error
    panel with its message and clears the input when the name is not
    empty, the handler of the second script when the file is not
    empty. *)
Theorem non_csv_file_is_rejected (k : key) (input : elem) (s : state)
    (f : File) (rest : list File) :
  files input = f :: rest ->
  ~ JS.ends_with_ci (name f) ".csv" ->
  JS.no_tag (name f) = true ->
  (main_page k input s -> main_error_place (document s) -> name f <> "" ->
   let s' := exec (MainJs.onChange k) s in
   (exists ea, getElementById "error-alert" (document s') = Some ea
               /\ innerHTML ea = MainJs.error_html "Please select a CSV file."
               /\ JS.shown_text (innerHTML ea)
                  = (nl ++ "      " ++ nl ++ "      Error: Please select a CSV file."
                        ++ nl ++ "      " ++ nl ++ "    ")%string)
   /\ (exists input', lookup k (document s') = Some input'
                      /\ value input' = "" /\ files input' = []))
  /\ (script_page k input s -> script_error_place (document s) ->
      (0 < size f)%N ->
      let s' := exec (Script.onChange k) s in
      (exists panel,
          In panel (elements (document s'))
          /\ has_class "alert-danger" panel = true
          /\ innerHTML panel = Script.error_html "Please select a CSV file"
          /\ JS.shown_text (innerHTML panel)
             = (nl ++ "      " ++ nl ++ "      Error: Please select a CSV file"
                   ++ nl ++ "      " ++ nl ++ "    ")%string
          /\ ~ In (nkey panel) (keys (document s)))
      /\ (exists input', lookup k (document s') = Some input'
                         /\ value input' = "" /\ files input' = [])).
Proof.
  intros Ff Ext Nt. split.
  - intros P H Nm.
    pose proof (MainJsFacts.main_rejects_extension k input s f rest P H Ff Nm Ext) as R.
    cbn zeta in R. destruct R as ((ea & G & I) & C).
    split; [|exact C]. exists ea. split; [exact G|]. split; [exact I|].
    rewrite I. reflexivity.
  - intros P H Sz.
    pose proof (ScriptFacts.script_rejects_extension k input s f rest P H Ff Sz Ext) as R.
    cbn zeta in R. destruct R as ((panel & Hin & Hc & I & Hk) & C).
    split; [|exact C]. exists panel. split; [exact Hin|]. split; [exact Hc|].
    split; [exact I|]. split; [|exact Hk]. rewrite I. reflexivity.
Qed.

Lemma notes_is_not_csv : ~ JS.ends_with_ci "notes.txt" ".csv".
Proof.
  intros H. apply StringFacts.csv_name_test in H. discriminate.
Qed.

Lemma non_csv_file_is_rejected_witness :
  (exists input',
      lookup 4 (document (exec (MainJs.onChange 4) (Sample.selected Sample.notes)))
      = Some input' /\ value input' = "" /\ files input' = [])
  /\ (exists input',
         lookup 4 (document (exec (Script.onChange 4) (Sample.selected Sample.notes)))
         = Some input' /\ value input' = "" /\ files input' = []).
Proof.
  pose proof (non_csv_file_is_rejected 4 (Sample.file_input 4 [Sample.notes])
                (Sample.selected Sample.notes) Sample.notes [] eq_refl
                notes_is_not_csv eq_refl) as [M S].
  split.
  - refine (proj2 (M (SampleFacts.sample_main_page Sample.notes) _ _)).
    + repeat split.
    + discriminate.
  - refine (proj2 (S (SampleFacts.sample_script_page Sample.notes) eq_refl _)).
    reflexivity.
Defined.

(** C1 fails on the second script for an empty file: [notes.txt] of 0
    bytes is selected, its name does not end with [.csv], and the
    handler leaves the page as it was, the selection in place and no
    error panel anywhere. *)
Lemma empty_file_skips_extension_check :
  let s := Sample.selected Sample.empty_notes in
  let s' := exec (Script.onChange 4) s in
  ~ JS.ends_with_ci (name Sample.empty_notes) ".csv"
  /\ s' = s
  /\ lookup 4 (document s') = Some (Sample.file_input 4 [Sample.empty_notes])
  /\ forallb (fun e => negb (has_class "alert-danger" e)) (elements (document s'))
     = true.
Proof.
  split; [exact notes_is_not_csv|]. repeat split.
Qed.

(** C2, as the code has it.  A selected file of more than 16,777,216
    bytes: the handler of the second script shows an error panel with
    its message and clears the input whatever the extension, for a name
    that brings no tag of its own into the panel it is written in;
    main.js has no size test, and lets a file through when its name ends
    with [.csv]: the file stays selected, and (for the sizes that have
    a unit) the handler only writes the name and the size in the
    file-information panel. *)
Theorem oversized_file_is_rejected (k : key) (input : elem) (s : state)
    (f : File) (rest : list File) :
  files input = f :: rest ->
  (16777216 < size f)%N ->
  (script_page k input s -> script_error_place (document s) ->
   JS.no_tag (name f) = true ->
   let s' := exec (Script.onChange k) s in
   (exists panel,
       In panel (elements (document s'))
       /\ has_class "alert-danger" panel = true
       /\ innerHTML panel = Script.error_html "File size exceeds 16MB limit"
       /\ JS.shown_text (innerHTML panel)
          = (nl ++ "      " ++ nl ++ "      Error: File size exceeds 16MB limit"
                ++ nl ++ "      " ++ nl ++ "    ")%string
       /\ ~ In (nkey panel) (keys (document s)))
   /\ (exists input', lookup k (document s') = Some input'
                      /\ value input' = "" /\ files input' = []))
  /\ (main_page k input s -> JS.ends_with_ci (name f) ".csv" ->
      let s' := exec (MainJs.onChange k) s in
      lookup k (document s') = Some input
      /\ timers s' = timers s
      /\ snd (MainJs.onChange k s) = Some tt
      /\ ((size f < 1024 ^ 4)%N -> s' = main_info_written k f s)).
Proof.
  intros Ff Sz. split.
  - intros P H Nt.
    pose proof (ScriptFacts.script_rejects_size k input s f rest P H Ff Sz) as R.
    cbn zeta in R. destruct R as ((panel & Hin & Hc & I & Hk) & C).
    split; [|exact C]. exists panel. split; [exact Hin|]. split; [exact Hc|].
    split; [exact I|]. split; [|exact Hk]. rewrite I. reflexivity.
  - intros P Ext.
    destruct (MainJsFacts.main_accepts_csv k input s f rest P Ff Ext)
      as (E & _ & L & T).
    split; [exact L|]. split; [exact T|]. split; [|intros _; exact E].
    destruct (MainJsFacts.main_onChange_steps k input s f rest P Ff
                (StringFacts.csv_name_not_empty _ Ext)) as (Run & _).
    rewrite Run.
    replace (JS.endsWith (JS.toLowerCase (name f)) ".csv") with true
      by (symmetry; now rewrite StringFacts.csv_name_test).
    reflexivity.
Qed.

Lemma oversized_file_is_rejected_witness :
  exists input',
    lookup 4 (document (exec (Script.onChange 4) (Sample.selected Sample.over_limit)))
    = Some input' /\ value input' = "" /\ files input' = [].
Proof.
  refine (proj2 (proj1 (oversized_file_is_rejected 4
                          (Sample.file_input 4 [Sample.over_limit])
                          (Sample.selected Sample.over_limit) Sample.over_limit []
                          eq_refl _)
                   (SampleFacts.sample_script_page Sample.over_limit) eq_refl eq_refl)).
  reflexivity.
Defined.

(** C2 fails on main.js: [sales.csv] of 16,777,217 bytes is selected,
    and the handler of main.js shows its name and size without any error
    panel and leaves it selected. *)
Lemma main_js_has_no_size_check :
  let s := Sample.selected Sample.over_limit in
  let s' := exec (MainJs.onChange 4) s in
  (16777216 < size Sample.over_limit)%N
  /\ getElementById "error-alert" (document s') = None
  /\ forallb (fun e => negb (has_class "alert-danger" e)) (elements (document s'))
     = true
  /\ lookup 4 (document s') = Some (Sample.file_input 4 [Sample.over_limit]).
Proof.
  repeat split.
Qed.

(** C6, as the code has it.  A selected file that is not rejected and
    whose name is plain text.  The handler of main.js (which lets
    through the names that end with [.csv]) leaves a file-information
    panel that shows the name and the formatted size (for the sizes
    that have a unit), the panel of the page or else a new one, created
    under the parent of the input.  The handler of the second script
    (which lets through the empty files and the CSV files up to the
    limit) shows them in the panel when the page has one; when the page
    has none it creates none, whatever the file. *)
Theorem file_info_panel_shows_the_file (k : key) (input : elem) (s : state)
    (f : File) (rest : list File) :
  files input = f :: rest ->
  (main_page k input s -> JS.ends_with_ci (name f) ".csv" ->
   JS.plain_text (name f) = true -> (size f < 1024 ^ 4)%N ->
   let s' := exec (MainJs.onChange k) s in
   (exists fi, getElementById "file-info" (document s') = Some fi
               /\ JS.shown_text (innerHTML fi)
                  = (nl ++ "          " ++ nl ++ "          Selected file: "
                        ++ name f ++ " (" ++ Format.formatFileSize (size f) ++ ")"
                        ++ nl ++ "        ")%string
               /\ nkey fi = match getElementById "file-info" (document s) with
                            | Some f0 => nkey f0
                            | None => nextKey s
                            end)
   /\ s' = main_info_written k f s)
  /\ (script_page k input s ->
      size f = 0%N \/ JS.ends_with_ci (name f) ".csv" -> (size f <= 16777216)%N ->
      JS.plain_text (name f) = true ->
      let s' := exec (Script.onChange k) s in
      let shown := if String.eqb (name f) "" then "No file selected" else name f in
      match getElementById "file-info" (document s) with
      | Some f0 =>
          exists fi, getElementById "file-info" (document s') = Some fi
                     /\ fi = with_innerHTML (innerHTML fi) f0
                     /\ JS.shown_text (innerHTML fi)
                        = (nl ++ "          File: " ++ shown ++ " " ++ nl
                              ++ "          Size: " ++ Format.formatFileSize (size f)
                              ++ nl ++ "        ")%string
      | None => getElementById "file-info" (document s') = None
      end
      /\ keys (document s') = keys (document s))
  /\ (script_page k input s ->
      getElementById "file-info" (document s) = None ->
      getElementById "file-info" (document (exec (Script.onChange k) s)) = None).
Proof.
  intros Ff. split; [|split].
  - intros P Ext Pl _.
    destruct (MainJsFacts.main_accepts_csv k input s f rest P Ff Ext)
      as (E & (fi & G & K & H) & _ & _).
    split; [|exact E]. exists fi. split; [exact G|]. split; [|exact K].
    rewrite H. apply main_file_info_shown;
      [now apply plain_no_tag | apply formatFileSize_no_tag].
  - intros P Ok Sz Pl.
    destruct (ScriptFacts.script_accepts k input s f rest P Ff Ok Sz)
      as (_ & K & _ & G & _).
    split; [|exact K]. cbn zeta in *. rewrite G.
    unfold shown_name. rewrite Ff.
    destruct (getElementById "file-info" (document s)) as [f0|]; [|reflexivity].
    cbn [option_map]. eexists. split; [reflexivity|]. split; [reflexivity|].
    cbn [innerHTML with_innerHTML]. apply script_file_info_shown;
      [|apply formatFileSize_no_tag].
    destruct (String.eqb (name f) ""); [reflexivity | now apply plain_no_tag].
  - intros P None_.
    pose proof (without_class_absent "file-info" "container" (document s) None_) as Pl.
    destruct (script_rejections k input s _ _ P Pl eq_refl eq_refl)
      as (_ & _ & _ & _ & G).
    destruct ((0 <? shown_size input)%N
              && negb (JS.endsWith (JS.toLowerCase (shown_name input)) ".csv")
              || (16 * 1024 * 1024 <? shown_size input)%N) eqn:B.
    + rewrite (G eq_refl), None_. reflexivity.
    + apply orb_false_iff in B. destruct B as [B1 B2].
      unfold exec. rewrite (ScriptFacts.onChange_accepts k input s P B1 B2). cbn [fst].
      cbn [document with_document]. unfold script_info_written. now rewrite None_.
Qed.

Lemma small_is_csv : JS.ends_with_ci (name Sample.small) ".csv".
Proof. apply StringFacts.csv_name_test. reflexivity. Qed.

Lemma file_info_panel_shows_the_file_witness :
  (exists fi,
      getElementById "file-info"
        (document (exec (MainJs.onChange 4) (Sample.selected Sample.small)))
      = Some fi
      /\ JS.shown_text (innerHTML fi)
         = (nl ++ "          " ++ nl ++ "          Selected file: data.csv (1 KB)"
               ++ nl ++ "        ")%string
      /\ nkey fi = 20)
  /\ (exists fi,
         getElementById "file-info"
           (document (exec (Script.onChange 4) (Sample.selected_with_panel Sample.small)))
         = Some fi
         /\ fi = with_innerHTML (innerHTML fi)
                   (Sample.el 10 "div" "file-info" ["alert"; "alert-info"])
         /\ JS.shown_text (innerHTML fi)
            = (nl ++ "          File: data.csv " ++ nl ++ "          Size: 1 KB"
                  ++ nl ++ "        ")%string)
  /\ getElementById "file-info"
       (document (exec (Script.onChange 4) (Sample.selected Sample.notes)))
     = None.
Proof.
  split; [|split].
  - exact (proj1 (proj1 (file_info_panel_shows_the_file 4
                           (Sample.file_input 4 [Sample.small])
                           (Sample.selected Sample.small) Sample.small [] eq_refl)
                    (SampleFacts.sample_main_page Sample.small) small_is_csv eq_refl
                    eq_refl)).
  - refine (proj1 (proj1 (proj2 (file_info_panel_shows_the_file 4
                                   (Sample.file_input 4 [Sample.small])
                                   (Sample.selected_with_panel Sample.small)
                                   Sample.small [] eq_refl))
                     (SampleFacts.sample_script_page_panel Sample.small)
                     (or_intror small_is_csv) _ eq_refl)).
    discriminate.
  - exact (proj2 (proj2 (file_info_panel_shows_the_file 4
                           (Sample.file_input 4 [Sample.notes])
                           (Sample.selected Sample.notes) Sample.notes [] eq_refl))
             (SampleFacts.sample_script_page Sample.notes) eq_refl).
Defined.

(** C6 fails on the second script: on a page without file-information
    panel, [data.csv] of 1,024 bytes is selected and accepted, and the
    page still has no such panel afterwards. *)
Lemma second_script_creates_no_panel :
  let s := Sample.selected Sample.small in
  let s' := exec (Script.onChange 4) s in
  getElementById "file-info" (document s) = None
  /\ getElementById "file-info" (document s') = None
  /\ s' = s.
Proof.
  repeat split.
Qed.




(** C5.  [formatFileSize] gives "0 Bytes" for 0, "1 KB" for 1024 and
    "1 MB" for 1,048,576; a byte count below 1024^4 is printed as a
    number and a unit, the unit being the one of Bytes, KB, MB, GB whose
    power of 1024 is the largest below the count, and the number a
    decimal numeral with at most two digits after the point that
    denotes the nearest count of hundredths of that unit. *)
Theorem formatFileSize_binary_units :
  Format.formatFileSize 0 = "0 Bytes"
  /\ Format.formatFileSize 1024 = "1 KB"
  /\ Format.formatFileSize 1048576 = "1 MB"
  /\ forall bytes : N,
       (0 < bytes < 1024 ^ 4)%N ->
       exists (i h : N) (unit number : string),
         (1024 ^ i <= bytes < 1024 ^ (i + 1))%N
         /\ nth_error Format.sizes (N.to_nat i) = Some unit
         /\ (2 * h * 1024 ^ i <= 200 * bytes + 1024 ^ i
             < 2 * h * 1024 ^ i + 2 * 1024 ^ i)%N
         /\ Format.formatFileSize bytes = (number ++ " " ++ unit)%string
         /\ JS.hundredths_of number = Some h.
Proof.
  split; [reflexivity|]. split; [reflexivity|]. split; [vm_compute; reflexivity|].
  intros bytes Hb.
  pose proof (FormatFacts.floor_log_bounds bytes (proj1 Hb)) as Bd.
  pose proof (FormatFacts.floor_log_small bytes Hb) as Sm.
  set (i := Format.floor_log bytes Format.k) in *.
  assert (Kp : (0 < Format.k ^ i)%N).
  { apply N.neq_0_lt_0, N.pow_nonzero. discriminate. }
  pose proof (FormatFacts.toFixed2_nearest bytes (Format.k ^ i) Kp) as Nr.
  assert (U : exists unit, nth_error Format.sizes (N.to_nat i) = Some unit
                           /\ nth (N.to_nat i) Format.sizes "undefined" = unit).
  { assert (C : (i = 0 \/ i = 1 \/ i = 2 \/ i = 3)%N) by lia.
    destruct C as [E | [E | [E | E]]]; rewrite E; eexists; split; reflexivity. }
  destruct U as (unit & U1 & U2).
  exists i, (JS.toFixed2 bytes (Format.k ^ i)), unit,
    (JS.hundredths_to_string (JS.toFixed2 bytes (Format.k ^ i))).
  change 1024%N with Format.k.
  repeat split; try assumption; try apply Bd; try apply Nr.
  - unfold Format.formatFileSize.
    replace (bytes =? 0)%N with false by (symmetry; apply N.eqb_neq; lia).
    fold i. cbn zeta. now rewrite U2.
  - apply NumberFacts.hundredths_round_trip.
Qed.

Lemma formatFileSize_binary_units_witness :
  exists (i h : N) (unit number : string),
    (1024 ^ i <= 1536 < 1024 ^ (i + 1))%N
    /\ nth_error Format.sizes (N.to_nat i) = Some unit
    /\ (2 * h * 1024 ^ i <= 200 * 1536 + 1024 ^ i
        < 2 * h * 1024 ^ i + 2 * 1024 ^ i)%N
    /\ Format.formatFileSize 1536 = (number ++ " " ++ unit)%string
    /\ JS.hundredths_of number = Some h.
Proof.
  apply (proj2 (proj2 (proj2 formatFileSize_binary_units)) 1536%N).
  split; reflexivity.
Defined.

(** * Further properties of the two scripts *)

(** ** [formatFileSize], at the edges

    Whole numbers of a unit, the last hundredths below a unit, and the
    sizes that have no unit. *)

Lemma hundredths_whole (n : N) :
  JS.hundredths_to_string (100 * n) = JS.natural_to_string n.
Proof.
  unfold JS.hundredths_to_string.
  replace (100 * n / 100)%N with n by (symmetry; rewrite N.mul_comm; apply N.div_mul; discriminate).
  replace ((100 * n) mod 100)%N with 0%N
    by (symmetry; rewrite N.mul_comm; apply N.Div0.mod_mul).
  reflexivity.
Qed.

Lemma toFixed2_whole (n b : N) : (0 < b)%N -> JS.toFixed2 (n * b) b = (100 * n)%N.
Proof.
  intros Hb. unfold JS.toFixed2.
  symmetry. apply (N.div_unique _ _ _ b); [lia|]. lia.
Qed.

Lemma floor_log_multiple (n i : N) :
  (1 <= n < 1024)%N -> Format.floor_log (n * Format.k ^ i) Format.k = i.
Proof.
  intros Hn. unfold Format.floor_log. rewrite FormatFacts.k_pow.
  rewrite N.log2_mul_pow2 by lia.
  change (N.log2 Format.k) with 10%N.
  assert (L : (N.log2 n < 10)%N).
  { apply N.log2_lt_pow2; [lia|]. change (2 ^ 10)%N with 1024%N. lia. }
  symmetry. apply (N.div_unique _ _ _ (N.log2 n)); [exact L | lia].
Qed.

Lemma formatFileSize_multiple (n i : N) :
  (1 <= n < 1024)%N ->
  Format.formatFileSize (n * 1024 ^ i)
  = (JS.natural_to_string n ++ " " ++ nth (N.to_nat i) Format.sizes "undefined")%string.
Proof.
  intros Hn. change 1024%N with Format.k.
  assert (Kp : (0 < Format.k ^ i)%N)
    by (apply N.neq_0_lt_0, N.pow_nonzero; discriminate).
  unfold Format.formatFileSize.
  replace (n * Format.k ^ i =? 0)%N with false by (symmetry; apply N.eqb_neq; lia).
  cbn zeta. rewrite (floor_log_multiple n i Hn).
  rewrite (toFixed2_whole n _ Kp), hundredths_whole. reflexivity.
Qed.

Lemma floor_log_large (bytes : N) :
  (1024 ^ 4 <= bytes)%N -> (4 <= Format.floor_log bytes Format.k)%N.
Proof.
  intros H. unfold Format.floor_log. change (N.log2 Format.k) with 10%N.
  assert (L : (40 <= N.log2 bytes)%N).
  { change 40%N with (N.log2 (1024 ^ 4)). now apply N.log2_le_mono. }
  apply (N.div_le_lower_bound); lia.
Qed.

Lemma sizes_beyond (i : N) :
  (4 <= i)%N -> nth (N.to_nat i) Format.sizes "undefined" = "undefined".
Proof.
  intros H. apply nth_overflow. cbn. lia.
Qed.

Lemma toFixed2_top (bytes i : N) :
  (bytes < 1024 ^ (i + 1))%N ->
  (200 * (1024 ^ (i + 1) - bytes) <= 1024 ^ i)%N ->
  JS.toFixed2 bytes (1024 ^ i) = 102400%N.
Proof.
  intros Hi Near. rewrite N.pow_add_r, N.pow_1_r in *.
  assert (Kp : (0 < 1024 ^ i)%N)
    by (apply N.neq_0_lt_0, N.pow_nonzero; discriminate).
  set (K := (1024 ^ i)%N) in *. unfold JS.toFixed2.
  symmetry. apply (N.div_unique _ _ _ (200 * bytes + K - 204800 * K)); lia.
Qed.

Lemma floor_log_in_range (bytes i : N) :
  (1024 ^ i <= bytes < 1024 ^ (i + 1))%N -> Format.floor_log bytes Format.k = i.
Proof.
  intros [Lo Hi].
  assert (Pos : (0 < bytes)%N).
  { assert (0 < 1024 ^ i)%N by (apply N.neq_0_lt_0, N.pow_nonzero; discriminate). lia. }
  destruct (FormatFacts.floor_log_bounds bytes Pos) as [Lo' Hi'].
  change Format.k with 1024%N in *.
  set (j := Format.floor_log bytes 1024) in *.
  assert (A : (1024 ^ i < 1024 ^ (j + 1))%N) by lia.
  assert (B : (1024 ^ j < 1024 ^ (i + 1))%N) by lia.
  apply N.pow_lt_mono_r_iff in A; [|lia].
  apply N.pow_lt_mono_r_iff in B; [|lia]. lia.
Qed.

(** X1.  A whole number of units is printed without a fraction: for
    [n] from 1 to 1023 and a unit that exists, [n] times the unit is
    printed as the decimal numeral of [n], a space and the unit's name;
    so 1023 is [1023 Bytes], 16,777,216 is [16 MB]. *)
Theorem formatFileSize_whole_units (n i : N) (unit : string) :
  (1 <= n < 1024)%N ->
  nth_error Format.sizes (N.to_nat i) = Some unit ->
  Format.formatFileSize (n * 1024 ^ i)
  = (JS.natural_to_string n ++ " " ++ unit)%string.
Proof.
  intros Hn U. rewrite (formatFileSize_multiple n i Hn).
  now rewrite (nth_error_nth _ _ _ U).
Qed.

Lemma formatFileSize_whole_units_witness :
  Format.formatFileSize (16 * 1024 ^ 2) = "16 MB".
Proof.
  apply (formatFileSize_whole_units 16 2 "MB"); [lia | reflexivity].
Defined.

(** X2.  Just below a unit the number rounds up to 1024 and the unit
    does not change: a byte count within half a hundredth of the
    current unit below the next unit is printed as [1024] and the
    current unit, as 1,048,575 is [1024 KB] and not [1 MB]. *)
Theorem formatFileSize_rounds_up_to_1024 (bytes i : N) (unit : string) :
  (1024 ^ i <= bytes < 1024 ^ (i + 1))%N ->
  (200 * (1024 ^ (i + 1) - bytes) <= 1024 ^ i)%N ->
  nth_error Format.sizes (N.to_nat i) = Some unit ->
  Format.formatFileSize bytes = ("1024 " ++ unit)%string.
Proof.
  intros Rg Near U.
  assert (Pos : (0 < bytes)%N).
  { assert (0 < 1024 ^ i)%N by (apply N.neq_0_lt_0, N.pow_nonzero; discriminate). lia. }
  unfold Format.formatFileSize.
  replace (bytes =? 0)%N with false by (symmetry; apply N.eqb_neq; lia).
  cbn zeta. rewrite (floor_log_in_range bytes i Rg).
  change Format.k with 1024%N.
  rewrite (toFixed2_top bytes i (proj2 Rg) Near).
  rewrite (nth_error_nth _ _ _ U). reflexivity.
Qed.

Lemma formatFileSize_rounds_up_to_1024_witness :
  Format.formatFileSize 1048575 = "1024 KB".
Proof.
  apply (formatFileSize_rounds_up_to_1024 1048575 1 "KB").
  - split; [vm_compute; discriminate | vm_compute; reflexivity].
  - vm_compute. discriminate.
  - reflexivity.
Defined.

(** X3.  [formatFileSize] has no unit after GB: from 1024^4 bytes on,
    [sizes[i]] is [undefined] and the text ends with that word; one
    tebibyte is printed as [1 undefined]. *)
Theorem formatFileSize_beyond_GB (bytes : N) :
  (1024 ^ 4 <= bytes)%N ->
  (exists number,
      Format.formatFileSize bytes = (number ++ " undefined")%string)
  /\ Format.formatFileSize (1024 ^ 4) = "1 undefined".
Proof.
  intros H. split; [|vm_compute; reflexivity].
  unfold Format.formatFileSize.
  replace (bytes =? 0)%N with false
    by (symmetry; apply N.eqb_neq; intros E; rewrite E in H; vm_compute in H; now apply H).
  cbn zeta. rewrite (sizes_beyond _ (floor_log_large bytes H)).
  eexists. reflexivity.
Qed.

Lemma formatFileSize_beyond_GB_witness :
  exists number,
    Format.formatFileSize 5000000000000 = (number ++ " undefined")%string.
Proof.
  refine (proj1 (formatFileSize_beyond_GB 5000000000000 _)).
  vm_compute. discriminate.
Defined.

(** ** What [parseInt] makes of a field value *)

Lemma digit_not_white (c : ascii) : JS.is_digit c = true -> JS.isWhiteSpace c = false.
Proof.
  intros D. pose proof (NumberFacts.digit_code c D) as Cc. unfold JS.isWhiteSpace.
  destruct (Nat.leb_spec 9 (JS.code c)), (Nat.leb_spec (JS.code c) 13),
    (Nat.eqb_spec (JS.code c) 32), (Nat.eqb_spec (JS.code c) 160);
    try reflexivity; lia.
Qed.

Lemma trimStart_white (ws t : string) :
  JS.all_white ws = true ->
  match t with String c _ => JS.isWhiteSpace c = false | EmptyString => True end ->
  JS.trimStart (ws ++ t)%string = t.
Proof.
  intros W T. induction ws as [|c r IH].
  - cbn [append]. destruct t as [|c r]; [reflexivity|]. cbn [JS.trimStart].
    now rewrite T.
  - cbn [JS.all_white] in W. apply andb_true_iff in W. destruct W as [Wc Wr].
    cbn [append JS.trimStart]. rewrite Wc. now apply IH.
Qed.

Lemma radixDigits_stop (rest : string) :
  JS.stops_reading rest = true -> JS.radixDigits 10 rest = [].
Proof.
  destruct rest as [|c r]; [reflexivity|]. cbn [JS.stops_reading JS.radixDigits].
  intros H. apply andb_true_iff in H. destruct H as [H _].
  apply andb_true_iff in H. destruct H as [H _]. apply negb_true_iff in H.
  unfold JS.is_digit in H. unfold JS.digitValue. cbn zeta. rewrite H.
  destruct ((97 <=? JS.code c)%nat && (JS.code c <=? 122)%nat) eqn:L.
  - apply andb_true_iff in L. destruct L as [L1 L2].
    apply Nat.leb_le in L1, L2.
    replace (Z.of_nat (JS.code c - 87) <? 10)%Z with false
      by (symmetry; apply Z.ltb_ge; lia).
    reflexivity.
  - destruct ((65 <=? JS.code c)%nat && (JS.code c <=? 90)%nat) eqn:U; [|reflexivity].
    apply andb_true_iff in U. destruct U as [U1 U2].
    apply Nat.leb_le in U1, U2.
    replace (Z.of_nat (JS.code c - 55) <? 10)%Z with false
      by (symmetry; apply Z.ltb_ge; lia).
    reflexivity.
Qed.

Lemma radixDigits_prefix (s rest : string) :
  JS.digits_only s = true -> JS.stops_reading rest = true ->
  JS.radixDigits 10 (s ++ rest)%string = JS.radixDigits 10 s.
Proof.
  intros D St. induction s as [|c r IH].
  - cbn [append]. now rewrite radixDigits_stop.
  - cbn [JS.digits_only] in D. apply andb_true_iff in D. destruct D as [Dc Dr].
    cbn [append JS.radixDigits]. destruct (JS.digitValue c) as [d|]; [|reflexivity].
    destruct (d <? 10)%Z; [|reflexivity]. now rewrite IH.
Qed.

(** [parseInt] on white space, an optional sign, a decimal numeral and
    whatever follows it. *)
Lemma parseInt_numeral (ws sign s rest : string) :
  JS.all_white ws = true ->
  sign = "" \/ sign = "+" \/ sign = "-" ->
  JS.digits_only s = true -> s <> "" ->
  JS.stops_reading rest = true ->
  JS.parseInt (ws ++ sign ++ s ++ rest)%string
  = JS.Int ((if String.eqb sign "-" then -1 else 1) * JS.read s)%Z.
Proof.
  intros W Sg D Ne St. destruct s as [|c r]; [contradiction|]. clear Ne.
  pose proof D as D0.
  cbn [JS.digits_only] in D. apply andb_true_iff in D. destruct D as [Dc Dr].
  pose proof (NumberFacts.digit_code c Dc) as Cc.
  assert (Wc : JS.isWhiteSpace c = false) by now apply digit_not_white.
  assert (Hex : match (r ++ rest)%string with
                | String x r' =>
                    Ascii.eqb c "0" && (Ascii.eqb x "x" || Ascii.eqb x "X")
                | EmptyString => false
                end = false).
  { destruct r as [|x r'].
    - cbn [append]. destruct rest as [|x r']; [reflexivity|].
      cbn [JS.stops_reading] in St. apply andb_true_iff in St. destruct St as [St X2].
      apply andb_true_iff in St. destruct St as [_ X1].
      apply negb_true_iff in X1, X2. rewrite X1, X2. apply andb_false_r.
    - cbn [append]. cbn [JS.digits_only] in Dr. apply andb_true_iff in Dr.
      destruct Dr as [Dx _]. pose proof (NumberFacts.digit_code x Dx) as Cx.
      rewrite (NumberFacts.eqb_code x "x") by (cbn; lia).
      rewrite (NumberFacts.eqb_code x "X") by (cbn; lia).
      apply andb_false_r. }
  assert (R : JS.radixDigits 10 (String c r ++ rest)%string
              = JS.radixDigits 10 (String c r)) by now apply radixDigits_prefix.
  assert (Rn : JS.radixDigits 10 (String c r) <> []).
  { destruct (NumberFacts.digitValue_digit c Dc) as [E B]. cbn [JS.radixDigits]. rewrite E.
    replace (Z.of_nat (JS.code c - 48) <? 10)%Z with true
      by (symmetry; now apply Z.ltb_lt).
    discriminate. }
  assert (Tail : forall sign0 : Z,
             (let '(R0, S2) :=
                match String c (r ++ rest) with
                | String c0 (String x r0) =>
                    if Ascii.eqb c0 "0" && (Ascii.eqb x "x" || Ascii.eqb x "X")
                    then (16%Z, r0) else (10%Z, String c (r ++ rest))
                | _ => (10%Z, String c (r ++ rest))
                end in
              match JS.radixDigits R0 S2 with
              | [] => JS.NaN
              | ds => JS.Int (sign0 * JS.digitsValue R0 ds)
              end)
             = JS.Int (sign0 * JS.read (String c r))%Z).
  { intros sign0. cbn [append] in R. unfold JS.read.
    destruct (r ++ rest)%string as [|x r0] eqn:E.
    - rewrite R.
      destruct (JS.radixDigits 10 (String c r)); [contradiction | reflexivity].
    - rewrite Hex, R.
      destruct (JS.radixDigits 10 (String c r)); [contradiction | reflexivity]. }
  unfold JS.parseInt.
  rewrite trimStart_white; [|exact W|].
  - destruct Sg as [-> |[-> | ->]].
    + cbn [append String.eqb]. 
      rewrite (NumberFacts.eqb_code c "-") by (cbn; lia).
      rewrite (NumberFacts.eqb_code c "+") by (cbn; lia).
      apply (Tail 1%Z).
    + cbn [append]. change (Ascii.eqb "+" "-") with false.
      change (Ascii.eqb "+" "+") with true. cbn iota.
      change (String.eqb "+" "-") with false. cbn iota. apply (Tail 1%Z).
    + cbn [append]. change (Ascii.eqb "-" "-") with true. cbn iota.
      change (String.eqb "-" "-") with true. cbn iota. apply (Tail (-1)%Z).
  - destruct Sg as [-> |[-> | ->]]; cbn [append]; [exact Wc | reflexivity | reflexivity].
Qed.

(** ** Timers, events and exceptions through a handler *)

Lemma same_timers_bind {A B} (m : M A) (f : A -> M B) :
  same_timers m -> (forall a, same_timers (f a)) -> same_timers (bind m f).
Proof.
  intros Hm Hf s. unfold bind. destruct (Hm s) as [T1 N1].
  destruct (m s) as [s1 [a|]]; cbn [fst] in *.
  - destruct (Hf a s1) as [T2 N2]. split; congruence.
  - now split.
Qed.

Lemma same_timers_deref {A} (o : option A) : same_timers (deref o).
Proof. destruct o; intros s; split; reflexivity. Qed.

Ltac same_timers_step :=
  first
    [ apply same_timers_bind; [|intros ?]
    | apply same_timers_deref
    | match goal with
      | |- same_timers (match ?x with _ => _ end) => destruct x
      | |- same_timers (if ?x then _ else _) => destruct x
      end
    | (intros ?; split; reflexivity) ].

Lemma main_showError_same_timers (m : string) : same_timers (MainJs.showError m).
Proof. unfold MainJs.showError. repeat same_timers_step. Qed.

Lemma main_showLoading_same_timers (m : string) : same_timers (MainJs.showLoading m).
Proof. unfold MainJs.showLoading. repeat same_timers_step. Qed.

Lemma main_onChange_same_timers (k : key) : same_timers (MainJs.onChange k).
Proof.
  unfold MainJs.onChange, MainJs.element.
  repeat first [ apply main_showError_same_timers | same_timers_step ].
Qed.

Lemma main_onForecastSubmit_same_timers : same_timers MainJs.onForecastSubmit.
Proof.
  unfold MainJs.onForecastSubmit.
  repeat first [ apply main_showError_same_timers | apply main_showLoading_same_timers
               | same_timers_step ].
Qed.

Lemma main_onUploadSubmit_same_timers (o : option key) :
  same_timers (MainJs.onUploadSubmit o).
Proof.
  unfold MainJs.onUploadSubmit, MainJs.element.
  repeat first [ apply main_showError_same_timers | apply main_showLoading_same_timers
               | same_timers_step ].
Qed.

Lemma same_event_bind {A B} (m : M A) (f : A -> M B) :
  same_event m -> (forall a, same_event (f a)) -> same_event (bind m f).
Proof.
  intros Hm Hf s. unfold bind. pose proof (Hm s) as E1.
  destruct (m s) as [s1 [a|]]; cbn [fst] in *.
  - rewrite (Hf a s1). exact E1.
  - exact E1.
Qed.

Lemma same_event_deref {A} (o : option A) : same_event (deref o).
Proof. destruct o; intros s; reflexivity. Qed.

Ltac same_event_step :=
  first
    [ apply same_event_bind; [|intros ?]
    | apply same_event_deref
    | match goal with
      | |- same_event (match ?x with _ => _ end) => destruct x
      | |- same_event (if ?x then _ else _) => destruct x
      end
    | (intros ?; reflexivity) ].

Lemma main_showError_same_event (m : string) : same_event (MainJs.showError m).
Proof. unfold MainJs.showError. repeat same_event_step. Qed.

Lemma main_showLoading_same_event (m : string) : same_event (MainJs.showLoading m).
Proof. unfold MainJs.showLoading. repeat same_event_step. Qed.

Lemma returns_bind {A B} (m : M A) (f : A -> M B) :
  returns m -> (forall a, returns (f a)) -> returns (bind m f).
Proof.
  intros Hm Hf s. unfold bind. pose proof (Hm s) as E.
  destruct (m s) as [s1 [a|]]; cbn [snd] in *; [apply Hf | contradiction].
Qed.

Ltac returns_step :=
  first
    [ apply returns_bind; [|intros ?]
    | match goal with
      | |- returns (match ?x with _ => _ end) => destruct x
      | |- returns (if ?x then _ else _) => destruct x
      end
    | (intros ?; discriminate) ].

(** ** More about the tree *)

Lemma lookup_element (d : node) (x : elem) :
  NoDup (keys d) -> In x (elements d) -> lookup (nkey x) d = Some x.
Proof.
  intros N Hx. unfold lookup.
  destruct (RowFacts.find_in (has_key (nkey x)) (elements d) x Hx) as [y Fy].
  - unfold has_key. apply Nat.eqb_refl.
  - rewrite Fy. f_equal. destruct (find_some _ _ Fy) as [Hy Ky].
    apply Nat.eqb_eq in Ky.
    exact (RowFacts.key_unique nkey (elements d) y x N Hy Hx Ky).
Qed.

Lemma getElementById_ids (d : node) (i j : string) (x y : elem) :
  NoDup (keys d) -> getElementById i d = Some x -> getElementById j d = Some y ->
  i <> j -> nkey x <> nkey y.
Proof.
  intros N Fx Fy Ne E. destruct (find_some _ _ Fx) as [Hx Ix].
  destruct (find_some _ _ Fy) as [Hy Iy].
  assert (x = y) by exact (RowFacts.key_unique nkey (elements d) x y N Hx Hy E).
  subst y. unfold has_id in *. apply String.eqb_eq in Ix, Iy. congruence.
Qed.

(** The rows after a child is put in front of the children of [k], on
    a page where [k] names one element. *)
Lemma after_split (k : key) (c : node) (R : list (option key * elem)) :
  NoDup (map (fun r => nkey (snd r)) R) ->
  In k (map (fun r => nkey (snd r)) R) ->
  exists R1 r R2,
    R = R1 ++ r :: R2 /\ nkey (snd r) = k
    /\ flat_map (after k c) R = R1 ++ r :: rows_from (Some k) c ++ R2.
Proof.
  intros N Hk. apply in_map_iff in Hk. destruct Hk as (r & Kr & Hr).
  destruct (in_split r R Hr) as (R1 & R2 & E). subst R.
  rewrite map_app in N. cbn [map] in N. rewrite Kr in N.
  assert (N1 : ~ In k (map (fun r => nkey (snd r)) R1)).
  { intros H. apply NoDup_remove_2 in N. apply N. apply in_or_app. now left. }
  assert (N2 : ~ In k (map (fun r => nkey (snd r)) R2)).
  { intros H. apply NoDup_remove_2 in N. apply N. apply in_or_app. now right. }
  exists R1, r, R2. split; [reflexivity|]. split; [exact Kr|].
  rewrite flat_map_app. cbn [flat_map].
  rewrite (RowFacts.after_absent k c R1 N1), (RowFacts.after_absent k c R2 N2).
  unfold after at 1. unfold has_key. rewrite Kr, Nat.eqb_refl.
  cbn [app]. reflexivity.
Qed.

Lemma rows_prepend_split (k : key) (c : node) (d : node) :
  NoDup (keys d) -> In k (keys d) ->
  exists R1 r R2,
    rows d = R1 ++ r :: R2 /\ nkey (snd r) = k
    /\ rows (prepend k c d) = R1 ++ r :: rows_from (Some k) c ++ R2.
Proof.
  intros N Hk. rewrite RowFacts.keys_as_rows in N, Hk.
  destruct (after_split k c (rows d) N Hk) as (R1 & r & R2 & E & Kr & A).
  exists R1, r, R2. split; [exact E|]. split; [exact Kr|].
  unfold rows at 1. rewrite DomFacts.rows_prepend. exact A.
Qed.

Lemma count_class_insert (c : string) (R1 R2 : list (option key * elem))
    (r : option key * elem) (q : option key) (e : elem) :
  has_class c e = true ->
  List.length (filter (has_class c) (map snd (R1 ++ r :: (q, e) :: R2)))
  = S (List.length (filter (has_class c) (map snd (R1 ++ r :: R2)))).
Proof.
  intros H. rewrite !map_app, !filter_app, !length_app. cbn [map snd filter].
  rewrite H. destruct (has_class c (snd r)); cbn [List.length]; lia.
Qed.

Lemma filter_map_assigned (p : elem -> bool) (k : key) (g : elem -> elem)
    (l : list elem) :
  (forall e, p (g e) = p e) ->
  List.length (filter p (map (assigned k g) l)) = List.length (filter p l).
Proof.
  intros Hp. induction l as [|x r IH]; [reflexivity|]. cbn [map filter].
  assert (E : p (assigned k g x) = p x).
  { unfold assigned. destruct (has_key k x); [apply Hp | reflexivity]. }
  rewrite E. destruct (p x); cbn [List.length]; now rewrite IH.
Qed.

(** Once [remove k] has run, no element below the root has key [k]. *)
Lemma keys_remove_gone (k : key) :
  forall d, nkey (elem_of d) <> k -> ~ In k (keys (remove k d)).
Proof.
  intros d. induction d as [e cs IH] using node_ind. intros Hroot.
  cbn [remove elem_of] in *. rewrite DomFacts.keys_Node. intros [H|H]; [contradiction|].
  clear Hroot. induction IH as [|c0 r Hc _ IHr].
  - exact H.
  - destruct (Nat.eqb (nkey (elem_of c0)) k) eqn:K.
    + now apply IHr.
    + cbn [flat_map] in H. apply in_app_or in H. destruct H as [H|H].
      * apply Hc in H; [exact H|]. now apply Nat.eqb_neq.
      * now apply IHr.
Qed.

(** Removing an element that is not in the tree changes nothing. *)
Lemma remove_absent (k : key) :
  forall d, ~ In k (keys d) -> remove k d = d.
Proof.
  intros d. induction d as [e cs IH] using node_ind. intros Nk.
  rewrite DomFacts.keys_Node in Nk. cbn [remove]. f_equal.
  assert (Nc : ~ In k (flat_map keys cs)) by (intros H; apply Nk; now right).
  clear Nk. induction IH as [|c0 r Hc _ IHr]; [reflexivity|].
  cbn [flat_map] in Nc.
  assert (N0 : ~ In k (keys c0)) by (intros H; apply Nc, in_or_app; now left).
  assert (Nr : ~ In k (flat_map keys r)) by (intros H; apply Nc, in_or_app; now right).
  replace (Nat.eqb (nkey (elem_of c0)) k) with false.
  - rewrite (Hc N0), (IHr Nr). reflexivity.
  - symmetry. apply Nat.eqb_neq. intros E. apply N0. destruct c0 as [e0 cs0].
    rewrite DomFacts.keys_Node. left. exact E.
Qed.

(** Removing the element that was just appended to the root. *)
Lemma remove_appended (k : key) (x : elem) (d : node) :
  ~ In k (keys d) -> nkey x = k ->
  remove k (insertChild false (Node x []) d) = d.
Proof.
  destruct d as [e cs]. intros Nk Kx. rewrite DomFacts.keys_Node in Nk.
  cbn [insertChild remove]. f_equal.
  assert (Nc : ~ In k (flat_map keys cs)) by (intros H; apply Nk; now right).
  clear Nk. induction cs as [|c0 r IHr].
  - cbn [app elem_of]. rewrite Kx, Nat.eqb_refl. reflexivity.
  - cbn [flat_map] in Nc.
    assert (N0 : ~ In k (keys c0)) by (intros H; apply Nc, in_or_app; now left).
    assert (Nr : ~ In k (flat_map keys r)) by (intros H; apply Nc, in_or_app; now right).
    cbn [app].
    replace (Nat.eqb (nkey (elem_of c0)) k) with false.
    + rewrite (remove_absent k c0 N0), (IHr Nr). reflexivity.
    + symmetry. apply Nat.eqb_neq. intros E. apply N0. destruct c0 as [e0 cs0].
      rewrite DomFacts.keys_Node. left. exact E.
Qed.

Lemma rows_insertChild_last (c : node) (d : node) :
  rows (insertChild false c d) = rows d ++ rows_from (Some (nkey (elem_of d))) c.
Proof.
  destruct d as [e cs]. unfold rows. cbn [insertChild rows_from elem_of].
  rewrite flat_map_app. cbn [flat_map]. now rewrite app_nil_r.
Qed.

Lemma parentNode_absent (k : key) (d : node) :
  ~ In k (keys d) -> parentNode k d = None.
Proof.
  intros Nk. unfold parentNode.
  destruct (find (fun r : option key * elem => has_key k (snd r)) (rows d))
    as [[p x]|] eqn:F; [|reflexivity].
  exfalso. destruct (find_some _ _ F) as [Hr Kr]. apply Nk.
  apply Nat.eqb_eq in Kr. cbn [snd] in Kr. rewrite <- Kr, RowFacts.keys_as_rows.
  exact (in_map (fun r => nkey (snd r)) _ (p, x) Hr).
Qed.

Lemma find_key_absent (k : key) (d : node) :
  ~ In k (keys d) ->
  find (fun r : option key * elem => has_key k (snd r)) (rows d) = None.
Proof.
  intros Nk.
  destruct (find (fun r : option key * elem => has_key k (snd r)) (rows d))
    as [[p x]|] eqn:F; [|reflexivity].
  exfalso. destruct (find_some _ _ F) as [Hr Kr]. apply Nk.
  apply Nat.eqb_eq in Kr. cbn [snd] in Kr. rewrite <- Kr, RowFacts.keys_as_rows.
  exact (in_map (fun r => nkey (snd r)) _ (p, x) Hr).
Qed.

Lemma parentNode_root (d : node) : parentNode (nkey (elem_of d)) d = None.
Proof.
  destruct d as [e cs]. unfold parentNode, rows. cbn [rows_from find snd elem_of].
  unfold has_key. now rewrite Nat.eqb_refl.
Qed.

Lemma rows_parent_some :
  forall d q r, In r (rows_from (Some q) d) -> fst r <> None.
Proof.
  intros d. induction d as [e cs IH] using node_ind. intros q r Hr.
  cbn [rows_from] in Hr. destruct Hr as [<-|Hr]; [discriminate|].
  apply in_flat_map in Hr. destruct Hr as (c & Hc & Hr).
  rewrite Forall_forall in IH. exact (IH c Hc _ _ Hr).
Qed.

(** Only the root has no parent: an element without parent that is not
    the root is not in the tree. *)
Lemma parentNode_none (k : key) (d : node) :
  parentNode k d = None -> nkey (elem_of d) <> k -> ~ In k (keys d).
Proof.
  intros Pn Hroot Hk. unfold parentNode in Pn.
  destruct (find (fun r : option key * elem => has_key k (snd r)) (rows d))
    as [[p x]|] eqn:F.
  - subst p. destruct (find_some _ _ F) as [Hr Kr]. cbn [snd] in Kr.
    apply Nat.eqb_eq in Kr. destruct d as [e cs]. unfold rows in Hr.
    cbn [rows_from elem_of] in Hr, Hroot. destruct Hr as [[= <-]|Hr]; [contradiction|].
    apply in_flat_map in Hr. destruct Hr as (c & _ & Hr).
    now apply rows_parent_some in Hr.
  - rewrite RowFacts.keys_as_rows in Hk. apply in_map_iff in Hk.
    destruct Hk as (r & Kr & Hr).
    apply (find_none _ _ F) in Hr. unfold has_key in Hr. rewrite Kr in Hr.
    now rewrite Nat.eqb_refl in Hr.
Qed.

(** The root keeps its identity through the updates the scripts make. *)
Lemma root_update (k : key) (f : node -> node) (d : node) :
  (forall n, nkey (elem_of (f n)) = nkey (elem_of n)) ->
  nkey (elem_of (update k f d)) = nkey (elem_of d).
Proof.
  intros Hf. destruct d as [e cs]. cbn [update].
  destruct (Nat.eqb (nkey e) k); [rewrite Hf|]; reflexivity.
Qed.

Lemma root_prepend (k : key) (c d : node) :
  nkey (elem_of (prepend k c d)) = nkey (elem_of d).
Proof. apply root_update. intros [e cs]. reflexivity. Qed.

Lemma root_set_innerHTML (k : key) (h : string) (d : node) :
  nkey (elem_of (set_innerHTML k h d)) = nkey (elem_of d).
Proof. apply root_update. intros [e cs]. reflexivity. Qed.

Lemma root_clear_value (k : key) (d : node) :
  nkey (elem_of (set_elem k clear_value d)) = nkey (elem_of d).
Proof. apply root_update. intros [e cs]. reflexivity. Qed.

(** Two file names, against the extension test. *)
Lemma txt_name_is_not_csv : ~ JS.ends_with_ci "notes.txt" ".csv".
Proof. intros H. apply StringFacts.csv_name_test in H. discriminate. Qed.

Lemma data_name_is_csv : JS.ends_with_ci "data.csv" ".csv".
Proof. apply StringFacts.csv_name_test. reflexivity. Qed.

(** ** main.js on pages it was not written for, and what it leaves behind *)

(** The forecast handler on any page, case by case. *)
Lemma onForecastSubmit_cases (s : state) :
  MainJs.onForecastSubmit s
  = match getElementById "product" (document s) with
    | None => (s, None)
    | Some product =>
        if String.eqb (value product) "" then
          MainJs.showError "Please select a product." (with_defaultPrevented true s)
        else
          match getElementById "days" (document s) with
          | None => (s, None)
          | Some days =>
              if JS.isNaN (JS.parseInt (value days))
                 || JS.lt (JS.parseInt (value days)) 1
                 || JS.gt (JS.parseInt (value days)) 90
              then MainJs.showError "Please enter a valid number of days (1-90)."
                     (with_defaultPrevented true s)
              else MainJs.showLoading "Generating forecast..." s
          end
    end.
Proof.
  unfold MainJs.onForecastSubmit, bind, gets.
  destruct (getElementById "product" (document s)) as [product|]; [|reflexivity].
  cbn [deref ret]. destruct (String.eqb (value product) ""); [reflexivity|].
  destruct (getElementById "days" (document s)) as [days|]; [|reflexivity].
  cbn [deref ret]. cbn zeta.
  destruct (JS.isNaN (JS.parseInt (value days)) || JS.lt (JS.parseInt (value days)) 1
            || JS.gt (JS.parseInt (value days)) 90); reflexivity.
Qed.

Lemma main_showLoading_run (m : string) (s : state) :
  MainJs.showLoading m s
  = (with_document
       (insertChild false (Node (main_overlay (nextKey s) m) []) (document s))
       (with_nextKey (S (nextKey s)) s), Some tt).
Proof. reflexivity. Qed.

(** X4.  How the forecast handler reads the horizon: [parseInt] skips
    leading white space, takes an optional sign and the decimal digits,
    and ignores whatever follows them.  With a product chosen, a days
    value made of white space, a sign, the numeral of [n] and any text
    that does not start with a digit is blocked exactly when the sign is
    a minus or [n] is outside 1..90: [45.9] and [30 days] go through. *)
Theorem forecast_horizon_is_read_leniently (s : state) (product days : elem)
    (ws sign rest : string) (n : N) :
  getElementById "product" (document s) = Some product ->
  getElementById "days" (document s) = Some days ->
  value product <> "" -> defaultPrevented s = false ->
  JS.all_white ws = true -> sign = "" \/ sign = "+" \/ sign = "-" ->
  JS.stops_reading rest = true ->
  value days = (ws ++ sign ++ JS.natural_to_string n ++ rest)%string ->
  (defaultPrevented (exec MainJs.onForecastSubmit s) = true
   <-> sign = "-" \/ (n < 1)%N \/ (90 < n)%N).
Proof.
  intros P D Np NP W Sg St V. unfold exec. rewrite onForecastSubmit_cases, P, D.
  apply String.eqb_neq in Np. rewrite Np, V.
  destruct (NumberFacts.natural_to_string_read n) as (Dg & Rd & Ne).
  rewrite (parseInt_numeral ws sign _ rest W Sg Dg Ne St), Rd.
  cbn [JS.isNaN JS.lt JS.gt orb].
  destruct (String.eqb_spec sign "-") as [E|E].
  - replace ((-1 * Z.of_N n <? 1)%Z || (90 <? -1 * Z.of_N n)%Z) with true
      by (symmetry; apply orb_true_iff; left; apply Z.ltb_lt; lia).
    rewrite main_showError_same_event. cbn [defaultPrevented with_defaultPrevented].
    split; [now left | reflexivity].
  - destruct ((1 * Z.of_N n <? 1)%Z || (90 <? 1 * Z.of_N n)%Z) eqn:B.
    + rewrite main_showError_same_event. cbn [defaultPrevented with_defaultPrevented].
      split; [|reflexivity]. intros _. right.
      apply orb_true_iff in B. rewrite !Z.ltb_lt in B. lia.
    + rewrite main_showLoading_same_event, NP. split; [discriminate|].
      apply orb_false_iff in B. rewrite !Z.ltb_ge in B.
      intros [H|H]; [contradiction | lia].
Qed.

Lemma forecast_horizon_is_read_leniently_witness :
  defaultPrevented
    (exec MainJs.onForecastSubmit (Sample.page (Sample.body [] "widget" " 45.9 days" [])))
  = true
  <-> "" = "-" \/ (45 < 1)%N \/ (90 < 45)%N.
Proof.
  apply (forecast_horizon_is_read_leniently
           (Sample.page (Sample.body [] "widget" " 45.9 days" []))
           (Sample.field 6 "select" "product" "widget")
           (Sample.field 7 "input" "days" " 45.9 days")
           " " "" ".9 days" 45).
  - reflexivity.
  - reflexivity.
  - discriminate.
  - reflexivity.
  - reflexivity.
  - now left.
  - reflexivity.
  - reflexivity.
Defined.

(** X5.  The forecast handler of main.js on a page that may lack the
    fields or a place for the error panel, the fields it has being form
    controls: the submission is cancelled exactly when the product
    field is there and is empty, or is there with a value while the
    days field is there and its value, read by [parseInt], is NaN, below
    1 or above 90, whether or not the error can be shown; when a field
    the handler reads is missing it throws and leaves the page and the
    event as they are; when both values are valid the loading overlay
    is appended to the body. *)
Theorem forecast_submit_with_missing_fields (s : state) :
  defaultPrevented s = false ->
  (forall p, getElementById "product" (document s) = Some p -> is_control p = true) ->
  (forall d, getElementById "days" (document s) = Some d -> is_control d = true) ->
  let r := MainJs.onForecastSubmit s in
  let blocked (days : elem) :=
    JS.isNaN (JS.parseInt (value days)) || JS.lt (JS.parseInt (value days)) 1
    || JS.gt (JS.parseInt (value days)) 90 in
  (defaultPrevented (fst r) = true
   <-> exists product,
         getElementById "product" (document s) = Some product
         /\ (value product = ""
             \/ exists days, getElementById "days" (document s) = Some days
                             /\ blocked days = true))
  /\ (getElementById "product" (document s) = None -> r = (s, None))
  /\ (forall product,
         getElementById "product" (document s) = Some product ->
         value product <> "" ->
         getElementById "days" (document s) = None -> r = (s, None))
  /\ (forall product days,
         getElementById "product" (document s) = Some product ->
         value product <> "" ->
         getElementById "days" (document s) = Some days ->
         blocked days = false ->
         r = (with_document
                (insertChild false
                   (Node (main_overlay (nextKey s) "Generating forecast...") [])
                   (document s))
                (with_nextKey (S (nextKey s)) s), Some tt)).
Proof.
  intros NP _ _ r blocked. unfold r. rewrite onForecastSubmit_cases.
  destruct (getElementById "product" (document s)) as [product|].
  - destruct (String.eqb_spec (value product) "") as [E|E].
    + split; [|split; [discriminate|split]].
      * rewrite main_showError_same_event. cbn [defaultPrevented with_defaultPrevented].
        split; [|reflexivity]. intros _. exists product. split; [reflexivity | now left].
      * intros p [= <-] Hp. contradiction.
      * intros p d [= <-] Hp. contradiction.
    + destruct (getElementById "days" (document s)) as [days|].
      * fold (blocked days). destruct (blocked days) eqn:B.
        -- split; [|split; [discriminate|split]].
           ++ rewrite main_showError_same_event.
              cbn [defaultPrevented with_defaultPrevented].
              split; [|reflexivity]. intros _. exists product.
              split; [reflexivity|]. right. exists days. now split.
           ++ discriminate.
           ++ intros p d [= <-] _ [= <-] B'. congruence.
        -- split; [|split; [discriminate|split]].
           ++ rewrite main_showLoading_same_event. rewrite NP.
              split; [discriminate|].
              intros (p & [= <-] & [Hp|(d & [= <-] & Hd)]); [contradiction | congruence].
           ++ discriminate.
           ++ intros p d _ _ _ _. apply main_showLoading_run.
      * split; [|split; [discriminate|split]].
        -- cbn [fst]. rewrite NP. split; [discriminate|].
           intros (p & [= <-] & [Hp|(d & Hd & _)]); [contradiction | discriminate].
        -- reflexivity.
        -- discriminate.
  - split; [|split; [reflexivity|split]].
    + cbn [fst]. rewrite NP. split; [discriminate|]. intros (p & Hp & _). discriminate.
    + discriminate.
    + discriminate.
Qed.

Lemma forecast_submit_with_missing_fields_witness :
  MainJs.onForecastSubmit (Sample.page (Sample.body [] "widget" "30" []))
  = (with_document
       (insertChild false
          (Node (main_overlay 20 "Generating forecast...") [])
          (Sample.body [] "widget" "30" []))
       (with_nextKey 21 (Sample.page (Sample.body [] "widget" "30" []))), Some tt).
Proof.
  refine (proj2 (proj2 (proj2
            (forecast_submit_with_missing_fields
               (Sample.page (Sample.body [] "widget" "30" [])) eq_refl _ _)))
            (Sample.field 6 "select" "product" "widget")
            (Sample.field 7 "input" "days" "30") eq_refl _ eq_refl eq_refl).
  - intros p [= <-]. reflexivity.
  - intros d [= <-]. reflexivity.
  - discriminate.
Defined.

(** X6.  The upload form of main.js on a page whose elements are
    distinct and that may lack the file input, the [#dataset] it has
    being a file input: the submission is cancelled exactly when the
    page has a [#dataset] input with no file selected; with a file the
    loading overlay is appended to the body; on a page without
    [#dataset] the handler throws when it reads [fileInput.files] and
    the form is submitted as it is, with no overlay. *)
Theorem upload_submit_with_missing_input (s : state) (form : elem) :
  NoDup (keys (document s)) ->
  getElementById "upload-form" (document s) = Some form ->
  (forall input, getElementById "dataset" (document s) = Some input ->
                 is_file_input input = true) ->
  let r := MainJs.DOMContentLoaded (document s) in
  let s' := exec (MainJs.submit r (nkey form)) s in
  (defaultPrevented s' = true
   <-> exists input, getElementById "dataset" (document s) = Some input
                     /\ files input = [])
  /\ (getElementById "dataset" (document s) = None ->
      MainJs.submit r (nkey form) s = (with_defaultPrevented false s, None))
  /\ (forall input f rest,
         getElementById "dataset" (document s) = Some input ->
         files input = f :: rest ->
         s' = with_document
                (insertChild false
                   (Node (main_overlay (nextKey s) "Uploading and processing data...") [])
                   (document s))
                (with_nextKey (S (nextKey s)) (with_defaultPrevented false s))).
Proof.
  intros N U _ r s'.
  assert (F : MainJs.is_ref (MainJs.forecastForm r) (nkey form) = false).
  { unfold r, MainJs.DOMContentLoaded. cbn [MainJs.forecastForm].
    destruct (getElementById "forecast-form" (document s)) as [ff|] eqn:Ff;
      [|reflexivity].
    cbn [option_map MainJs.is_ref]. apply Nat.eqb_neq.
    apply (getElementById_ids (document s) "forecast-form" "upload-form"); try assumption.
    discriminate. }
  assert (Run : MainJs.submit r (nkey form) s
                = MainJs.onUploadSubmit
                    (option_map nkey (getElementById "dataset" (document s)))
                    (with_defaultPrevented false s)).
  { unfold MainJs.submit, bind, new_event. rewrite F.
    unfold r, MainJs.DOMContentLoaded. cbn [MainJs.uploadForm MainJs.fileInput].
    rewrite U. cbn [option_map MainJs.is_ref]. now rewrite Nat.eqb_refl. }
  unfold s', exec. rewrite Run.
  destruct (getElementById "dataset" (document s)) as [input|] eqn:D.
  - assert (L : lookup (nkey input) (document s) = Some input).
    { apply lookup_element; [exact N|]. exact (proj1 (find_some _ _ D)). }
    cbn [option_map]. unfold MainJs.onUploadSubmit, MainJs.element, bind, gets.
    cbn [deref ret document with_defaultPrevented]. rewrite L. cbn [deref ret].
    destruct (files input) as [|f rest] eqn:Ff.
    + cbn [preventDefault]. split; [|split; [discriminate|]].
      * rewrite main_showError_same_event. cbn [defaultPrevented with_defaultPrevented].
        split; [|reflexivity]. intros _. exists input. now split.
      * intros i f rest [= <-] Hf. congruence.
    + split; [|split; [discriminate|]].
      * rewrite main_showLoading_same_event. cbn [defaultPrevented with_defaultPrevented].
        split; [discriminate|]. intros (i & [= <-] & Hi). congruence.
      * intros i f0 rest0 _ _. reflexivity.
  - cbn [option_map]. split; [|split; [reflexivity | discriminate]].
    cbn [fst defaultPrevented with_defaultPrevented MainJs.onUploadSubmit deref throw bind].
    split; [discriminate|]. intros (i & Hi & _). discriminate.
Qed.

Lemma upload_submit_with_missing_input_witness :
  defaultPrevented
    (exec (MainJs.submit
             (MainJs.DOMContentLoaded (Sample.body [] "" "" []))
             3)
       (Sample.page (Sample.body [] "" "" [])))
  = true
  <-> exists input, getElementById "dataset" (Sample.body [] "" "" []) = Some input
                    /\ files input = [].
Proof.
  refine (proj1 (upload_submit_with_missing_input
                   (Sample.page (Sample.body [] "" "" []))
                   (Sample.form 3 "upload-form" "http://localhost:5000/upload")
                   _ eq_refl _)).
  - exact (proj1 (SampleFacts.sample_wf [] "" "")).
  - intros input [= <-]. reflexivity.
Defined.

(** X7.  [showError] of main.js throws exactly when the page has neither
    an [#error-alert] nor a [.card-body]: [querySelector] returns [null]
    and the call of [prepend] on it is a TypeError.  The panel that was
    built is then lost: the document is what it was, with no error on
    it. *)
Theorem main_showError_throws_without_host (s : state) (m : string) :
  (snd (MainJs.showError m s) = None <-> error_host (document s) = false)
  /\ (error_host (document s) = false ->
      document (exec (MainJs.showError m) s) = document s
      /\ getElementById "error-alert" (document (exec (MainJs.showError m) s)) = None)
  /\ (error_host (document s) = true -> snd (MainJs.showError m s) = Some tt).
Proof.
  unfold error_host.
  destruct (getElementById "error-alert" (document s)) as [ea|] eqn:F.
  - rewrite (MainJsFacts.showError_found s m ea F). cbn [snd is_some orb].
    split; [split; discriminate|]. split; [discriminate | reflexivity].
  - destruct (querySelector_class "card-body" (document s)) as [cb|] eqn:C.
    + assert (E : snd (MainJs.showError m s) = Some tt).
      { unfold MainJs.showError, bind, gets. rewrite F.
        cbn [createElement with_nextKey document nextKey fst snd]. rewrite C.
        reflexivity. }
      rewrite E. cbn [is_some orb].
      split; [split; discriminate|]. split; [discriminate | reflexivity].
    + unfold exec. rewrite (MainJsFacts.showError_throws s m F C).
      cbn [fst snd is_some orb document with_nextKey].
      split; [split; reflexivity|]. split; [|discriminate].
      intros _. split; [reflexivity | exact F].
Qed.

(** X8.  [showError] of main.js on a page with distinct elements, no
    [#error-alert] and a [.card-body]: the new panel becomes the first
    child of the first [.card-body] in document order, every other
    element stays where it was, and the close button the function built
    with [createElement] is not in the document: the assignment to
    [innerHTML] replaced it with markup. *)
Theorem main_showError_puts_panel_first (s : state) (m : string) (cb : elem) :
  wf s ->
  getElementById "error-alert" (document s) = None ->
  querySelector_class "card-body" (document s) = Some cb ->
  let s' := exec (MainJs.showError m) s in
  (exists R1 q R2,
      rows (document s) = R1 ++ (q, cb) :: R2
      /\ rows (document s')
         = R1 ++ (q, cb) :: (Some (nkey cb), error_panel (nextKey s) m) :: R2)
  /\ getElementById "error-alert" (document s') = Some (error_panel (nextKey s) m)
  /\ parentNode (nextKey s) (document s') = Some (nkey cb)
  /\ ~ In (S (nextKey s)) (keys (document s')).
Proof.
  intros [N Fr] F C s'.
  assert (E : s' = with_document
                     (prepend (nkey cb) (Node (error_panel (nextKey s) m) [])
                        (document s))
                     (with_nextKey (S (S (nextKey s))) s)).
  { unfold s', exec. now rewrite (MainJsFacts.showError_created s m cb Fr F C). }
  rewrite E. cbn [document with_document].
  destruct (find_some _ _ C) as [Hcb Ccb].
  assert (Hk : In (nkey cb) (keys (document s))) by (apply in_map; exact Hcb).
  destruct (rows_prepend_split (nkey cb) (Node (error_panel (nextKey s) m) [])
              (document s) N Hk) as (R1 & [q x] & R2 & E1 & Kx & E2).
  cbn [snd] in Kx.
  assert (Ex : x = cb).
  { apply (RowFacts.key_unique nkey (elements (document s))); try assumption.
    unfold elements. rewrite E1, map_app. apply in_or_app. right. now left. }
  subst x. cbn [rows_from flat_map app] in E2.
  assert (Nn : forall n, nextKey s <= n -> ~ In n (keys (document s))).
  { intros n Hn Hi. unfold fresh in Fr. rewrite Forall_forall in Fr.
    specialize (Fr n Hi). lia. }
  assert (Old : forall n, nextKey s <= n ->
                          find (fun r : option key * elem => has_key n (snd r))
                            (R1 ++ (q, cb) :: R2) = None).
  { intros n Hn. rewrite <- E1.
    destruct (find (fun r : option key * elem => has_key n (snd r)) (rows (document s)))
      as [r|] eqn:Fd; [|reflexivity].
    exfalso. destruct (find_some _ _ Fd) as [Hr Kr]. apply (Nn n Hn).
    apply Nat.eqb_eq in Kr. rewrite <- Kr, RowFacts.keys_as_rows.
    now apply (in_map (fun r => nkey (snd r))). }
  split; [|split; [|split]].
  - exists R1, q, R2. split; [exact E1 | exact E2].
  - destruct (MainJsFacts.showError_new s m cb (conj N Fr) F C) as (G & _). exact G.
  - unfold parentNode. rewrite E2.
    pose proof (Old (nextKey s) (Nat.le_refl _)) as O.
    rewrite RowFacts.find_app in O |- *.
    destruct (find (fun r : option key * elem => has_key (nextKey s) (snd r)) R1);
      [discriminate|].
    cbn [find snd] in O |- *.
    destruct (has_key (nextKey s) cb); [discriminate|].
    unfold has_key at 1. cbn [nkey error_panel]. now rewrite Nat.eqb_refl.
  - rewrite RowFacts.keys_as_rows, E2. intros H.
    apply in_map_iff in H. destruct H as (r & Kr & Hr).
    apply in_app_or in Hr. cbn [In] in Hr.
    assert (Hold : In r (rows (document s)) \/ r = (Some (nkey cb), error_panel (nextKey s) m)).
    { rewrite E1. rewrite in_app_iff. cbn [In]. destruct Hr as [Hr|[Hr|[Hr|Hr]]]; auto. }
    destruct Hold as [Hr'| ->].
    + apply (Nn (S (nextKey s))); [lia|]. rewrite RowFacts.keys_as_rows, <- Kr.
      now apply (in_map (fun r => nkey (snd r))).
    + cbn in Kr. lia.
Qed.

Lemma main_showError_puts_panel_first_witness :
  parentNode 20
    (document (exec (MainJs.showError "Please select a product.")
                 (Sample.page (Sample.body [] "" "" []))))
  = Some 2.
Proof.
  refine (proj1 (proj2 (proj2
            (main_showError_puts_panel_first (Sample.page (Sample.body [] "" "" []))
               "Please select a product." (Sample.el 2 "div" "" ["card-body"])
               _ eq_refl eq_refl)))).
  apply SampleFacts.sample_wf.
Defined.

(** What a query finds once main.js has written the file's name and
    size, for a query that the file-information panel does not answer
    and that does not look at markup. *)
Lemma main_info_written_find (k : key) (input : elem) (s : state) (f : File)
    (q : elem -> bool) :
  main_page k input s ->
  (forall h e, q (with_innerHTML h e) = q e) ->
  (forall n h, q (info_panel n h) = false) ->
  is_some (find q (elements (document (main_info_written k f s))))
  = is_some (find q (elements (document s))).
Proof.
  intros ((N & Fr) & L & Id & (p & Pp) & Cf) Qh Qp.
  unfold main_info_written.
  destruct (getElementById "file-info" (document s)) as [f0|] eqn:F.
  - cbn [document with_document].
    rewrite RowFacts.elements_set_elem by apply RowFacts.plain_with_innerHTML.
    rewrite RowFacts.find_map_assigned by (intros e; apply Qh).
    destruct (find q (elements (document s))); reflexivity.
  - rewrite Pp. cbn [document with_document with_nextKey].
    destruct (MainJsFacts.parentNode_row k p (document s) Pp) as (xk & Hxk).
    assert (Hp : In p (keys (document s))).
    { destruct (DomFacts.parents_in_keys (document s) None p xk Hxk) as [?|?];
        [discriminate | assumption]. }
    destruct (RowFacts.rows_appendChild_leaf p
                (info_panel (nextKey s)
                   (MainJs.file_info_html (name f) (Format.formatFileSize (size f))))
                (document s) N Hp) as (R1 & R2 & E1 & E2).
    unfold elements. rewrite E1, E2, !map_app. cbn [map snd].
    rewrite RowFacts.find_insert_other by apply Qp. reflexivity.
Qed.

(** X9.  A file that is not a CSV file and whose name brings no tag of
    its own, selected on a page of main.js that has no place for the
    error panel: the handler shows the file's name and size (a size
    that has a unit), then [showError] throws, and the two statements
    that would have cleared the input and removed the panel never run.
    The file stays selected and displayed, and no error is on the
    page. *)
Theorem main_rejection_needs_error_host (k : key) (input : elem) (s : state)
    (f : File) (rest : list File) :
  main_page k input s -> files input = f :: rest -> name f <> "" ->
  ~ JS.ends_with_ci (name f) ".csv" ->
  JS.no_tag (name f) = true -> (size f < 1024 ^ 4)%N ->
  error_host (document s) = false ->
  let s' := exec (MainJs.onChange k) s in
  snd (MainJs.onChange k s) = None
  /\ document s' = document (main_info_written k f s)
  /\ lookup k (document s') = Some input
  /\ (exists fi, getElementById "file-info" (document s') = Some fi
                 /\ innerHTML fi
                    = MainJs.file_info_html (name f) (Format.formatFileSize (size f)))
  /\ getElementById "error-alert" (document s') = None.
Proof.
  intros P Ff Nm Ext _ _ H s'.
  destruct (MainJsFacts.main_onChange_steps k input s f rest P Ff Nm)
    as (Run & (fi & G & _ & Hfi) & L & _ & _).
  unfold error_host in H. apply orb_false_iff in H. destruct H as [H1 H2].
  assert (F2 : getElementById "error-alert" (document (main_info_written k f s)) = None).
  { pose proof (main_info_written_find k input s f (has_id "error-alert") P
                  (fun _ _ => eq_refl) (fun _ _ => eq_refl)) as E.
    unfold getElementById in *. rewrite H1 in E.
    destruct (find (has_id "error-alert")
                (elements (document (main_info_written k f s))));
      [discriminate | reflexivity]. }
  assert (C2 : querySelector_class "card-body" (document (main_info_written k f s))
               = None).
  { pose proof (main_info_written_find k input s f (has_class "card-body") P
                  (fun _ _ => eq_refl) (fun _ _ => eq_refl)) as E.
    unfold querySelector_class in *. rewrite H2 in E.
    destruct (find (has_class "card-body")
                (elements (document (main_info_written k f s))));
      [discriminate | reflexivity]. }
  assert (R : MainJs.onChange k s
              = (with_nextKey (S (S (nextKey (main_info_written k f s))))
                   (main_info_written k f s), None)).
  { rewrite Run.
    replace (JS.endsWith (JS.toLowerCase (name f)) ".csv") with false
      by (symmetry; apply not_true_iff_false; now rewrite StringFacts.csv_name_test).
    cbn [negb]. unfold MainJs.reject, bind.
    now rewrite (MainJsFacts.showError_throws _ _ F2 C2). }
  unfold s', exec. rewrite R. cbn [fst snd document with_nextKey].
  split; [reflexivity|]. split; [reflexivity|]. split; [exact L|].
  split; [|exact F2]. exists fi. now split.
Qed.

Lemma main_rejection_needs_error_host_witness :
  lookup 4 (document (exec (MainJs.onChange 4) (Sample.bare [Sample.notes])))
  = Some (Sample.file_input 4 [Sample.notes]).
Proof.
  refine (proj1 (proj2 (proj2
            (main_rejection_needs_error_host 4 (Sample.file_input 4 [Sample.notes])
               (Sample.bare [Sample.notes]) Sample.notes [] _ eq_refl _
               txt_name_is_not_csv eq_refl eq_refl eq_refl)))).
  - split; [split|].
    + cbv [keys elements rows rows_from Sample.bare Sample.page document map snd
             flat_map app nkey Sample.el Sample.form Sample.file_input].
      repeat constructor; simpl; intuition discriminate.
    + unfold fresh.
      cbv [keys elements rows rows_from Sample.bare Sample.page document map snd
             flat_map app nkey Sample.el Sample.form Sample.file_input nextKey].
      repeat constructor.
    + split; [reflexivity|]. split; [reflexivity|].
      split; [exists 3; reflexivity | reflexivity].
  - discriminate.
Defined.

Lemma main_showError_root (m : string) (s : state) :
  nkey (elem_of (document (exec (MainJs.showError m) s)))
  = nkey (elem_of (document s)).
Proof.
  unfold exec, MainJs.showError, bind, gets.
  destruct (getElementById "error-alert" (document s)) as [ea|].
  - cbn [ret fst modify_document document with_document]. apply root_set_innerHTML.
  - cbn [createElement with_nextKey document nextKey fst snd].
    destruct (querySelector_class "card-body" (document s)) as [cb|]; [|reflexivity].
    cbn [deref ret fst modify_document document with_document with_nextKey].
    now rewrite root_set_innerHTML, root_prepend.
Qed.

(** X10.  When main.js rejects a file, the file-information panel it
    had just written to, whether it found it on the page or created it,
    is taken out of the document. *)
Theorem main_rejection_removes_file_info (k : key) (input : elem) (s : state)
    (f : File) (rest : list File) :
  main_page k input s -> main_error_place (document s) ->
  files input = f :: rest -> name f <> "" ->
  ~ JS.ends_with_ci (name f) ".csv" ->
  let s' := exec (MainJs.onChange k) s in
  let panel := match getElementById "file-info" (document s) with
               | Some f0 => nkey f0
               | None => nextKey s
               end in
  ~ In panel (keys (document s'))
  /\ snd (MainJs.onChange k s) = Some tt.
Proof.
  intros P H Ff Nm Ext s' panel.
  destruct (MainJsFacts.main_onChange_steps k input s f rest P Ff Nm)
    as (Run & _ & _ & _ & T).
  specialize (T H). change (main_info_key s) with panel in *.
  set (s2 := main_info_written k f s) in *.
  destruct T as (W2 & (inp & L2) & Fk & Lf & _ & _ & H2).
  destruct (MainJsFacts.showError_spec s2 "Please select a CSV file." W2 H2)
    as (s3 & R & _).
  assert (Root : nkey (elem_of (document s3)) <> panel).
  { replace s3 with (exec (MainJs.showError "Please select a CSV file.") s2)
      by (unfold exec; now rewrite R).
    rewrite main_showError_root.
    apply (RowFacts.leaf_root panel (document s2) inp Lf).
    - exact (proj1 (find_some _ _ L2)).
    - destruct (find_some _ _ L2) as [_ Ki]. apply Nat.eqb_eq in Ki. congruence. }
  assert (E : MainJs.onChange k s
              = (with_document
                   (remove panel (set_elem k clear_value (document s3))) s3, Some tt)).
  { rewrite Run.
    replace (JS.endsWith (JS.toLowerCase (name f)) ".csv") with false
      by (symmetry; apply not_true_iff_false; now rewrite StringFacts.csv_name_test).
    cbn [negb]. unfold MainJs.reject, bind. rewrite R. reflexivity. }
  unfold s', exec. rewrite E. cbn [fst snd document with_document].
  split; [|reflexivity]. apply keys_remove_gone. now rewrite root_clear_value.
Qed.

Lemma main_rejection_removes_file_info_witness :
  ~ In 20 (keys (document (exec (MainJs.onChange 4) (Sample.selected Sample.notes)))).
Proof.
  refine (proj1 (main_rejection_removes_file_info 4 (Sample.file_input 4 [Sample.notes])
                   (Sample.selected Sample.notes) Sample.notes []
                   (SampleFacts.sample_main_page Sample.notes) _ eq_refl _
                   txt_name_is_not_csv)).
  - repeat split.
  - discriminate.
Defined.

(** X11.  main.js keeps one file-information panel: when a CSV file
    whose name brings no tag of its own is selected, the page has
    afterwards as many [#file-info] elements as before, or one if it
    had none; selecting files again and again does not pile panels
    up. *)
Theorem main_keeps_one_file_info (k : key) (input : elem) (s : state)
    (f : File) (rest : list File) :
  main_page k input s -> files input = f :: rest ->
  JS.ends_with_ci (name f) ".csv" ->
  JS.no_tag (name f) = true ->
  count_id "file-info" (document (exec (MainJs.onChange k) s))
  = Nat.max 1 (count_id "file-info" (document s)).
Proof.
  intros P Ff Ext _.
  destruct (MainJsFacts.main_accepts_csv k input s f rest P Ff Ext) as (E & _).
  cbn zeta in E. rewrite E. clear E.
  destruct P as ((N & Fr) & L & Id & (p & Pp) & Cf).
  unfold main_info_written, count_id.
  destruct (getElementById "file-info" (document s)) as [f0|] eqn:F.
  - cbn [document with_document].
    rewrite RowFacts.elements_set_elem by apply RowFacts.plain_with_innerHTML.
    rewrite filter_map_assigned
      by (apply RowFacts.plain_has_id, RowFacts.plain_with_innerHTML).
    destruct (find_some _ _ F) as [Hf If].
    assert (In f0 (filter (has_id "file-info") (elements (document s))))
      by (apply filter_In; now split).
    destruct (filter (has_id "file-info") (elements (document s)));
      [contradiction | cbn [List.length]; lia].
  - rewrite Pp. cbn [document with_document with_nextKey].
    destruct (MainJsFacts.parentNode_row k p (document s) Pp) as (xk & Hxk).
    assert (Hp : In p (keys (document s))).
    { destruct (DomFacts.parents_in_keys (document s) None p xk Hxk) as [?|?];
        [discriminate | assumption]. }
    destruct (RowFacts.rows_appendChild_leaf p
                (info_panel (nextKey s)
                   (MainJs.file_info_html (name f) (Format.formatFileSize (size f))))
                (document s) N Hp) as (R1 & R2 & E1 & E2).
    assert (Z : filter (has_id "file-info") (elements (document s)) = []).
    { destruct (filter (has_id "file-info") (elements (document s))) as [|x r] eqn:Fl;
        [reflexivity|].
      assert (Hx : In x (filter (has_id "file-info") (elements (document s))))
        by (rewrite Fl; now left).
      apply filter_In in Hx. destruct Hx as [Hx Ix].
      unfold getElementById in F. rewrite (find_none _ _ F x Hx) in Ix. discriminate. }
    rewrite Z. unfold elements in Z |- *. rewrite E1 in Z. rewrite E2.
    rewrite map_app, filter_app in Z |- *. cbn [map snd filter].
    change (has_id "file-info" (info_panel _ _)) with true. cbn iota.
    apply app_eq_nil in Z. destruct Z as [Z1 Z2]. rewrite Z1, Z2. reflexivity.
Qed.

Lemma main_keeps_one_file_info_witness :
  count_id "file-info"
    (document (exec (MainJs.onChange 4) (Sample.selected Sample.small)))
  = Nat.max 1 (count_id "file-info" (document (Sample.selected Sample.small))).
Proof.
  exact (main_keeps_one_file_info 4 (Sample.file_input 4 [Sample.small])
           (Sample.selected Sample.small) Sample.small []
           (SampleFacts.sample_main_page Sample.small) eq_refl data_name_is_csv
           eq_refl).
Defined.

(** X12.  No function or handler of main.js sets a timer: an error
    panel of main.js is never closed by the script, it stays until the
    user closes it or the next error replaces its message. *)
Theorem main_js_sets_no_timer (s : state) :
  (forall m, timers (exec (MainJs.showError m) s) = timers s)
  /\ (forall m, timers (exec (MainJs.showLoading m) s) = timers s)
  /\ (forall r el, timers (exec (MainJs.change r el) s) = timers s)
  /\ (forall r form, timers (exec (MainJs.submit r form) s) = timers s).
Proof.
  split; [intros m; exact (proj1 (main_showError_same_timers m s))|].
  split; [intros m; exact (proj1 (main_showLoading_same_timers m s))|].
  split; intros r x.
  - assert (T : same_timers (MainJs.change r x)); [|exact (proj1 (T s))].
    unfold MainJs.change.
    repeat first [ apply main_onChange_same_timers | same_timers_step ].
  - assert (T : same_timers (MainJs.submit r x)); [|exact (proj1 (T s))].
    unfold MainJs.submit.
    repeat first [ apply main_onForecastSubmit_same_timers
                 | apply main_onUploadSubmit_same_timers | same_timers_step ].
Qed.

(** ** The second script: panels, rejections and the overlay *)

(** One call of [showError] in the second script, on a page with
    distinct elements: where the panel goes and what stays. *)
Lemma script_showError_step (s : state) (m : string) :
  wf s ->
  let s' := exec (Script.showError m) s in
  let panel := script_error_panel (nextKey s) m in
  let home := error_home (document s) in
  s' = with_timers (timers s ++ [{| due := (now s + 10000)%N; target := nextKey s |}])
         (with_document (prepend home (Node panel []) (document s))
            (with_nextKey (S (nextKey s)) s))
  /\ wf s'
  /\ exists R1 r R2,
       rows (document s) = R1 ++ r :: R2 /\ nkey (snd r) = home
       /\ rows (document s') = R1 ++ r :: (Some home, panel) :: R2.
Proof.
  intros [N Fr] s' panel home.
  assert (E : s' = with_timers
                     (timers s ++ [{| due := (now s + 10000)%N; target := nextKey s |}])
                     (with_document (prepend home (Node panel []) (document s))
                        (with_nextKey (S (nextKey s)) s))).
  { unfold s', exec. now rewrite (ScriptFacts.showError_effect s m N). }
  assert (Nn : ~ In (nextKey s) (keys (document s)))
    by (apply MainJsFacts.fresh_not_in; exact Fr).
  split; [exact E|]. rewrite E. cbn [document with_timers with_document]. split.
  - split.
    + cbn [document with_timers with_document].
      apply RowFacts.NoDup_prepend; [exact N | exact Nn].
    + unfold fresh. cbn [document nextKey with_timers with_document with_nextKey].
      rewrite Forall_forall. intros y Hy. unfold keys in Hy.
      apply in_map_iff in Hy. destruct Hy as (x & <- & Hx).
      apply RowFacts.in_prepend_inv in Hx. destruct Hx as [Hx| ->].
      * unfold fresh in Fr. rewrite Forall_forall in Fr.
        specialize (Fr _ (in_map nkey _ _ Hx)). lia.
      * cbn. lia.
  - destruct (rows_prepend_split home (Node panel []) (document s) N
                (ScriptFacts.error_home_in (document s)))
      as (R1 & r & R2 & E1 & Kr & E2).
    exists R1, r, R2. split; [exact E1|]. split; [exact Kr | exact E2].
Qed.

(** X13.  [showError] of the second script on a page with distinct
    elements: the new panel becomes the first child of the first
    [.container] in document order, or of the body when the page has
    none, and every other element stays where it was; the function
    never throws. *)
Theorem script_showError_puts_panel_first (s : state) (m : string) :
  wf s ->
  let s' := exec (Script.showError m) s in
  let panel := script_error_panel (nextKey s) m in
  let home := match querySelector_class "container" (document s) with
              | Some c => nkey c
              | None => nkey (elem_of (document s))
              end in
  snd (Script.showError m s) = Some tt
  /\ (exists R1 r R2,
         rows (document s) = R1 ++ r :: R2 /\ nkey (snd r) = home
         /\ rows (document s') = R1 ++ r :: (Some home, panel) :: R2)
  /\ parentNode (nextKey s) (document s') = Some home
  /\ wf s'.
Proof.
  intros W s' panel home.
  destruct (script_showError_step s m W) as (E & W' & R1 & r & R2 & E1 & Kr & E2).
  fold s' in E, W', E2. change (error_home (document s)) with home in *.
  fold panel in E2.
  split; [now rewrite ScriptFacts.showError_run|].
  split; [exists R1, r, R2; now repeat split|]. split; [|exact W'].
  destruct W as [N Fr].
  assert (Nn : ~ In (nextKey s) (keys (document s)))
    by (apply MainJsFacts.fresh_not_in; exact Fr).
  unfold parentNode. rewrite E2.
  assert (O : find (fun x : option key * elem => has_key (nextKey s) (snd x))
                (R1 ++ r :: R2) = None).
  { rewrite <- E1.
    destruct (find (fun x : option key * elem => has_key (nextKey s) (snd x))
                (rows (document s))) as [x|] eqn:Fd; [|reflexivity].
    exfalso. destruct (find_some _ _ Fd) as [Hx Kx]. apply Nn.
    apply Nat.eqb_eq in Kx. rewrite <- Kx, RowFacts.keys_as_rows.
    now apply (in_map (fun r => nkey (snd r))). }
  rewrite RowFacts.find_app in O |- *.
  destruct (find (fun x : option key * elem => has_key (nextKey s) (snd x)) R1);
    [discriminate|].
  cbn [find] in O |- *.
  destruct (has_key (nextKey s) (snd r)); [discriminate|].
  unfold has_key at 1. cbn [snd nkey panel script_error_panel].
  now rewrite Nat.eqb_refl.
Qed.

Lemma script_showError_puts_panel_first_witness :
  parentNode 20
    (document (exec (Script.showError "File size exceeds 16MB limit")
                 (Sample.page (Sample.body [] "" "" []))))
  = Some 1.
Proof.
  refine (proj1 (proj2 (proj2
            (script_showError_puts_panel_first (Sample.page (Sample.body [] "" "" []))
               "File size exceeds 16MB limit" _)))).
  apply SampleFacts.sample_wf.
Defined.

Lemma script_showErrors_run (messages : list string) :
  forall s, wf s ->
  let s' := Script.showErrors messages s in
  wf s'
  /\ count_class "alert-danger" (document s')
     = count_class "alert-danger" (document s) + List.length messages
  /\ nextKey s' = nextKey s + List.length messages
  /\ now s' = now s
  /\ timers s'
     = timers s
       ++ map (fun i => {| due := (now s + 10000)%N; target := nextKey s + i |})
            (seq 0 (List.length messages)).
Proof.
  induction messages as [|m ms IH]; intros s W.
  - unfold Script.showErrors. cbn [fold_left List.length seq map].
    rewrite !Nat.add_0_r, app_nil_r. split; [exact W|]. now repeat split.
  - cbn zeta. change (Script.showErrors (m :: ms) s)
      with (Script.showErrors ms (exec (Script.showError m) s)).
    destruct (script_showError_step s m W) as (E & W1 & R1 & r & R2 & E1 & Kr & E2).
    set (s1 := exec (Script.showError m) s) in *.
    destruct (IH s1 W1) as (W' & C' & K' & N' & T'). cbn zeta in *.
    assert (K1 : nextKey s1 = S (nextKey s)) by (rewrite E; reflexivity).
    assert (N1 : now s1 = now s) by (rewrite E; reflexivity).
    assert (T1 : timers s1
                 = timers s ++ [{| due := (now s + 10000)%N; target := nextKey s |}])
      by (rewrite E; reflexivity).
    assert (C1 : count_class "alert-danger" (document s1)
                 = S (count_class "alert-danger" (document s))).
    { unfold count_class, elements. rewrite E2, E1.
      now apply count_class_insert. }
    split; [exact W'|]. cbn [List.length].
    split; [rewrite C', C1; lia|]. split; [rewrite K', K1; lia|].
    split; [congruence|].
    rewrite T', T1, N1, K1, <- app_assoc. f_equal. cbn [seq map app].
    rewrite Nat.add_0_r. f_equal. rewrite <- seq_shift, map_map.
    apply map_ext. intros i. f_equal. lia.
Qed.

(** X14.  Error panels of the second script pile up: after a sequence of
    calls of [showError] the page holds one more [.alert-danger] element
    per call, and one timer per call was added, each due 10 s after the
    call for the panel of that call; the page keeps distinct
    elements. *)
Theorem script_showError_stacks_panels (s : state) (messages : list string) :
  wf s ->
  let s' := Script.showErrors messages s in
  count_class "alert-danger" (document s')
  = count_class "alert-danger" (document s) + List.length messages
  /\ timers s'
     = timers s
       ++ map (fun i => {| due := (now s + 10000)%N; target := nextKey s + i |})
            (seq 0 (List.length messages))
  /\ wf s'.
Proof.
  intros W s'.
  destruct (script_showErrors_run messages s W) as (W' & C & _ & _ & T).
  split; [exact C|]. split; [exact T | exact W'].
Qed.

Lemma script_showError_stacks_panels_witness :
  count_class "alert-danger"
    (document
       (Script.showErrors ["Please select a CSV file"; "File size exceeds 16MB limit"]
          (Sample.page (Sample.body [] "" "" []))))
  = count_class "alert-danger" (Sample.body [] "" "" []) + 2.
Proof.
  refine (proj1 (script_showError_stacks_panels (Sample.page (Sample.body [] "" "" []))
                   ["Please select a CSV file"; "File size exceeds 16MB limit"] _)).
  apply SampleFacts.sample_wf.
Defined.

(** X15.  A file that is both too large and not a CSV file, and whose
    name brings no tag of its own, in the second script: the two tests
    are independent, so the handler shows two error panels, one per
    message, and sets two timers, each due 10 s later for its own
    panel. *)
Theorem script_shows_both_errors (k : key) (input : elem) (s : state)
    (f : File) (rest : list File) :
  script_page k input s -> script_error_place (document s) ->
  files input = f :: rest ->
  (16777216 < size f)%N -> ~ JS.ends_with_ci (name f) ".csv" ->
  JS.no_tag (name f) = true ->
  let s' := exec (Script.onChange k) s in
  In (script_error_panel (nextKey s) "Please select a CSV file")
    (elements (document s'))
  /\ In (script_error_panel (S (nextKey s)) "File size exceeds 16MB limit")
       (elements (document s'))
  /\ timers s'
     = timers s ++ [{| due := (now s + 10000)%N; target := nextKey s |};
                    {| due := (now s + 10000)%N; target := S (nextKey s) |}].
Proof.
  intros P Pl Ff Sz Ext _ s'.
  assert (Hs : shown_size input = size f) by (unfold shown_size; now rewrite Ff).
  assert (B1 : (0 <? shown_size input)%N
               && negb (JS.endsWith (JS.toLowerCase (shown_name input)) ".csv") = true).
  { apply andb_true_iff. split.
    - rewrite Hs. apply N.ltb_lt. lia.
    - apply negb_true_iff, not_true_iff_false. intros H.
      now apply (ScriptFacts.shown_name_csv input f rest Ff) in H. }
  assert (B2 : (16 * 1024 * 1024 <? shown_size input)%N = true)
    by (rewrite Hs; apply N.ltb_lt; exact Sz).
  destruct (script_rejections k input s true true P Pl B1 B2)
    as (_ & T & P1 & P2 & _).
  fold s' in T, P1, P2. split; [now apply P1|]. split; [now apply P2 | exact T].
Qed.

Lemma script_shows_both_errors_witness :
  timers (exec (Script.onChange 4) (Sample.selected Sample.big_notes))
  = [{| due := 10000%N; target := 20 |}; {| due := 10000%N; target := 21 |}].
Proof.
  refine (proj2 (proj2
            (script_shows_both_errors 4 (Sample.file_input 4 [Sample.big_notes])
               (Sample.selected Sample.big_notes) Sample.big_notes []
               (SampleFacts.sample_script_page _) eq_refl eq_refl _
               txt_name_is_not_csv eq_refl))).
  reflexivity.
Defined.

(** X16.  When the second script rejects a file, for its name or for its
    size, the file-information panel stays on the page and is left with
    no markup: what the handler had just written there is erased. *)
Theorem script_rejection_blanks_file_info (k : key) (input : elem) (s : state)
    (f : File) (rest : list File) :
  script_page k input s -> script_error_place (document s) ->
  files input = f :: rest ->
  (16777216 < size f)%N \/ ((0 < size f)%N /\ ~ JS.ends_with_ci (name f) ".csv") ->
  let s' := exec (Script.onChange k) s in
  getElementById "file-info" (document s')
  = option_map (with_innerHTML "") (getElementById "file-info" (document s)).
Proof.
  intros P Pl Ff Bad s'.
  assert (Hs : shown_size input = size f) by (unfold shown_size; now rewrite Ff).
  destruct (script_rejections k input s _ _ P Pl eq_refl eq_refl)
    as (_ & _ & _ & _ & G).
  apply G. apply orb_true_iff. rewrite Hs. destruct Bad as [Sz|[Sz Ext]].
  - right. apply N.ltb_lt. exact Sz.
  - left. apply andb_true_iff. split; [now apply N.ltb_lt|].
    apply negb_true_iff, not_true_iff_false. intros H.
    now apply (ScriptFacts.shown_name_csv input f rest Ff) in H.
Qed.

Lemma script_rejection_blanks_file_info_witness :
  getElementById "file-info"
    (document (exec (Script.onChange 4) (Sample.selected_with_panel Sample.notes)))
  = Some (with_innerHTML "" (Sample.el 10 "div" "file-info" ["alert"; "alert-info"])).
Proof.
  refine (script_rejection_blanks_file_info 4 (Sample.file_input 4 [Sample.notes])
            (Sample.selected_with_panel Sample.notes) Sample.notes []
            (SampleFacts.sample_script_page_panel Sample.notes) eq_refl eq_refl _).
  right. split; [reflexivity | exact txt_name_is_not_csv].
Defined.

(** X17.  A change event with no file selected (the user emptied the
    selection).  The second script writes [No file selected] and
    [0 Bytes] in the file-information panel, if the page has one, shows
    no error, sets no timer and creates no element.  main.js does
    nothing at all: a panel that showed the previous file keeps showing
    it. *)
Theorem change_with_no_file (k : key) (input : elem) (s : state) :
  files input = [] ->
  (script_page k input s ->
   let s' := exec (Script.onChange k) s in
   getElementById "file-info" (document s')
   = option_map
       (with_innerHTML (Script.file_info_html "No file selected" "0 Bytes"))
       (getElementById "file-info" (document s))
   /\ keys (document s') = keys (document s)
   /\ timers s' = timers s /\ nextKey s' = nextKey s
   /\ lookup k (document s') = Some input)
  /\ (lookup k (document s) = Some input -> MainJs.onChange k s = (s, Some tt)).
Proof.
  intros Ff. split.
  - intros P s'.
    destruct (ScriptFacts.tracked_after_info k input s P) as (_ & L1 & K1 & _ & G & _).
    assert (Hs : shown_size input = 0%N) by (unfold shown_size; now rewrite Ff).
    assert (Hn : shown_name input = "No file selected")
      by (unfold shown_name; now rewrite Ff).
    assert (E : Script.onChange k s
                = (with_document (script_info_written input (document s)) s, Some tt)).
    { apply ScriptFacts.onChange_accepts; [exact P | |]; rewrite Hs; reflexivity. }
    unfold s', exec. rewrite E. cbn [fst]. rewrite Hs, Hn in G.
    split; [exact G|]. split; [exact K1|]. split; [reflexivity|].
    split; [reflexivity | exact L1].
  - intros L. unfold MainJs.onChange, MainJs.element, bind, gets. rewrite L.
    cbn [deref ret]. now rewrite Ff.
Qed.

Lemma change_with_no_file_witness :
  getElementById "file-info"
    (document (exec (Script.onChange 4)
                 (Sample.page (Sample.body [] "" "" [Sample.info_panel]))))
  = Some (with_innerHTML (Script.file_info_html "No file selected" "0 Bytes")
            (Sample.el 10 "div" "file-info" ["alert"; "alert-info"])).
Proof.
  refine (proj1 (proj1 (change_with_no_file 4 (Sample.file_input 4 [])
                          (Sample.page (Sample.body [] "" "" [Sample.info_panel]))
                          eq_refl) _)).
  split; [apply SampleFacts.sample_wf_panel|]. repeat split.
Defined.

Lemma script_showError_returns (m : string) : returns (Script.showError m).
Proof. unfold Script.showError. repeat returns_step. Qed.

Lemma script_showError_same_event (m : string) : same_event (Script.showError m).
Proof. unfold Script.showError. repeat same_event_step. Qed.

Lemma script_showLoading_same_event (m : string) : same_event (Script.showLoading m).
Proof. unfold Script.showLoading. repeat same_event_step. Qed.

Lemma script_blank_info_same_event (o : option elem) : same_event (Script.blank_info o).
Proof. unfold Script.blank_info. repeat same_event_step. Qed.

(** X18.  The second script shows its errors without throwing and
    never cancels an event: [showError] always returns, and so does the
    change listener on a file input, since wherever the error panel is
    to go there is a place for it (the body if nothing else) and a
    missing file-information panel is skipped; no handler calls
    [preventDefault]: a rejected file is only cleared from the input,
    and every form is submitted. *)
Theorem second_script_never_throws (s : state) :
  (forall m, snd (Script.showError m s) = Some tt)
  /\ (forall k input, lookup k (document s) = Some input ->
                      is_file_input input = true ->
                      snd (Script.onChange k s) = Some tt)
  /\ (forall k, defaultPrevented (exec (Script.onChange k) s) = defaultPrevented s)
  /\ (forall form,
         defaultPrevented (exec (Script.onFormSubmit form) s) = defaultPrevented s)
  /\ (forall r form, defaultPrevented (exec (Script.submit r form) s) = false).
Proof.
  split; [intros m; now rewrite ScriptFacts.showError_run|].
  split; [|split; [|split]].
  - intros k input L _.
    assert (R : forall (fi : option elem) (n : string) (z : N),
               returns
                 (bind
                    (match fi with
                     | Some fi0 =>
                         modify_document
                           (set_innerHTML (nkey fi0)
                              (Script.file_info_html n (Format.formatFileSize z)))
                     | None => ret tt
                     end)
                    (fun _ =>
                       bind
                         (if (0 <? z)%N && negb (JS.endsWith (JS.toLowerCase n) ".csv")
                          then
                            bind (Script.showError "Please select a CSV file")
                              (fun _ =>
                                 bind (modify_document (set_elem k clear_value))
                                   (fun _ => Script.blank_info fi))
                          else ret tt)
                         (fun _ =>
                            if (16 * 1024 * 1024 <? z)%N
                            then
                              bind (Script.showError "File size exceeds 16MB limit")
                                (fun _ =>
                                   bind (modify_document (set_elem k clear_value))
                                     (fun _ => Script.blank_info fi))
                            else ret tt)))).
    { intros fi n z. unfold Script.blank_info.
      repeat first [ apply script_showError_returns | returns_step ]. }
    unfold Script.onChange, Script.element. unfold bind at 1 2. unfold gets at 1.
    rewrite L. cbn [deref ret]. unfold bind at 1. unfold gets at 1.
    match goal with
    | |- snd (?m ?st) = Some tt =>
        pose proof (R (getElementById "file-info" (document s))
                      (match files input with
                       | [] => "No file selected"
                       | f :: _ => if String.eqb (name f) "" then "No file selected"
                                   else name f
                       end)
                      (match files input with [] => 0%N | f :: _ => size f end) st) as H
    end.
    match goal with
    | |- snd ?x = Some tt => destruct (snd x) as [[]|]; [reflexivity | contradiction]
    end.
  - intros k.
    assert (E : same_event (Script.onChange k)); [|apply E].
    unfold Script.onChange, Script.element.
    repeat first [ apply script_showError_same_event
                 | apply script_blank_info_same_event | same_event_step ].
  - intros form.
    assert (E : same_event (Script.onFormSubmit form)); [|apply E].
    unfold Script.onFormSubmit, Script.element.
    repeat first [ apply script_showLoading_same_event | same_event_step ].
  - intros r form. unfold exec, Script.submit, bind, new_event.
    destruct (existsb (Nat.eqb form) (Script.forms r)); [|reflexivity].
    assert (E : same_event (Script.onFormSubmit form)).
    { unfold Script.onFormSubmit, Script.element.
      repeat first [ apply script_showLoading_same_event | same_event_step ]. }
    specialize (E (with_defaultPrevented false s)).
    destruct (Script.onFormSubmit form (with_defaultPrevented false s)) as [s1 [b|]];
      exact E.
Qed.

(** X19.  [hideLoading] undoes [showLoading]: showing the overlay and
    then hiding the element that [showLoading] returned gives the
    document back as it was; in between, the overlay was the last child
    of the body.  (The new element is a new object: its identity is none
    of those on the page.) *)
Theorem hideLoading_undoes_showLoading (s : state) (m : string) :
  fresh s ->
  let r := Script.showLoading m s in
  snd r = Some (nextKey s)
  /\ rows (document (fst r))
     = rows (document s)
       ++ [(Some (nkey (elem_of (document s))), script_overlay (nextKey s) m)]
  /\ Script.hideLoading (snd r) (fst r) = (with_nextKey (S (nextKey s)) s, Some tt).
Proof.
  intros Fr r.
  assert (Nn : ~ In (nextKey s) (keys (document s)))
    by (apply MainJsFacts.fresh_not_in; exact Fr).
  assert (E : r = (with_document
                     (insertChild false (Node (script_overlay (nextKey s) m) [])
                        (document s))
                     (with_nextKey (S (nextKey s)) s), Some (nextKey s)))
    by reflexivity.
  rewrite E. cbn [fst snd document with_document].
  split; [reflexivity|]. split; [apply rows_insertChild_last|].
  unfold Script.hideLoading, bind, gets. cbn [document with_document].
  assert (Pn : parentNode (nextKey s)
                 (insertChild false (Node (script_overlay (nextKey s) m) [])
                    (document s))
               = Some (nkey (elem_of (document s)))).
  { unfold parentNode. rewrite rows_insertChild_last, RowFacts.find_app.
    rewrite (find_key_absent _ _ Nn).
    cbn [rows_from flat_map find snd script_overlay app]. unfold has_key.
    cbn [nkey]. now rewrite Nat.eqb_refl. }
  rewrite Pn. unfold modify_document. cbn [document with_document].
  rewrite (remove_appended (nextKey s) (script_overlay (nextKey s) m) (document s)
             Nn eq_refl).
  destruct s; reflexivity.
Qed.

Lemma hideLoading_undoes_showLoading_witness :
  Script.hideLoading
    (snd (Script.showLoading "Processing request..." (Sample.page (Sample.body [] "" "" []))))
    (fst (Script.showLoading "Processing request..." (Sample.page (Sample.body [] "" "" []))))
  = (with_nextKey 21 (Sample.page (Sample.body [] "" "" [])), Some tt).
Proof.
  refine (proj2 (proj2 (hideLoading_undoes_showLoading
                          (Sample.page (Sample.body [] "" "" []))
                          "Processing request..." _))).
  exact (proj2 (SampleFacts.sample_wf [] "" "")).
Defined.

(** X20.  [hideLoading] guards its argument: called with [null], or with
    an element that is not in the document, it does nothing; after a
    call the element is not in the document, whatever it contained; and
    a second call with the same element changes nothing, since that
    element has no parent any more. *)
Theorem hideLoading_is_guarded (s : state) :
  Script.hideLoading None s = (s, Some tt)
  /\ (forall el, ~ In el (keys (document s)) ->
                 Script.hideLoading (Some el) s = (s, Some tt))
  /\ (forall el, nkey (elem_of (document s)) <> el ->
                 ~ In el (keys (document (exec (Script.hideLoading (Some el)) s))))
  /\ (forall el,
         exec (Script.hideLoading (Some el)) (exec (Script.hideLoading (Some el)) s)
         = exec (Script.hideLoading (Some el)) s).
Proof.
  assert (Absent : forall el st, ~ In el (keys (document st)) ->
                                 Script.hideLoading (Some el) st = (st, Some tt)).
  { intros el st Nk. unfold Script.hideLoading, bind, gets.
    now rewrite (parentNode_absent el (document st) Nk). }
  assert (Step : forall el,
             (nkey (elem_of (document s)) <> el
              /\ ~ In el (keys (document (exec (Script.hideLoading (Some el)) s))))
             \/ exec (Script.hideLoading (Some el)) s = s).
  { intros el. unfold exec, Script.hideLoading, bind, gets.
    destruct (parentNode el (document s)) as [p|] eqn:Pn; [|now right].
    left. cbn [fst modify_document document with_document].
    assert (Hroot : nkey (elem_of (document s)) <> el).
    { intros E. rewrite <- E, parentNode_root in Pn. discriminate. }
    split; [exact Hroot | now apply keys_remove_gone]. }
  split; [reflexivity|]. split; [exact (fun el => Absent el s)|]. split.
  - intros el Hroot. destruct (Step el) as [[_ Gone]|Same]; [exact Gone|].
    rewrite Same. unfold exec, Script.hideLoading, bind, gets in Same.
    destruct (parentNode el (document s)) as [p|] eqn:Pn.
    + cbn [fst modify_document] in Same. intros Hk.
      apply (keys_remove_gone el (document s) Hroot).
      change (remove el (document s))
        with (document (with_document (remove el (document s)) s)).
      now rewrite Same.
    + now apply parentNode_none.
  - intros el. destruct (Step el) as [[_ Gone]|Same].
    + unfold exec at 1. now rewrite (Absent el _ Gone).
    + now rewrite !Same.
Qed.
